(** * Verification of the leadtrail enrichment core

    Shallow embedding of the modules under [leadtrail/portal/modules]:
    - [website_crawler_v3.py]   : the two-phase precision crawler ([Crawler]);
    - [vat_lookup.py]           : the VAT resolver ([Vat]);
    - [contact_extractor.py]    : the UK contact extractor ([Contact]);
    - [website_hunter_api.py]   : domain extraction from search results ([Hunter]);
    - [linkedin_finder.py]      : LinkedIn result scoring ([LinkedIn]).

    Python [str] values are modelled as [String.string] over ASCII; the
    Python string methods used by the code ([upper], [lower], [strip],
    [startswith], the [in] operator) are written out in [PyStr].  Network
    access and HTML parsing are inputs of the model (Section variables),
    the code around them is translated line by line. *)

From Stdlib Require Import String Ascii List Bool Arith ZArith Lia QArith Lqa.
From Stdlib Require Import Sorting.Sorted Sorting.Permutation.
Import ListNotations.
Open Scope bool_scope.

(* ------------------------------------------------------------------ *)
(** ** Python string primitives *)

Module PyStr.

Local Open Scope nat_scope.

(** [c.isspace()] on ASCII: \t \n \v \f \r, \x1c-\x1f and space. *)
Definition is_space (c : ascii) : bool :=
  let n := nat_of_ascii c in
  ((9 <=? n) && (n <=? 13)) || ((28 <=? n) && (n <=? 32)).

Definition is_digit (c : ascii) : bool :=
  let n := nat_of_ascii c in (48 <=? n) && (n <=? 57).

Definition is_lower (c : ascii) : bool :=
  let n := nat_of_ascii c in (97 <=? n) && (n <=? 122).

Definition is_upper (c : ascii) : bool :=
  let n := nat_of_ascii c in (65 <=? n) && (n <=? 90).

Definition is_alpha (c : ascii) : bool := is_lower c || is_upper c.

Definition char_upper (c : ascii) : ascii :=
  if is_lower c then ascii_of_nat (nat_of_ascii c - 32) else c.

Definition char_lower (c : ascii) : ascii :=
  if is_upper c then ascii_of_nat (nat_of_ascii c + 32) else c.

Fixpoint map_chars (f : ascii -> ascii) (s : string) : string :=
  match s with
  | EmptyString => EmptyString
  | String c s' => String (f c) (map_chars f s')
  end.

(** [s.upper()] and [s.lower()] *)
Definition upper (s : string) : string := map_chars char_upper s.
Definition lower (s : string) : string := map_chars char_lower s.

Fixpoint filter_chars (p : ascii -> bool) (s : string) : string :=
  match s with
  | EmptyString => EmptyString
  | String c s' => if p c then String c (filter_chars p s') else filter_chars p s'
  end.

(** [s.lstrip()] *)
Fixpoint lstrip (s : string) : string :=
  match s with
  | EmptyString => EmptyString
  | String c s' => if is_space c then lstrip s' else s
  end.

Fixpoint rev_str (s : string) (acc : string) : string :=
  match s with
  | EmptyString => acc
  | String c s' => rev_str s' (String c acc)
  end.

(** [s.rstrip()] and [s.strip()] *)
Definition rstrip (s : string) : string :=
  rev_str (lstrip (rev_str s EmptyString)) EmptyString.
Definition strip (s : string) : string := rstrip (lstrip s).

(** [s.startswith(p)] *)
Fixpoint startswith (s p : string) : bool :=
  match p, s with
  | EmptyString, _ => true
  | String c p', String d s' => Ascii.eqb c d && startswith s' p'
  | String _ _, EmptyString => false
  end.

(** [p in s] *)
Fixpoint contains (s p : string) : bool :=
  startswith s p ||
  match s with
  | EmptyString => false
  | String _ s' => contains s' p
  end.

(** [s.find(p)] restricted to a single character, as an option *)
Fixpoint find_char (c : ascii) (s : string) : option nat :=
  match s with
  | EmptyString => None
  | String d s' =>
      if Ascii.eqb c d then Some 0
      else option_map S (find_char c s')
  end.

Definition has_char (c : ascii) (s : string) : bool :=
  match find_char c s with Some _ => true | None => false end.

(** [s[n:]] and [s[:n]] *)
Definition drop (n : nat) (s : string) : string := substring n (String.length s - n) s.
Definition take (n : nat) (s : string) : string := substring 0 n s.

(** Characters of a string, and the number of distinct ones ([len(set(s))]) *)
Fixpoint chars (s : string) : list ascii :=
  match s with
  | EmptyString => []
  | String c s' => c :: chars s'
  end.

Fixpoint dedup_chars (l : list ascii) : list ascii :=
  match l with
  | [] => []
  | c :: l' => if existsb (Ascii.eqb c) l' then dedup_chars l' else c :: dedup_chars l'
  end.

Definition distinct_chars (s : string) : nat := List.length (dedup_chars (chars s)).

End PyStr.

(** Deduplication with first-seen order ([if x not in acc: acc.append(x)]). *)
Fixpoint dedup_first_aux (seen : list string) (l : list string) : list string :=
  match l with
  | [] => []
  | x :: l' =>
      if existsb (String.eqb x) seen then dedup_first_aux seen l'
      else x :: dedup_first_aux (x :: seen) l'
  end.

Definition dedup_first (l : list string) : list string := dedup_first_aux [] l.

(** [list(set(xs))]: a Python set of strings iterates in a hash-dependent
    order; the model fixes first-seen order.  No statement below depends
    on the order of its elements. *)
Definition py_set_list (l : list string) : list string := dedup_first l.

(* ------------------------------------------------------------------ *)
(** ** Python [re] on the patterns the code uses

    A backtracking matcher in continuation-passing style, with Python's
    match order: alternatives left to right, greedy repetition, the first
    way that lets the rest of the pattern succeed.  [\b], [^], [$] (end of
    string or before a final newline) as in Python without flags. *)

Module Re.

Local Open Scope nat_scope.

Inductive regex :=
| Eps
| Chr (p : ascii -> bool)          (** one character satisfying [p] *)
| Seq (r1 r2 : regex)
| Alt (r1 r2 : regex)
| Rep (r : regex) (lo : nat) (hi : option nat)   (** greedy [{lo,hi}] *)
| Bol                              (** [^] *)
| Eol                              (** [$] *)
| WordB.                           (** [\b] *)

Definition is_word (c : ascii) : bool :=
  PyStr.is_alpha c || PyStr.is_digit c || Ascii.eqb c "_"%char.

Definition char_at (s : string) (i : nat) : option ascii := String.get i s.

Definition word_at (s : string) (i : nat) : bool :=
  match char_at s i with Some c => is_word c | None => false end.

Definition word_before (s : string) (i : nat) : bool :=
  match i with 0 => false | S j => word_at s j end.

Section Matcher.
Variable s : string.

(** [m r i k]: match [r] at position [i], then run the continuation [k] on
    the end position. *)
Fixpoint m (r : regex) (i : nat) (k : nat -> option nat) {struct r} : option nat :=
  match r with
  | Eps => k i
  | Chr p => match char_at s i with
             | Some c => if p c then k (S i) else None
             | None => None
             end
  | Seq r1 r2 => m r1 i (fun j => m r2 j k)
  | Alt r1 r2 => match m r1 i k with Some e => Some e | None => m r2 i k end
  | Rep r1 lo hi =>
      let fuel := match hi with Some h => h | None => S (lo + (String.length s - i)) end in
      let fix rep (n count i : nat) : option nat :=
        let stop := if lo <=? count then k i else None in
        match n with
        | 0 => stop
        | S n' =>
            match m r1 i (fun j => if (lo <=? count) && (j =? i) then None
                                   else rep n' (S count) j) with
            | Some e => Some e
            | None => stop
            end
        end in
      rep fuel 0 i
  | Bol => match i with 0 => k i | S _ => None end
  | Eol => if (i =? String.length s)
              || ((S i =? String.length s) &&
                  match char_at s i with Some c => Ascii.eqb c "010"%char | None => false end)
           then k i else None
  | WordB => if xorb (word_before s i) (word_at s i) then k i else None
  end.

(** End of a match of [r] starting at [i] ([pattern.match(s, i)]). *)
Definition match_at (r : regex) (i : nat) : option nat := m r i (fun j => Some j).

(** [pattern.findall(s)] for a pattern without groups: the
    non-overlapping matches, scanned left to right. *)
Fixpoint findall_from (r : regex) (fuel i : nat) : list string :=
  match fuel with
  | 0 => []
  | S f =>
      match match_at r i with
      | Some e => substring i (e - i) s :: findall_from r f (if e =? i then S i else e)
      | None => findall_from r f (S i)
      end
  end.

Definition findall (r : regex) : list string := findall_from r (S (String.length s)) 0.

(** [re.search(pattern, s)] *)
Fixpoint search_from (r : regex) (fuel i : nat) : bool :=
  match fuel with
  | 0 => false
  | S f => match match_at r i with Some _ => true | None => search_from r f (S i) end
  end.

Definition search (r : regex) : bool := search_from r (S (String.length s)) 0.

(** [re.sub(pattern, repl, s)] with a literal replacement, for patterns
    that never match the empty string. *)
Fixpoint sub_from (r : regex) (repl : string) (fuel i : nat) : string :=
  match fuel with
  | 0 => EmptyString
  | S f =>
      match char_at s i with
      | None => match match_at r i with Some _ => repl | None => EmptyString end
      | Some c =>
          match match_at r i with
          | Some e => if e =? i then String c (sub_from r repl f (S i))
                      else repl ++ sub_from r repl f e
          | None => String c (sub_from r repl f (S i))
          end
      end
  end.

Definition sub (r : regex) (repl : string) : string := sub_from r repl (S (String.length s)) 0.

End Matcher.

(** Pattern building blocks *)
Definition chr (c : ascii) : regex := Chr (Ascii.eqb c).
Definition digit : regex := Chr PyStr.is_digit.
Definition space : regex := Chr PyStr.is_space.
Fixpoint lit (w : string) : regex :=
  match w with
  | EmptyString => Eps
  | String c w' => Seq (chr c) (lit w')
  end.
(** a literal under [re.IGNORECASE] *)
Fixpoint ilit (w : string) : regex :=
  match w with
  | EmptyString => Eps
  | String c w' => Seq (Chr (fun d => Ascii.eqb (PyStr.char_lower c) (PyStr.char_lower d))) (ilit w')
  end.
Fixpoint seqs (l : list regex) : regex :=
  match l with
  | [] => Eps
  | [r] => r
  | r :: l' => Seq r (seqs l')
  end.
Fixpoint alts (l : list regex) : regex :=
  match l with
  | [] => Chr (fun _ => false)
  | [r] => r
  | r :: l' => Alt r (alts l')
  end.
Definition opt (r : regex) : regex := Rep r 0 (Some 1).        (** [r?] *)
Definition star (r : regex) : regex := Rep r 0 None.           (** [r*] *)
Definition plus (r : regex) : regex := Rep r 1 None.           (** [r+] *)
Definition rep (r : regex) (lo hi : nat) : regex := Rep r lo (Some hi). (** [r{lo,hi}] *)
Definition range (a b : ascii) : ascii -> bool :=
  fun c => (nat_of_ascii a <=? nat_of_ascii c) && (nat_of_ascii c <=? nat_of_ascii b).
Definition in_str (w : string) : ascii -> bool := fun c => PyStr.has_char c w.

End Re.

(* ------------------------------------------------------------------ *)
(** ** vat_lookup.py *)

Module Vat.
Import Re.
Local Open Scope char_scope.

Inductive VATSearchStatus :=
  SUCCESS | INVALID_COMPANY_NAME | VAT_NOT_FOUND | SERVICE_BLOCKED
| NETWORK_ERROR | PARSING_ERROR | MULTIPLE_RESULTS_NO_MATCH.

(** [@dataclass class VATData] (timestamp, notes and proxy omitted). *)
Record VATData := mkVATData {
  company_name : string;
  search_terms : list string;
  vat_number : string;
  search_status : VATSearchStatus
}.

(** A [<td>] cell as BeautifulSoup sees it: its text, and the text of its
    first [<a>] if it has one. *)
Record Cell := mkCell { cell_text : string; cell_link : option string }.

(** One entry of [results] in [_parse_vat_results]. *)
Record VatRow := mkRow {
  row_company_name : string;
  row_trade_name : string;
  row_vat_number : string;
  row_company_id : string
}.

Definition max_retries : nat := 3.

Local Open Scope string_scope.

Definition soft_block_patterns : list string :=
  ["Sorry it looks like you might be a robot"; "too many requests"].
Definition not_found_patterns : list string :=
  ["Sorry we were unable to find any matches for your search"].

Inductive ResponseType := soft_block | not_found | results_found | unknown.

(** [_detect_response_type] *)
Definition detect_response_type (html : string) : ResponseType :=
  if existsb (PyStr.contains html) soft_block_patterns then soft_block
  else if existsb (PyStr.contains html) not_found_patterns then not_found
  else if PyStr.contains html "<table border=1" && PyStr.contains html "VAT Number"
  then results_found
  else unknown.

Local Open Scope char_scope.

(** [r'^GB\d{9}$'] *)
Definition vat_pattern : regex := seqs [Bol; lit "GB"%string; rep digit 9 9; Eol].

(** [s.replace(' ', '')] *)
Definition remove_spaces (v : string) : string :=
  PyStr.filter_chars (fun c => negb (Ascii.eqb c " ")) v.

(** [_validate_vat_format] *)
Definition validate_vat_format (v : string) : bool :=
  if String.eqb v EmptyString then false
  else match match_at (remove_spaces (PyStr.upper v)) vat_pattern 0 with
       | Some _ => true
       | None => false
       end.

(** [cell.get_text(strip=True)] and [cell.find('a')] *)
Definition text_of (c : Cell) : string := PyStr.strip (cell_text c).
Definition link_text (c : Cell) : string :=
  match cell_link c with Some t => PyStr.strip t | None => EmptyString end.

(** The data rows of the results table turned into [results]. *)
Definition row_result (cells : list Cell) : option VatRow :=
  match cells with
  | c0 :: c1 :: c2 :: c3 :: _ =>
      let v := link_text c2 in
      if negb (String.eqb v EmptyString) && validate_vat_format v
      then Some (mkRow (text_of c0) (text_of c1) v (link_text c3))
      else None
  | _ => None
  end.

Definition valid_results (rows : list (list Cell)) : list VatRow :=
  flat_map (fun r => match row_result r with Some x => [x] | None => [] end) rows.

(** [result['company_name'].upper().strip() == search_term.upper().strip()] *)
Definition exact_name_match (term : string) (r : VatRow) : bool :=
  String.eqb (PyStr.strip (PyStr.upper (row_company_name r))) (PyStr.strip (PyStr.upper term)).

(** [_parse_vat_results]; the table is [soup.find('table', {'border': '1'})]
    given as its [<tr>] rows, [None] when there is no such table. *)
Definition parse_vat_results (table : option (list (list Cell))) (term : string) : option VatRow :=
  match table with
  | None => None
  | Some trs =>
      match tl trs with
      | [] => None
      | rows =>
          match valid_results rows with
          | [] => None
          | [r] => Some r
          | results => find (exact_name_match term) results
          end
      end
  end.

(** The [transformations] of [_sanitize_company_name]. *)
Definition sp : regex := star space.
Definition transformations : list (regex * string) :=
  [ (seqs [sp; chr "&"; sp; lit "CO."; sp; lit "LTD"; sp; Eol], " & COMPANY LIMITED");
    (seqs [sp; chr "&"; sp; lit "CO"; sp; lit "LTD"; sp; Eol], " & COMPANY LIMITED");
    (seqs [sp; chr "&"; sp; lit "CO."; sp; Eol], " & COMPANY");
    (seqs [sp; chr "&"; sp; lit "CO"; sp; Eol], " & COMPANY");
    (seqs [WordB; lit "LTD."; sp; Eol], "LIMITED");
    (seqs [WordB; lit "LTD"; sp; Eol], "LIMITED");
    (seqs [WordB; lit "CO."; sp; Eol], "COMPANY");
    (seqs [WordB; lit "CO"; sp; Eol], "COMPANY");
    (seqs [WordB; lit "CORP."; sp; Eol], "CORPORATION");
    (seqs [WordB; lit "CORP"; sp; Eol], "CORPORATION");
    (seqs [WordB; lit "INC."; sp; Eol], "INCORPORATED");
    (seqs [WordB; lit "INC"; sp; Eol], "INCORPORATED");
    (seqs [WordB; lit "SVCS"; WordB], "SERVICES");
    (seqs [WordB; lit "SVC"; WordB], "SERVICE");
    (seqs [WordB; lit "GRP"; WordB], "GROUP");
    (seqs [WordB; lit "HLDG"; opt (chr "S"); WordB], "HOLDINGS");
    (seqs [WordB; lit "MGMT"; WordB], "MANAGEMENT");
    (seqs [WordB; lit "MGT"; WordB], "MANAGEMENT");
    (seqs [WordB; lit "TECH"; WordB], "TECHNOLOGY");
    (seqs [WordB; lit "SYS"; WordB], "SYSTEMS") ]%string.

(** [_sanitize_company_name] *)
Definition sanitize_company_name (name : string) : list string :=
  if String.eqb (PyStr.strip name) EmptyString then []
  else
    let original := PyStr.strip name in
    let '(variations, _) :=
      fold_left
        (fun acc tr =>
           let '(vars, current) := acc in
           let '(pat, repl) := tr in
           if search current pat then
             let transformed := PyStr.strip (sub current pat repl) in
             let vars' := if negb (String.eqb transformed current)
                             && negb (existsb (String.eqb transformed) vars)
                          then (vars ++ [transformed])%list else vars in
             (vars', transformed)
           else (vars, current))
        transformations ([original], PyStr.upper original) in
    dedup_first variations.

Section Lookup.

(** The response text of the [n]-th search request made by the client
    ([_make_search_request]); [None] when [requests] raised. *)
Variable responses : nat -> option string.
(** The results table found by BeautifulSoup in a response. *)
Variable parse_table : string -> option (list (list Cell)).

(** The retry loop [for attempt in range(self.max_retries)] for one
    search term; [n] counts the requests made so far.  Returns the parsed
    row on success and the next request number. *)
Fixpoint try_attempts (term : string) (attempts : list nat) (n : nat) : option VatRow * nat :=
  match attempts with
  | [] => (None, n)
  | attempt :: rest =>
      let retry := (attempt <? max_retries - 1)%nat in
      match responses n with
      | None | Some EmptyString =>
          if retry then try_attempts term rest (S n) else (None, S n)
      | Some html =>
          match detect_response_type html with
          | soft_block => if retry then try_attempts term rest (S n) else (None, S n)
          | not_found => (None, S n)
          | results_found => (parse_vat_results (parse_table html) term, S n)
          | unknown => (None, S n)
          end
      end
  end.

(** [for variation_index, search_term in enumerate(search_variations)] *)
Fixpoint try_variations (vars : list string) (idx n : nat) : option (nat * VatRow) :=
  match vars with
  | [] => None
  | term :: rest =>
      match try_attempts term (seq 0 max_retries) n with
      | (Some r, _) => Some (idx, r)
      | (None, n') => try_variations rest (S idx) n'
      end
  end.

(** [_create_error_record] *)
Definition create_error_record (name : string) (terms : list string) (st : VATSearchStatus) : VATData :=
  mkVATData name terms "NOT_FOUND"%string st.

(** [lookup_vat_by_company_name] *)
Definition lookup_vat_by_company_name (name : string) : VATData :=
  if String.eqb (PyStr.strip name) EmptyString then create_error_record EmptyString [] INVALID_COMPANY_NAME
  else
    let original := PyStr.strip name in
    match sanitize_company_name original with
    | [] => create_error_record original [] INVALID_COMPANY_NAME
    | variations =>
        match try_variations variations 0 0 with
        | Some (idx, r) => mkVATData original (firstn (S idx) variations) (row_vat_number r) SUCCESS
        | None => mkVATData original variations "NOT_FOUND"%string VAT_NOT_FOUND
        end
    end.

End Lookup.

End Vat.

(* ------------------------------------------------------------------ *)
(** ** [urllib.parse.urlparse] on ASCII URLs

    Leading C0 controls and spaces are stripped, tab/CR/LF removed, the
    scheme split off when it is made of scheme characters, the netloc taken
    up to the first [/?#], then fragment, query and the [;params] of the
    last path segment.  [urlparse] raises [ValueError] ([None] here) on
    unbalanced brackets in the netloc and, as Python 3.12 does, on a
    bracketed host that is neither an IPv6 address ([ipaddress]) nor an
    IPvFuture literal. *)

Module UrlParse.
Local Open Scope nat_scope.
Local Open Scope char_scope.

Record ParseResult := mkParse {
  scheme : string; netloc : string; path : string;
  params : string; query : string; fragment : string
}.

Fixpoint lstrip_c0 (s : string) : string :=
  match s with
  | EmptyString => EmptyString
  | String c s' => if (nat_of_ascii c <=? 32)%nat then lstrip_c0 s' else s
  end.

Definition is_scheme_char (c : ascii) : bool :=
  PyStr.is_alpha c || PyStr.is_digit c || Ascii.eqb c "+" || Ascii.eqb c "-" || Ascii.eqb c ".".

Fixpoint forall_chars (p : ascii -> bool) (s : string) : bool :=
  match s with
  | EmptyString => true
  | String c s' => p c && forall_chars p s'
  end.

(** [s.split(c, 1)] when [c in s]: (before, after); [None] otherwise. *)
Definition split1 (c : ascii) (s : string) : option (string * string) :=
  match PyStr.find_char c s with
  | Some i => Some (PyStr.take i s, PyStr.drop (S i) s)
  | None => None
  end.

(** Position of the first of the characters of [delims] in [s], or its length. *)
Fixpoint first_delim (delims : string) (s : string) : nat :=
  match s with
  | EmptyString => 0
  | String c s' => if PyStr.has_char c delims then 0 else S (first_delim delims s')
  end.

Definition in_range (a b c : ascii) : bool :=
  Nat.leb (nat_of_ascii a) (nat_of_ascii c) && Nat.leb (nat_of_ascii c) (nat_of_ascii b).

(** Length of the longest prefix of [s] with no character satisfying [p]. *)
Fixpoint first_delim_by (p : ascii -> bool) (s : string) : nat :=
  match s with
  | EmptyString => 0
  | String c s' => if p c then 0 else S (first_delim_by p s')
  end.

(** [_splitparams]: the [;params] of the last path segment. *)
Definition rfind_char (c : ascii) (s : string) : option nat :=
  let fix go (s : string) (i : nat) (acc : option nat) :=
    match s with
    | EmptyString => acc
    | String d s' => go s' (S i) (if Ascii.eqb c d then Some i else acc)
    end in
  go s 0 None.

Definition splitparams (url : string) : string * string :=
  let start := match rfind_char "/" url with Some i => i | None => 0 end in
  match (if PyStr.has_char "/" url
         then option_map (fun j => start + j)%nat (PyStr.find_char ";" (PyStr.drop start url))
         else PyStr.find_char ";" url) with
  | Some i => (PyStr.take i url, PyStr.drop (S i) url)
  | None => (url, EmptyString)
  end.

(** [re.match(r"\Av[a-fA-F0-9]+\..+\Z", hostname)] *)
Definition is_ipvfuture (h : string) : bool :=
  let is_hex c := PyStr.is_digit c || in_range "a" "f" c || in_range "A" "F" c in
  match h with
  | String "v" rest =>
      let n := first_delim_by (fun c => negb (is_hex c)) rest in
      let tail := PyStr.drop n rest in
      Nat.ltb 0 n &&
      match tail with
      | String "." (String _ _ as body) => forall_chars (fun c => negb (Ascii.eqb c "010")) body
      | _ => false
      end
  | _ => false
  end.

Section Parse.
(** [isinstance(ipaddress.ip_address(h), ipaddress.IPv6Address)], [false]
    when [ip_address] raises. *)
Variable is_ipv6_address : string -> bool.

(** [_check_bracketed_host]: [false] where it raises. *)
Definition check_bracketed_host (h : string) : bool :=
  if PyStr.startswith h "v" then is_ipvfuture h else is_ipv6_address h.

(** [_check_bracketed_netloc]: [false] where it raises. *)
Definition check_bracketed_netloc (net : string) : bool :=
  let hp := match rfind_char "@" net with Some i => PyStr.drop (S i) net | None => net end in
  match split1 "[" hp with
  | Some (before, bracketed) =>
      if negb (String.eqb before EmptyString) then false
      else
        let '(hostname, port) :=
          match split1 "]" bracketed with Some p => p | None => (bracketed, EmptyString) end in
        if negb (String.eqb port EmptyString) && negb (PyStr.startswith port ":") then false
        else check_bracketed_host hostname
  | None =>
      check_bracketed_host (match split1 ":" hp with Some (h, _) => h | None => hp end)
  end.

Definition urlparse (url0 : string) : option ParseResult :=
  let url1 := PyStr.filter_chars
                (fun c => negb (Ascii.eqb c "009" || Ascii.eqb c "013" || Ascii.eqb c "010"))
                (lstrip_c0 url0) in
  let '(sch, url2) :=
    match PyStr.find_char ":" url1, url1 with
    | Some (S _ as i), String c _ =>
        if PyStr.is_alpha c && forall_chars is_scheme_char (PyStr.take i url1)
        then (PyStr.lower (PyStr.take i url1), PyStr.drop (S i) url1)
        else (EmptyString, url1)
    | _, _ => (EmptyString, url1)
    end in
  let '(net, url3) :=
    if PyStr.startswith url2 "//" then
      let rest := PyStr.drop 2 url2 in
      let d := first_delim "/?#" rest in
      (PyStr.take d rest, PyStr.drop d rest)
    else (EmptyString, url2) in
  if xorb (PyStr.has_char "[" net) (PyStr.has_char "]" net) then None
  else if PyStr.has_char "[" net && PyStr.has_char "]" net && negb (check_bracketed_netloc net)
  then None
  else
    let '(url4, frag) := match split1 "#" url3 with Some p => p | None => (url3, EmptyString) end in
    let '(url5, q) := match split1 "?" url4 with Some p => p | None => (url4, EmptyString) end in
    let '(pth, prm) :=
      if existsb (String.eqb sch) ["http"; "https"; ""]%string && PyStr.has_char ";" url5
      then splitparams url5 else (url5, EmptyString) in
    Some (mkParse sch net pth prm q frag).

End Parse.

End UrlParse.

(* ------------------------------------------------------------------ *)
(** ** contact_extractor.py *)

Module Contact.
Import Re.
Local Open Scope nat_scope.
Local Open Scope char_scope.

Inductive ContactExtractionStatus :=
  SUCCESS | PARTIAL_SUCCESS | NO_CONTACT_INFO_FOUND | CRAWL_ERROR | TIMEOUT_ERROR | NETWORK_ERROR.

(** [@dataclass class ContactInformation] (notes and timestamp omitted). *)
Record ContactInformation := mkContact {
  domain : string;
  phone_numbers : list string;
  email_addresses : list string;
  facebook_links : list string;
  instagram_links : list string;
  linkedin_links : list string;
  pages_crawled : nat;
  pages_with_contact_info : list string;
  extraction_status : ContactExtractionStatus
}.

Record ContactCrawlConfig := mkCfg {
  max_pages_per_site : nat;
  max_phone_numbers : nat;
  max_email_addresses : nat;
  max_social_links_per_platform : nat
}.

Definition default_config : ContactCrawlConfig := mkCfg 15 10 10 5.

(** [1[1-9]\d{1,2}|2[0-9]|3[0-9]], the area-code alternatives *)
Definition area : regex :=
  alts [seqs [chr "1"; Chr (range "1" "9"); rep digit 1 2];
        seqs [chr "2"; Chr (range "0" "9")];
        seqs [chr "3"; Chr (range "0" "9")]].
Definition osp : regex := opt space.

(** [self.phone_patterns], in order. *)
Definition phone_patterns : list regex :=
  [ (* \b0(?:1[1-9]\d{1,2}|2[0-9]|3[0-9])\s?\d{3,4}\s?\d{3,4}\b *)
    seqs [WordB; chr "0"; area; osp; rep digit 3 4; osp; rep digit 3 4; WordB];
    (* \b(?:\+44\s?7|07)[0-9]{3}\s?\d{3}\s?\d{3}\b *)
    seqs [WordB; alts [seqs [lit "+44"%string; osp; chr "7"]; lit "07"%string];
          rep (Chr (range "0" "9")) 3 3; osp; rep digit 3 3; osp; rep digit 3 3; WordB];
    (* \b0(?:800|808)\s?\d{3}\s?\d{4}\b *)
    seqs [WordB; chr "0"; alts [lit "800"%string; lit "808"%string];
          osp; rep digit 3 3; osp; rep digit 4 4; WordB];
    (* \b0(?:845|870|871|872|873)\s?\d{3}\s?\d{4}\b *)
    seqs [WordB; chr "0"; alts (map lit ["845"; "870"; "871"; "872"; "873"]%string);
          osp; rep digit 3 3; osp; rep digit 4 4; WordB];
    (* \b09[0-9]{2}\s?\d{3}\s?\d{4}\b *)
    seqs [WordB; lit "09"%string; rep (Chr (range "0" "9")) 2 2; osp; rep digit 3 3; osp;
          rep digit 4 4; WordB];
    (* \+44\s?(?:1[1-9]\d{1,2}|2[0-9]|3[0-9]|7[0-9]{3})\s?\d{3,4}\s?\d{3,4}\b *)
    seqs [lit "+44"%string; osp;
          alts [seqs [chr "1"; Chr (range "1" "9"); rep digit 1 2];
                seqs [chr "2"; Chr (range "0" "9")];
                seqs [chr "3"; Chr (range "0" "9")];
                seqs [chr "7"; rep (Chr (range "0" "9")) 3 3]];
          osp; rep digit 3 4; osp; rep digit 3 4; WordB];
    (* \(0(?:1[1-9]\d{1,2}|2[0-9]|3[0-9])\)\s?\d{3,4}\s?\d{3,4}\b *)
    seqs [chr "("; chr "0"; area; chr ")"; osp; rep digit 3 4; osp; rep digit 3 4; WordB];
    (* \b0(?:1[1-9]\d{1,2}|2[0-9]|3[0-9])-\d{3,4}-\d{3,4}\b *)
    seqs [WordB; chr "0"; area; chr "-"; rep digit 3 4; chr "-"; rep digit 3 4; WordB] ].

(** [\b[A-Za-z0-9._%+-]+@[A-Za-z0-9.-]+\.[A-Z|a-z]{2,}\b] *)
Definition email_pattern : regex :=
  let alnum := fun c => PyStr.is_alpha c || PyStr.is_digit c in
  seqs [WordB; plus (Chr (fun c => alnum c || in_str "._%+-" c)); chr "@";
        plus (Chr (fun c => alnum c || in_str ".-" c)); chr ".";
        Rep (Chr (fun c => PyStr.is_alpha c || Ascii.eqb c "|")) 2 None; WordB].

(** [(?:https?://)?(?:www\.)?<site>\.com/<tail>] under [re.IGNORECASE] *)
Definition social_pattern (site : string) (tail : regex) : regex :=
  seqs [opt (seqs [ilit "http"; opt (ilit "s"); ilit "://"]); opt (ilit "www.");
        ilit site; ilit ".com/"; tail].
Definition handle : regex :=
  plus (Chr (fun c => PyStr.is_alpha c || PyStr.is_digit c || in_str "._-" c)).
Definition facebook_pattern : regex := social_pattern "facebook" handle.
Definition instagram_pattern : regex := social_pattern "instagram" handle.
Definition linkedin_pattern : regex :=
  social_pattern "linkedin" (seqs [alts [ilit "in"; ilit "company"]; chr "/"; handle]).

Local Open Scope string_scope.

Definition uk_test_numbers : list string :=
  ["01234567890"; "02079460000"; "01214960000"; "07700900000"; "08001111111"; "09999999999"].

(** [_is_valid_uk_number] *)
Definition is_valid_uk_number (digits0 : string) : bool :=
  let d := if PyStr.startswith digits0 "44" then String "0" (PyStr.drop 2 digits0) else digits0 in
  let n := String.length d in
  let sw := PyStr.startswith d in
  if negb ((n =? 10) || (n =? 11))%nat then false
  else if negb (sw "0") then false
  else if (n =? 11)%nat && (sw "07" || sw "01") then true
  else if (n =? 10)%nat && (sw "02" || existsb sw ["012"; "013"; "014"; "015"; "016"; "019"]) then true
  else if (n =? 11)%nat &&
          (sw "020" || existsb sw ["0121"; "0131"; "0141"; "0151"; "0161"; "0191"] || sw "01"
           || sw "0800" || sw "0808" || existsb sw ["0845"; "0870"; "0871"; "0872"; "0873"]
           || sw "09") then true
  else if (n =? 10)%nat &&
          (sw "0800" || sw "0808" || existsb sw ["0845"; "0870"; "0871"; "0872"; "0873"]) then true
  else false.

(** [re.sub(r'[^\d+\s()-]', '', match.strip())] *)
Definition clean_phone (m : string) : string :=
  PyStr.filter_chars
    (fun c => PyStr.is_digit c || PyStr.is_space c || in_str "+()-" c) (PyStr.strip m).

(** [re.sub(r'[^\d]', '', clean_phone)] *)
Definition digits_only (p : string) : string := PyStr.filter_chars PyStr.is_digit p.

(** The checks a matched candidate goes through before
    [phone_numbers.add(clean_phone)]. *)
Definition accept_phone (m : string) : option string :=
  let cp := clean_phone m in
  let d := digits_only cp in
  let n := String.length d in
  if (n <? 10)%nat || (13 <? n)%nat then None
  else if existsb (PyStr.contains d) uk_test_numbers then None
  else if negb (is_valid_uk_number d) then None
  else if (PyStr.distinct_chars d <? 3)%nat && (8 <? n)%nat then None
  else if String.eqb cp EmptyString then None
  else Some cp.

Definition nonempty_sources (text html : string) : list string :=
  filter (fun c => negb (String.eqb c EmptyString)) [text; html].

(** [_extract_phone_numbers] *)
Definition extract_phone_numbers (cfg : ContactCrawlConfig) (text html : string) : list string :=
  let found :=
    flat_map (fun content =>
      flat_map (fun pat =>
        flat_map (fun mt => match accept_phone mt with Some p => [p] | None => [] end)
                 (findall content pat))
        phone_patterns)
      (nonempty_sources text html) in
  firstn (max_phone_numbers cfg) (py_set_list found).

Definition email_excludes : list string :=
  ["example.com"; "test.com"; "dummy.com"; "placeholder"; "yourname@"; "name@domain";
   "@example"; "noreply@"].

(** [_extract_email_addresses] *)
Definition extract_email_addresses (cfg : ContactCrawlConfig) (text html : string) : list string :=
  let found :=
    flat_map (fun content =>
      flat_map (fun mt =>
        let email := PyStr.strip (PyStr.lower mt) in
        if existsb (PyStr.contains email) email_excludes then [] else [email])
        (findall content email_pattern))
      (nonempty_sources text html) in
  firstn (max_email_addresses cfg) (py_set_list found).

Definition social_excludes : list string :=
  ["/sharer/"; "/share?"; "/login"; "/signup"; "/home"; "facebook.com/pages"; "facebook.com/pg"].

(** The links of one platform in [_extract_social_media_links]. *)
Definition extract_social (cfg : ContactCrawlConfig) (pat : regex) (text html : string) : list string :=
  let found :=
    flat_map (fun content =>
      flat_map (fun mt =>
        let url0 := PyStr.strip mt in
        let url := if PyStr.startswith url0 "http" then url0 else "https://" ++ url0 in
        if existsb (PyStr.contains (PyStr.lower url)) social_excludes then [] else [url])
        (findall content pat))
      (nonempty_sources text html) in
  firstn (max_social_links_per_platform cfg) (py_set_list found).

Definition contact_keywords : list string :=
  ["contact"; "about"; "team"; "staff"; "office"; "location"; "phone"; "email"; "reach";
   "touch"; "connect"; "support"; "help"; "customer"; "service"; "info"; "information";
   "privacy"; "terms"; "legal"; "policy"; "cookies"; "disclaimer"; "imprint"; "impressum"].

Section Extract.

(** [ipaddress]'s verdict on a bracketed host, used by [urlparse]. *)
Variable is_ipv6_address : string -> bool.

(** [_filter_contact_relevant_links] *)
Definition filter_contact_relevant_links (d : string) (links : list string) : list string :=
  let base := PyStr.lower d in
  dedup_first
    (filter (fun url =>
       match UrlParse.urlparse is_ipv6_address url with
       | None => false
       | Some pr =>
           let nl := PyStr.lower (UrlParse.netloc pr) in
           let nl := if PyStr.startswith nl "www." then PyStr.drop 4 nl else nl in
           String.eqb nl base &&
           existsb (fun kw => PyStr.contains (PyStr.lower (UrlParse.path pr)) kw
                              || PyStr.contains (PyStr.lower url) kw) contact_keywords
       end) links).


(** [self.session.get(url)]: [Some body] for status 200, [None] for
    another status or a [requests] exception. *)
Variable fetch : string -> option string.
(** [href] attributes of the anchors BeautifulSoup finds in a page. *)
Variable anchors : string -> list string.
(** [urljoin(base, href)] *)
Variable urljoin : string -> string -> string.
(** [_extract_text_content]: the visible text of a page. *)
Variable extract_text_content : string -> string.

Variable cfg : ContactCrawlConfig.

(** [_extract_links_from_homepage] *)
Definition extract_links_from_homepage (d : string) : list string :=
  let fix go (urls : list string) :=
    match urls with
    | [] => []
    | u :: rest =>
        match fetch u with
        | Some body => map (urljoin u) (filter (fun h => negb (String.eqb h EmptyString)) (anchors body))
        | None => go rest
        end
    end in
  go ["https://" ++ d; "http://" ++ d].

(** [_find_contact_pages] *)
Definition find_contact_pages (d : string) : list string :=
  let all_links := extract_links_from_homepage d in
  let target := app ["https://" ++ d; "http://" ++ d]
                 (match all_links with [] => [] | _ => filter_contact_relevant_links d all_links end) in
  firstn (max_pages_per_site cfg) target.

(** Accumulated lists of the crawl loop of [extract_contact_info]. *)
Record Acc := mkAcc {
  a_phones : list string; a_emails : list string; a_facebook : list string;
  a_instagram : list string; a_linkedin : list string;
  a_crawled : nat; a_with_info : list string
}.

Fixpoint crawl_loop (urls : list string) (acc : Acc) : Acc :=
  match urls with
  | [] => acc
  | url :: rest =>
      if (max_pages_per_site cfg <=? a_crawled acc)%nat then acc
      else
        match fetch url with
        | None => crawl_loop rest acc
        | Some html =>
            let text := extract_text_content html in
            let phones := extract_phone_numbers cfg text html in
            let emails := extract_email_addresses cfg text html in
            let fb := extract_social cfg facebook_pattern text html in
            let ig := extract_social cfg instagram_pattern text html in
            let li := extract_social cfg linkedin_pattern text html in
            let had := negb (forallb (fun l => match l with [] => true | _ => false end)
                                     [phones; emails; fb; ig; li]) in
            crawl_loop rest
              (mkAcc (app (a_phones acc) phones) (app (a_emails acc) emails) (app (a_facebook acc) fb)
                     (app (a_instagram acc) ig) (app (a_linkedin acc) li) (S (a_crawled acc))
                     (if had then app (a_with_info acc) [url] else a_with_info acc))
        end
  end.

(** [extract_contact_info] *)
Definition extract_contact_info (d : string) : ContactInformation :=
  let unique_urls := dedup_first (find_contact_pages d) in
  let acc := crawl_loop unique_urls (mkAcc [] [] [] [] [] 0 []) in
  let phones := py_set_list (a_phones acc) in
  let emails := py_set_list (a_emails acc) in
  let fb := py_set_list (a_facebook acc) in
  let ig := py_set_list (a_instagram acc) in
  let li := py_set_list (a_linkedin acc) in
  let has_info := negb (forallb (fun l => match l with [] => true | _ => false end)
                                [phones; emails; fb; ig; li]) in
  mkContact d phones emails fb ig li (a_crawled acc) (a_with_info acc)
            (if has_info then SUCCESS else NO_CONTACT_INFO_FOUND).

End Extract.

End Contact.

(* ------------------------------------------------------------------ *)
(** ** website_crawler_v3.py *)

Module Crawler.

Local Open Scope Q_scope.

Inductive PageType := TARGET | NON_TARGET.

Definition PageType_eqb (a b : PageType) : bool :=
  match a, b with
  | TARGET, TARGET | NON_TARGET, NON_TARGET => true
  | _, _ => false
  end.

Inductive CrawlStatus :=
  SUCCESS | PARTIAL_SUCCESS | NO_MATCHES_FOUND | CRAWL_ERROR | TIMEOUT_ERROR | NETWORK_ERROR.

(** [@dataclass class PrecisionMatch]; [score_weight] is a Python float,
    the only values it takes (0.0, 0.75, 1.0) and their sums are exact
    binary64 values, so [Q] computes the same numbers. *)
Record PrecisionMatch := mkMatch {
  identifier : string;
  found : bool;
  page_type : option PageType;
  page_url : option string;
  score_weight : Q
}.

Definition new_match (ident : string) : PrecisionMatch :=
  mkMatch ident false None None 0.

(** [PrecisionMatch.set_match] *)
Definition set_match (m : PrecisionMatch) (pt : PageType) (url : string) : PrecisionMatch :=
  mkMatch (identifier m) true (Some pt) (Some url)
          (match pt with TARGET => 1 | NON_TARGET => 3 # 4 end).

Record WebsiteScoreV3 := mkScore {
  domain : string;
  total_score : Q;
  company_number_match : PrecisionMatch;
  vat_number_match : PrecisionMatch;
  pages_crawled : nat;
  target_pages_crawled : nat;
  non_target_pages_crawled : nat;
  crawl_status : CrawlStatus;
  search_phases_completed : list string
}.

Record CrawlConfigV3 := mkConfig {
  max_target_pages : nat;
  max_additional_pages : nat;
  target_page_keywords : list string
}.

Definition default_config : CrawlConfigV3 :=
  mkConfig 6 10
    ["about"; "contact"; "privacy"; "terms"; "legal"; "disclaimer";
     "cookie"; "policy"; "company"; "information"]%string.

(** [company_data] with its two identifiers ([None] when the key is absent). *)
Record CompanyData := mkCompany {
  company_number : option string;
  vat_number : option string
}.

(** [_normalize_text]: strip, upper-case, then [re.sub(r'\s+', '', ...)]. *)
Definition normalize_text (t : string) : string :=
  PyStr.filter_chars (fun c => negb (PyStr.is_space c)) (PyStr.upper (PyStr.strip t)).

Definition truthy (s : option string) : option string :=
  match s with
  | Some v => if String.eqb v EmptyString then None else Some v
  | None => None
  end.

(** [re.sub(r'^GB', '', s)] *)
Definition strip_gb (s : string) : string :=
  if PyStr.startswith s "GB" then PyStr.drop 2 s else s.

(** [_check_exact_matches]: (company_number_found, vat_number_found) *)
Definition check_exact_matches (text : string) (cd : CompanyData) : bool * bool :=
  let content := normalize_text text in
  let cn_found :=
    match truthy (company_number cd) with
    | Some cn => let n := normalize_text cn in
                 negb (String.eqb n EmptyString) && PyStr.contains content n
    | None => false
    end in
  let vat_found :=
    match truthy (vat_number cd) with
    | Some v =>
        let full := normalize_text v in
        let numeric := strip_gb full in
        if negb (String.eqb full EmptyString) && PyStr.contains content full then true
        else negb (String.eqb numeric EmptyString) && negb (String.eqb numeric full)
             && PyStr.contains content numeric
    | None => false
    end in
  (cn_found, vat_found).

Section Crawl.

(** [self.session.get(url)]: [Some body] when the request returns status
    200, [None] for another status or a [requests] exception. *)
Variable fetch : string -> option string.
(** [_extract_text_content]: BeautifulSoup text with script/style removed. *)
Variable extract_text_content : string -> string.
(** [_extract_all_links(domain)]: homepage plus same-domain anchors, as
    [list(set(...))], or [] when neither homepage answers. *)
Variable extract_all_links : string -> list string.
(** [urlparse(url).path]; [None] when [urlparse] raises. *)
Variable url_path : string -> option string.

Variable config : CrawlConfigV3.

(** [_categorize_pages] *)
Definition is_target_url (url : string) : bool :=
  match url_path url with
  | Some p => existsb (fun kw => PyStr.contains (PyStr.lower p) kw) (target_page_keywords config)
  | None => false
  end.

Definition categorize_pages (links : list string) : list string * list string :=
  (filter is_target_url links, filter (fun u => negb (is_target_url u)) links).

(** One iteration of the loop of [_crawl_pages_phase]; the state is
    (company match, vat match, pages_crawled) and the log of requested URLs. *)
Record PhaseState := mkPhase {
  ph_company : PrecisionMatch;
  ph_vat : PrecisionMatch;
  ph_crawled : nat;
  ph_requests : list string
}.

Fixpoint crawl_pages_loop (pt : PageType) (cd : CompanyData) (max_pages : nat)
         (urls : list string) (st : PhaseState) : PhaseState :=
  match urls with
  | [] => st
  | url :: rest =>
      if (max_pages <=? ph_crawled st)%nat then st
      else if found (ph_company st) && found (ph_vat st) then st
      else
        let reqs := ph_requests st ++ [url] in
        match fetch url with
        | None => crawl_pages_loop pt cd max_pages rest
                    (mkPhase (ph_company st) (ph_vat st) (ph_crawled st) reqs)
        | Some body =>
            let '(cn, vf) := check_exact_matches (extract_text_content body) cd in
            let c' := if cn && negb (found (ph_company st))
                      then set_match (ph_company st) pt url else ph_company st in
            let v' := if vf && negb (found (ph_vat st))
                      then set_match (ph_vat st) pt url else ph_vat st in
            crawl_pages_loop pt cd max_pages rest (mkPhase c' v' (S (ph_crawled st)) reqs)
        end
  end.

(** [_crawl_pages_phase] *)
Definition crawl_pages_phase (pages : list string) (pt : PageType) (cd : CompanyData)
           (max_pages : nat) : PhaseState :=
  crawl_pages_loop pt cd max_pages (firstn max_pages pages)
    (mkPhase (new_match "company_number") (new_match "vat_number") 0 []).

(** [_create_error_result] *)
Definition create_error_result (d : string) : WebsiteScoreV3 :=
  mkScore d 0 (new_match "company_number") (new_match "vat_number") 0 0 0 CRAWL_ERROR [].

(** Phase 1 of [_crawl_single_website]: run only when there are TARGET pages. *)
Definition phase1 (target_pages : list string) (cd : CompanyData) : option PhaseState :=
  match target_pages with
  | [] => None
  | _ => Some (crawl_pages_phase target_pages TARGET cd (max_target_pages config))
  end.

(** [if phase1_company.found: company_number_match = phase1_company] *)
Definition keep_if_found (p : PrecisionMatch) (init : PrecisionMatch) : PrecisionMatch :=
  if found p then p else init.

(** Phase 2 is entered when
    [not (company_number_match.found and vat_number_match.found) and non_target_pages]. *)
Definition enter_phase2 (cm vm : PrecisionMatch) (non_target_pages : list string) : bool :=
  negb (found cm && found vm) && negb (match non_target_pages with [] => true | _ => false end).

(** [_crawl_single_website]: the score, and the URLs requested in each
    phase (TARGET phase, NON_TARGET phase). *)
Definition crawl_single_website (d : string) (cd : CompanyData)
  : WebsiteScoreV3 * (list string * list string) :=
  match extract_all_links d with
  | [] => (create_error_result d, ([], []))
  | all_links =>
    let target_pages := fst (categorize_pages all_links) in
    let non_target_pages := snd (categorize_pages all_links) in
    (* PHASE 1 *)
    let p1 := phase1 target_pages cd in
    let cm1 := match p1 with
               | Some p => keep_if_found (ph_company p) (new_match "company_number")
               | None => new_match "company_number" end in
    let vm1 := match p1 with
               | Some p => keep_if_found (ph_vat p) (new_match "vat_number")
               | None => new_match "vat_number" end in
    let tcrawled := match p1 with Some p => ph_crawled p | None => 0%nat end in
    let treqs := match p1 with Some p => ph_requests p | None => [] end in
    let phases1 := match p1 with Some _ => ["Phase 1: Target pages"%string] | None => [] end in
    (* PHASE 2 *)
    let p2 := if enter_phase2 cm1 vm1 non_target_pages
              then Some (crawl_pages_phase non_target_pages NON_TARGET cd
                           (max_additional_pages config))
              else None in
    let cm := match p2 with
              | Some p => if found (ph_company p) && negb (found cm1) then ph_company p else cm1
              | None => cm1 end in
    let vm := match p2 with
              | Some p => if found (ph_vat p) && negb (found vm1) then ph_vat p else vm1
              | None => vm1 end in
    let ntcrawled := match p2 with Some p => ph_crawled p | None => 0%nat end in
    let nreqs := match p2 with Some p => ph_requests p | None => [] end in
    let phases := match p2 with
                  | Some _ => phases1 ++ ["Phase 2: Additional pages"%string]
                  | None => phases1 end in
    (* total score *)
    let s1 := if found cm then 0 + score_weight cm else 0 in
    let total := if found vm then s1 + score_weight vm else s1 in
    let status := if Qlt_le_dec 0 total then SUCCESS else NO_MATCHES_FOUND in
    (mkScore d total cm vm (tcrawled + ntcrawled) tcrawled ntcrawled status phases,
     (treqs, nreqs))
  end.

(** Sort key [(x.total_score, x.pages_crawled)] compared with [<]. *)
Definition key_lt (a b : WebsiteScoreV3) : bool :=
  negb (Qle_bool (total_score b) (total_score a))
  || (Qeq_bool (total_score a) (total_score b) && (pages_crawled a <? pages_crawled b)%nat).

(** [sorted(results, key=..., reverse=True)]: stable, so an element is
    placed after the earlier ones with an equal key. *)
Fixpoint insert_desc (x : WebsiteScoreV3) (l : list WebsiteScoreV3) : list WebsiteScoreV3 :=
  match l with
  | [] => [x]
  | y :: l' => if key_lt y x then x :: y :: l' else y :: insert_desc x l'
  end.

Definition sort_desc (l : list WebsiteScoreV3) : list WebsiteScoreV3 :=
  fold_left (fun acc x => insert_desc x acc) l [].

(** Whether [future.result(timeout=...)] raised for a domain. *)
Variable timed_out : string -> bool.

(** [crawl_and_rank_websites] *)
Definition crawl_and_rank_websites (domains : list string) (cd : CompanyData)
           (skip_domains : list string) : list WebsiteScoreV3 :=
  match domains with
  | [] => []
  | _ =>
    match truthy (company_number cd), truthy (vat_number cd) with
    | None, None => []
    | _, _ =>
      let filtered := filter (fun d => negb (existsb (String.eqb d) skip_domains)) domains in
      match filtered with
      | [] => []
      | _ =>
        let results := map (fun d => if timed_out d then create_error_result d
                                     else fst (crawl_single_website d cd)) filtered in
        sort_desc results
      end
    end
  end.

End Crawl.

End Crawler.

(** A concrete site for the crawler: [https://a.co] links to an
    [/about] page showing both identifiers and to a [/shop] page. *)
Module CrawlerScenario.
Import Crawler.

Definition site_fetch (url : string) : option string :=
  if String.eqb url "https://a.co" then Some "Welcome"%string
  else if String.eqb url "https://a.co/about"
  then Some "Company No 12345678 VAT GB 123 456 789"%string
  else if String.eqb url "https://a.co/shop" then Some "Shop"%string
  else None.

Definition site_links (d : string) : list string :=
  if String.eqb d "a.co" then ["https://a.co"; "https://a.co/about"; "https://a.co/shop"]%string
  else [].

(** [urlparse(url).path] for URLs of the form [https://a.co<path>]. *)
Definition site_path (url : string) : option string :=
  if PyStr.startswith url "https://a.co" then Some (PyStr.drop 12 url) else None.

Definition site_company : CompanyData :=
  mkCompany (Some "12345678"%string) (Some "GB123456789"%string).

End CrawlerScenario.

(** Concrete responses of the VAT lookup service. *)
Module VatScenario.
Import Vat.
Local Open Scope string_scope.

Definition results_html : string :=
  "<table border=1><tr><th>Company</th><th>Trading</th><th>VAT Number</th><th>Id</th></tr></table>".

Definition header_row : list Cell :=
  [mkCell "Company" None; mkCell "Trading" None; mkCell "VAT Number" None; mkCell "Id" None].

Definition data_row (name vat : string) : list Cell :=
  [mkCell name None; mkCell "" None; mkCell "" (Some vat); mkCell "" (Some "01234567")].

(** Every request answers with the results page. *)
Definition always_results (_ : nat) : option string := Some results_html.

(** One row whose VAT number is written in lower case. *)
Definition lower_case_table (_ : string) : option (list (list Cell)) :=
  Some [header_row; data_row "ACME LTD" "gb123456789"].

(** Two valid rows, neither named like the search term. *)
Definition two_rows_table (_ : string) : option (list (list Cell)) :=
  Some [header_row; data_row "ACME HOLDINGS LIMITED" "GB123456789";
        data_row "ACME TRADING LIMITED" "GB987654321"].

End VatScenario.

(** A site [acme.co.uk] whose homepage links to [/contact]; the two pages
    hold the given texts.  Pages are served as plain text inside a body, the
    anchor lists and [urljoin] are those of these pages. *)
Module ContactScenario.
Import Contact.
Local Open Scope string_scope.

Definition site : string := "acme.co.uk".
Definition page (body : string) : string := "<html><body>" ++ body ++ "</body></html>".
Definition home_html (home : string) : string := page ("<a href=/contact>Contact us</a> " ++ home).

Definition site_fetch (home contact : string) (url : string) : option string :=
  if String.eqb url "https://acme.co.uk" then Some (home_html home)
  else if String.eqb url "http://acme.co.uk" then Some (home_html home)
  else if String.eqb url "https://acme.co.uk/contact" then Some (page contact)
  else None.

Definition site_anchors (home : string) (html : string) : list string :=
  if String.eqb html (home_html home) then ["/contact"] else [].

Definition site_urljoin (base href : string) : string :=
  if PyStr.startswith href "/" then base ++ href else href.

Definition site_text (home contact : string) (html : string) : string :=
  if String.eqb html (home_html home) then "Contact us " ++ home
  else if String.eqb html (page contact) then contact
  else html.

Definition run (cfg : ContactCrawlConfig) (home contact : string) : ContactInformation :=
  extract_contact_info (fun _ => false) (site_fetch home contact) (site_anchors home) site_urljoin
                       (site_text home contact) cfg site.

End ContactScenario.

(* ------------------------------------------------------------------ *)
(** ** website_hunter_api.py *)

Module Hunter.
Local Open Scope string_scope.

(** An organic result's ["url"] value; [None] when the key is absent or its
    value is not a string (then [_extract_base_domain] fails on
    [url.startswith] and returns [None]). *)
Record OrganicResult := mkOrganic { url : option string }.

Section Extract.
Variable is_ipv6_address : string -> bool.

(** [_extract_base_domain] *)
Definition extract_base_domain (u : string) : option string :=
  if String.eqb u "" || negb (PyStr.startswith u "http://" || PyStr.startswith u "https://")
  then None
  else
    match UrlParse.urlparse is_ipv6_address u with
    | None => None
    | Some parsed =>
        let d := PyStr.lower (UrlParse.netloc parsed) in
        let d := if PyStr.startswith d "www." then PyStr.drop 4 d else d in
        if negb (PyStr.has_char "." d) || Nat.ltb (String.length d) 3 then None else Some d
    end.

(** [_extract_websites_from_results] on [search_results['organic']] *)
Definition extract_websites_from_results (organic : list OrganicResult) : list string :=
  fold_left
    (fun unique_domains result =>
       match url result with
       | Some u =>
           if String.eqb u "" then unique_domains
           else
             match extract_base_domain u with
             | Some d =>
                 if existsb (String.eqb d) unique_domains then unique_domains
                 else app unique_domains [d]
             | None => unique_domains
             end
       | None => unique_domains
       end)
    organic [].

End Extract.

End Hunter.

(* ------------------------------------------------------------------ *)
(** ** linkedin_finder.py *)

Module LinkedIn.
Local Open Scope string_scope.

(** An organic ZenSERP result: its ["url"], ["title"], ["description"] and
    ["position"] (missing keys read as [""] and 0). *)
Record SerpResult := mkSerp {
  r_url : string; r_title : string; r_description : string; r_position : Z
}.

(** [@dataclass class LinkedInResult] *)
Record LinkedInResult := mkLinkedIn {
  url : string; title : string; description : string; position : Z;
  score : nat; match_details : string
}.

Definition is_company_url (r : LinkedInResult) : bool := PyStr.contains (PyStr.lower (url r)) "/company/".
Definition is_employee_url (r : LinkedInResult) : bool := PyStr.contains (PyStr.lower (url r)) "/in/".

Fixpoint join (sep : string) (l : list string) : string :=
  match l with
  | [] => ""
  | [x] => x
  | x :: l' => x ++ sep ++ join sep l'
  end.

(** [list.sort(key=lambda x: x.score, reverse=True)]: stable, highest
    score first. *)
Fixpoint insert_by_score (x : LinkedInResult) (l : list LinkedInResult) : list LinkedInResult :=
  match l with
  | [] => [x]
  | y :: l' => if Nat.ltb (score y) (score x) then x :: l else y :: insert_by_score x l'
  end.

Definition sort_by_score (l : list LinkedInResult) : list LinkedInResult :=
  fold_left (fun acc x => insert_by_score x acc) l [].

Section Finder.
Variable is_ipv6_address : string -> bool.

(** [_extract_domain_from_website] *)
Definition extract_domain_from_website (website : string) : option string :=
  let w := if PyStr.startswith website "http://" || PyStr.startswith website "https://"
           then website else "https://" ++ website in
  match UrlParse.urlparse is_ipv6_address w with
  | None => None
  | Some parsed =>
      let d := PyStr.lower (UrlParse.netloc parsed) in
      Some (if PyStr.startswith d "www." then PyStr.drop 4 d else d)
  end.

(** [_score_linkedin_result] *)
Definition score_linkedin_result (result : SerpResult) (company_name : string)
    (website : option string) : nat * string :=
  let desc := PyStr.lower (r_description result) in
  let company_lower := PyStr.lower company_name in
  let name_hit := PyStr.contains desc company_lower in
  let domain_hit :=
    match website with
    | Some w =>
        if String.eqb w "" then false
        else
          match extract_domain_from_website w with
          | Some d => negb (String.eqb d "") && PyStr.contains desc d
          | None => false
          end
    | None => false
    end in
  let matches := app (if name_hit then ["CompanyName(Desc)"] else [])
                     (if domain_hit then ["Domain(Desc:+2)"] else []) in
  ((if name_hit then 1 else 0) + (if domain_hit then 2 else 0),
   match matches with [] => "No matches" | _ => join "; " matches end)%nat.

(** [_process_zenserp_results] on [zenserp_data['organic']] *)
Definition process_zenserp_results (organic : list SerpResult) (company_name : string)
    (website : option string) : list LinkedInResult * list LinkedInResult :=
  let '(company_urls, employee_urls) :=
    fold_left
      (fun '(cs, es) result =>
         if negb (PyStr.contains (PyStr.lower (r_url result)) "linkedin.com") then (cs, es)
         else
           let '(sc, md) := score_linkedin_result result company_name website in
           if Nat.eqb sc 0 then (cs, es)
           else
             let li := mkLinkedIn (r_url result) (r_title result) (r_description result)
                                  (r_position result) sc md in
             if is_company_url li then (app cs [li], es)
             else if is_employee_url li then (cs, app es [li])
             else (cs, es))
      organic ([], []) in
  (sort_by_score company_urls, sort_by_score employee_urls).

End Finder.

End LinkedIn.

(* ------------------------------------------------------------------ *)
(** ** Further functions of the same modules *)

(** [str.replace(old, new)]: every non-overlapping occurrence, left to
    right; an empty [old] inserts [new] around every character. *)
Module PyReplace.
Local Open Scope nat_scope.
Local Open Scope string_scope.

Fixpoint replace_go (fuel : nat) (old new s : string) : string :=
  match fuel with
  | O => s
  | S fuel' =>
      match old, s with
      | EmptyString, EmptyString => new
      | EmptyString, String c s' => new ++ String c (replace_go fuel' old new s')
      | _, EmptyString => EmptyString
      | _, String c s' =>
          if PyStr.startswith s old
          then new ++ replace_go fuel' old new (PyStr.drop (String.length old) s)
          else String c (replace_go fuel' old new s')
      end
  end.

Definition replace (s old new : string) : string := replace_go (S (String.length s)) old new s.

End PyReplace.

(** The double quote, for the f-strings that build search queries. *)
Definition dq : string := String (ascii_of_nat 34) EmptyString.

(** website_crawler_v3.py: [_extract_all_links], the [WebsiteScoreV3]
    properties and [crawl_and_rank_websites_v3]. *)
Module CrawlerMore.
Import Crawler.
Local Open Scope Q_scope.
Local Open Scope string_scope.

(** [max_possible_score] keeps its default 2.0: no caller passes another. *)
Definition max_possible_score : Q := 2.

(** [WebsiteScoreV3.precision_score] *)
Definition precision_score (r : WebsiteScoreV3) : Q :=
  if Qlt_le_dec 0 max_possible_score then total_score r / max_possible_score * 100 else 0.

Definition is_success (r : WebsiteScoreV3) : bool :=
  match crawl_status r with SUCCESS | PARTIAL_SUCCESS => true | _ => false end.

Section Links.
(** [self.session.get(url)]: [Some body] for status 200. *)
Variable fetch : string -> option string.
(** [href] values of [soup.find_all('a', href=True)] *)
Variable anchors : string -> list string.
Variable urljoin : string -> string -> string.
Variable is_ipv6_address : string -> bool.

(** The loop over the anchors of a homepage in [_extract_all_links];
    [None] when [urlparse] raises (the [ValueError] is not a
    [RequestException] and leaves the function). *)
Fixpoint collect_links (hp base_domain : string) (hrefs acc : list string) : option (list string) :=
  match hrefs with
  | [] => Some acc
  | h :: hs =>
      if String.eqb h EmptyString then collect_links hp base_domain hs acc
      else
        let absolute_url := urljoin hp h in
        match UrlParse.urlparse is_ipv6_address absolute_url with
        | None => None
        | Some parsed =>
            let url_domain := PyReplace.replace (PyStr.lower (UrlParse.netloc parsed)) "www." "" in
            collect_links hp base_domain hs
              (if String.eqb url_domain base_domain then app acc [absolute_url] else acc)
        end
  end.

(** [for homepage_url in [f"https://{domain}", f"http://{domain}"]] *)
Fixpoint try_homepages (base_domain : string) (homepages : list string) : option (list string) :=
  match homepages with
  | [] => Some []
  | hp :: rest =>
      match fetch hp with
      | None => try_homepages base_domain rest
      | Some body => option_map py_set_list (collect_links hp base_domain (anchors body) [hp])
      end
  end.

(** [_extract_all_links] *)
Definition extract_all_links (d : string) : option (list string) :=
  try_homepages (PyStr.lower d) ["https://" ++ d; "http://" ++ d].

End Links.

(** [crawl_and_rank_websites_v3]: the ranked domains ([company_data] is
    truthy as soon as it has an identifier). *)
Definition crawl_and_rank_websites_v3 fetch ext links path config timed_out
    (domains : list string) (cd : CompanyData) (skip_domains : list string) : list string :=
  match domains with
  | [] => []
  | _ => map domain (crawl_and_rank_websites fetch ext links path config timed_out domains cd skip_domains)
  end.

End CrawlerMore.

(** vat_lookup.py: the [VATData] properties and [validate_company_name]. *)
Module VatMore.
Import Vat.
Local Open Scope nat_scope.
Local Open Scope string_scope.

Definition is_success (v : VATData) : bool :=
  match search_status v with SUCCESS => true | _ => false end.
Definition has_error (v : VATData) : bool := negb (is_success v).
Definition vat_found (v : VATData) : bool :=
  is_success v && negb (String.eqb (vat_number v) "NOT_FOUND").

(** [validate_company_name] *)
Definition validate_company_name (name : string) : bool :=
  let clean := PyStr.strip name in
  negb (String.eqb clean EmptyString) && Nat.leb 2 (String.length clean)
  && Nat.leb (String.length clean) 200.

End VatMore.

(** contact_extractor.py: the [ContactInformation] properties. *)
Module ContactMore.
Import Contact.
Local Open Scope nat_scope.

Definition nonempty {A} (l : list A) : bool := match l with [] => false | _ => true end.

Definition has_contact_info (ci : ContactInformation) : bool :=
  nonempty (phone_numbers ci) || nonempty (email_addresses ci) || nonempty (facebook_links ci)
  || nonempty (instagram_links ci) || nonempty (linkedin_links ci).

Definition total_contact_items (ci : ContactInformation) : nat :=
  length (phone_numbers ci) + length (email_addresses ci) + length (facebook_links ci)
  + length (instagram_links ci) + length (linkedin_links ci).

Definition is_success (ci : ContactInformation) : bool :=
  match extraction_status ci with SUCCESS | PARTIAL_SUCCESS => true | _ => false end.

End ContactMore.

(** website_hunter_api.py: the query builders and [find_company_website]. *)
Module HunterMore.
Import Hunter.
Local Open Scope nat_scope.
Local Open Scope string_scope.

Inductive WebsiteSearchStatus :=
  SUCCESS | NO_WEBSITES_FOUND | INVALID_IDENTIFIER | API_ERROR | QUOTA_EXCEEDED | PARSING_ERROR.

(** [@dataclass class WebsiteSearchResult] (timestamp and notes omitted). *)
Record WebsiteSearchResult := mkSearchResult {
  identifier : string;
  search_query : string;
  websites_found : list string;
  search_status : WebsiteSearchStatus;
  api_quota_remaining : option Z;
  total_results_found : nat
}.

(** [company_data]: its string values, [None] for an absent key. *)
Record CompanyData := mkCompanyData {
  cd_company_number : option string;
  cd_vat_number : option string;
  cd_company_name : option string
}.

Definition quoted (x : string) : string := dq ++ x ++ dq.

(** [[id for id in identifiers if id and id.strip()]] *)
Definition valid_identifiers (ids : list string) : list string :=
  filter (fun i => negb (String.eqb (PyStr.strip i) EmptyString)) ids.

Definition site_exclusions (excluded : list string) : string :=
  LinkedIn.join " " (map (fun d => "-site:" ++ d) excluded).

(** [_build_search_query]; [None] where it raises [ValueError]. *)
Definition build_search_query (ids keywords excluded : list string) : option string :=
  match valid_identifiers ids with
  | [] => None
  | valid =>
      Some ("(" ++ LinkedIn.join " OR " (map quoted valid) ++ ") (" ++
            LinkedIn.join " OR " (map quoted keywords) ++ ") " ++ site_exclusions excluded)
  end.

(** The [inurl:] term of one keyword in [_build_search_query_v2]. *)
Definition inurl_keyword (keyword : string) : option string :=
  let k := PyStr.lower keyword in
  if PyStr.contains k "privacy policy" then Some "inurl:privacy"
  else if PyStr.contains k "terms" then Some "inurl:terms"
  else if PyStr.contains k "about us" || PyStr.contains k "about" then Some "inurl:about"
  else if PyStr.contains k "contact" then Some "inurl:contact"
  else if PyStr.contains k "company" then Some "inurl:company"
  else
    let clean := PyReplace.replace (PyReplace.replace (PyReplace.replace k " " "")
                                      "policy" "") "information" "" in
    if String.eqb clean EmptyString then None else Some ("inurl:" ++ clean).

Definition unique_inurl_keywords (keywords : list string) : list string :=
  dedup_first (flat_map (fun k => match inurl_keyword k with Some t => [t] | None => [] end) keywords).

(** [_build_search_query_v2]; [None] where it raises [ValueError]. *)
Definition build_search_query_v2 (ids keywords excluded : list string) : option string :=
  match valid_identifiers ids with
  | [] => None
  | valid =>
      Some ("(" ++ LinkedIn.join " OR " (map quoted valid) ++ ") (" ++
            LinkedIn.join " OR " (unique_inurl_keywords keywords) ++ ") " ++
            site_exclusions excluded)
  end.

(** [_create_error_result] *)
Definition create_error_result (ident : string) (st : WebsiteSearchStatus) (query : string)
  : WebsiteSearchResult :=
  mkSearchResult ident query [] st None 0.

Section Find.
Variable is_ipv6_address : string -> bool.
Variable query_version : nat.
(** [check_api_quota()]: [None] when it gives [None] or an empty dict,
    otherwise its ['remaining_requests'] value. *)
Variable check_api_quota : option (option Z).
(** [_make_search_request(query)]: [None] when it gives [None] or an empty
    dict, otherwise the ['organic'] list ([[]] when absent). *)
Variable make_search_request : string -> option (list OrganicResult).

(** [find_company_website] *)
Definition find_company_website (cd : CompanyData) (keywords excluded : list string)
  : WebsiteSearchResult :=
  let company_number := PyStr.strip (match cd_company_number cd with Some v => v | None => "" end) in
  let vat := match cd_vat_number cd with
             | Some v => if String.eqb v "" then None else Some (PyStr.strip v)
             | None => None end in
  let company_name := PyStr.strip (match cd_company_name cd with Some v => v | None => "" end) in
  if String.eqb company_number "" then create_error_result "" INVALID_IDENTIFIER ""
  else
    let quota_remaining := match check_api_quota with Some q => q | None => None end in
    let early := match quota_remaining with
                 | Some q => if Z.leb q 0
                             then Some (create_error_result company_number QUOTA_EXCEEDED "")
                             else None
                 | None => None
                 end in
    match early with
    | Some r => r
    | None =>
        let identifiers :=
          app [company_number]
              (app (match vat with Some v => if String.eqb v "" then [] else [v] | None => [] end)
                   (if String.eqb company_name "" then [] else [company_name])) in
        let identifier_used := LinkedIn.join " + " identifiers in
        let built := if Nat.eqb query_version 2
                     then build_search_query_v2 identifiers keywords excluded
                     else build_search_query identifiers keywords excluded in
        match built with
        | None => create_error_result company_number PARSING_ERROR ""
        | Some search_query =>
            match make_search_request search_query with
            | None => create_error_result company_number API_ERROR search_query
            | Some organic =>
                let websites := extract_websites_from_results is_ipv6_address organic in
                mkSearchResult identifier_used search_query websites
                  (match websites with [] => NO_WEBSITES_FOUND | _ => SUCCESS end)
                  quota_remaining (length organic)
            end
        end
    end.

End Find.

End HunterMore.

(** linkedin_finder.py: the query, the search and its result properties. *)
Module LinkedInMore.
Import LinkedIn.
Local Open Scope nat_scope.
Local Open Scope string_scope.

Inductive LinkedInSearchStatus :=
  SUCCESS | PARTIAL_SUCCESS | NO_RESULTS_FOUND | INVALID_COMPANY_NAME
| API_ERROR | QUOTA_EXCEEDED | NETWORK_ERROR | PARSING_ERROR.

(** [@dataclass class LinkedInSearchResult] (notes and timestamp omitted). *)
Record LinkedInSearchResult := mkSearch {
  company_name : string;
  website : option string;
  search_query : string;
  company_urls : list LinkedInResult;
  employee_urls : list LinkedInResult;
  total_results_found : nat;
  search_status : LinkedInSearchStatus;
  api_quota_remaining : option Z
}.

(** A ZenSERP response: ['query']['credits_remaining'] and ['organic']. *)
Record ZenData := mkZen { zen_credits : option Z; zen_organic : list SerpResult }.



(** [validate_company_name] *)
Definition validate_company_name (name : string) : bool :=
  let clean := PyStr.strip name in
  negb (String.eqb clean EmptyString) && Nat.leb 2 (String.length clean)
  && Nat.leb (String.length clean) 200.

Definition create_error_result (name : string) (w : option string) (st : LinkedInSearchStatus)
    (query : string) : LinkedInSearchResult :=
  mkSearch name w query [] [] 0 st None.

Section Find.
Variable is_ipv6_address : string -> bool.
(** [_make_zenserp_request(query)]; [None] when it gives [None] or an empty dict. *)
Variable make_zenserp_request : string -> option ZenData.

(** [_build_linkedin_query] *)
Definition build_linkedin_query (name : string) (w : option string) : string :=
  let domain := match w with
                | Some ws => if String.eqb ws "" then None
                             else extract_domain_from_website is_ipv6_address ws
                | None => None end in
  let quoted (x : string) : string := dq ++ x ++ dq in
  match domain with
  | Some d => if String.eqb d "" then "site:linkedin.com/ " ++ quoted name
              else "site:linkedin.com/ " ++ quoted name ++ " OR " ++ quoted d
  | None => "site:linkedin.com/ " ++ quoted name
  end.

(** [LinkedInFinder.find_linkedin_profiles] *)
Definition find_linkedin_profiles (name : string) (w : option string) : LinkedInSearchResult :=
  if String.eqb (PyStr.strip name) "" then create_error_result "" w INVALID_COMPANY_NAME ""
  else
    let cname := PyStr.strip name in
    let query := build_linkedin_query cname w in
    match make_zenserp_request query with
    | None => create_error_result cname w API_ERROR query
    | Some zd =>
        let '(cs, es) := process_zenserp_results is_ipv6_address (zen_organic zd) cname w in
        let total := length cs + length es in
        mkSearch cname w query cs es total
          (if Nat.eqb total 0 then NO_RESULTS_FOUND else SUCCESS) (zen_credits zd)
    end.

(** The module-level [find_linkedin_profiles] *)
Definition find_linkedin_profiles_checked (name : string) (w : option string) : LinkedInSearchResult :=
  if negb (validate_company_name name) then create_error_result name w INVALID_COMPANY_NAME ""
  else find_linkedin_profiles name w.

End Find.

End LinkedInMore.

(* ================================================================== *)
(** * Properties *)

Module CrawlerFacts.
Import Crawler.
Local Open Scope Q_scope.

(** Weight of a match as the spec states it: 1.0 on a TARGET page, 0.75 on
    a NON_TARGET page, 0 when not found. *)
Definition weight_of (m : PrecisionMatch) : Q :=
  if found m then
    match page_type m with
    | Some TARGET => 1
    | Some NON_TARGET => 3 # 4
    | None => 0
    end
  else 0.

Definition perfect (r : WebsiteScoreV3) : Prop :=
  found (company_number_match r) = true /\ page_type (company_number_match r) = Some TARGET /\
  found (vat_number_match r) = true /\ page_type (vat_number_match r) = Some TARGET.

Definition score_invariant (r : WebsiteScoreV3) : Prop :=
  total_score r == weight_of (company_number_match r) + weight_of (vat_number_match r) /\
  0 <= total_score r /\ total_score r <= 2 /\
  (total_score r == 2 <-> perfect r).

(** A match either is unset or carries the weight of its page type. *)
Definition match_wf (m : PrecisionMatch) : Prop :=
  found m = true ->
  exists pt, page_type m = Some pt /\
             score_weight m = match pt with TARGET => 1 | NON_TARGET => 3 # 4 end.

Lemma new_match_wf : forall i, match_wf (new_match i).
Proof. intros i H; discriminate H. Qed.

Lemma set_match_wf : forall m pt url, match_wf (set_match m pt url).
Proof. intros m pt url _; exists pt; split; reflexivity. Qed.

Lemma crawl_pages_loop_wf :
  forall fetch ext pt cd maxp urls st,
    match_wf (ph_company st) -> match_wf (ph_vat st) ->
    match_wf (ph_company (crawl_pages_loop fetch ext pt cd maxp urls st)) /\
    match_wf (ph_vat (crawl_pages_loop fetch ext pt cd maxp urls st)).
Proof.
  intros fetch ext pt cd maxp urls.
  induction urls as [|u rest IH]; intros st Hc Hv; simpl; [auto|].
  destruct (maxp <=? ph_crawled st)%nat; [auto|].
  destruct (found (ph_company st) && found (ph_vat st)); [auto|].
  destruct (fetch u) as [body|]; [|apply IH; assumption].
  apply IH; simpl;
    match goal with
    | |- match_wf (if ?b then _ else _) => destruct b; [apply set_match_wf|assumption]
    end.
Qed.

Lemma crawl_pages_phase_wf :
  forall fetch ext pages pt cd maxp,
    match_wf (ph_company (crawl_pages_phase fetch ext pages pt cd maxp)) /\
    match_wf (ph_vat (crawl_pages_phase fetch ext pages pt cd maxp)).
Proof.
  intros; unfold crawl_pages_phase.
  apply crawl_pages_loop_wf; apply new_match_wf.
Qed.

Lemma keep_if_found_wf :
  forall p i, match_wf p -> match_wf i -> match_wf (keep_if_found p i).
Proof. intros p i Hp Hi; unfold keep_if_found; destruct (found p); assumption. Qed.

(** The scoring arithmetic on two well-formed matches. *)
Lemma score_of_matches :
  forall d cm vm a b c st ph,
    match_wf cm -> match_wf vm ->
    score_invariant
      (mkScore d (if found vm then (if found cm then 0 + score_weight cm else 0) + score_weight vm
                  else (if found cm then 0 + score_weight cm else 0))
               cm vm a b c st ph).
Proof.
  intros d cm vm a b c st ph Hc Hv.
  unfold score_invariant, perfect, weight_of; simpl.
  destruct (found cm) eqn:Fc;
    [destruct (Hc Fc) as [pc [Pc Wc]]; rewrite Pc, Wc; destruct pc|];
  (destruct (found vm) eqn:Fv;
    [destruct (Hv Fv) as [pv [Pv Wv]]; rewrite Pv, Wv; destruct pv|]);
  (split; [reflexivity|]);
  (split; [compute; discriminate|]); (split; [compute; discriminate|]);
  split; intros H;
  solve [ reflexivity
        | repeat split
        | compute in H; discriminate H
        | destruct H as (H1 & H2 & H3 & H4); discriminate ].
Qed.

Lemma error_result_invariant : forall d, score_invariant (create_error_result d).
Proof.
  intros d; unfold score_invariant, perfect, weight_of; simpl.
  split; [reflexivity|]; split; [compute; discriminate|]; split; [compute; discriminate|].
  split; intros H; [compute in H; discriminate H|].
  destruct H as [H _]; discriminate H.
Qed.

Lemma crawl_single_website_invariant :
  forall fetch ext links path config d cd,
    score_invariant (fst (crawl_single_website fetch ext links path config d cd)).
Proof.
  intros fetch ext links path config d cd.
  unfold crawl_single_website.
  destruct (links d) as [|l ls]; [apply error_result_invariant|].
  cbv zeta; cbn [fst].
  set (tp := fst (categorize_pages path config (l :: ls))).
  set (ntp := snd (categorize_pages path config (l :: ls))).
  set (p1 := phase1 fetch ext config tp cd).
  set (cm1 := match p1 with
              | Some p => keep_if_found (ph_company p) (new_match "company_number")
              | None => new_match "company_number" end).
  set (vm1 := match p1 with
              | Some p => keep_if_found (ph_vat p) (new_match "vat_number")
              | None => new_match "vat_number" end).
  assert (H1 : match_wf cm1 /\ match_wf vm1).
  { subst cm1 vm1; destruct p1 as [p|] eqn:Ep.
    - unfold p1, phase1 in Ep; destruct tp; [discriminate|].
      injection Ep as <-.
      destruct (crawl_pages_phase_wf fetch ext (s :: tp) TARGET cd (max_target_pages config)).
      split; apply keep_if_found_wf; try assumption; apply new_match_wf.
    - split; apply new_match_wf. }
  destruct H1 as [Wc1 Wv1].
  destruct (enter_phase2 cm1 vm1 ntp).
  - destruct (crawl_pages_phase_wf fetch ext ntp NON_TARGET cd (max_additional_pages config))
      as [Wc2 Wv2].
    apply score_of_matches.
    + cbv iota beta.
      match goal with |- match_wf (if ?b then _ else _) => destruct b; assumption end.
    + cbv iota beta.
      match goal with |- match_wf (if ?b then _ else _) => destruct b; assumption end.
  - apply score_of_matches; assumption.
Qed.

Lemma insert_desc_In : forall x l y, In y (insert_desc x l) <-> x = y \/ In y l.
Proof.
  intros x l; induction l as [|z l IH]; intros y; simpl.
  - tauto.
  - destruct (key_lt z x); simpl; [tauto|].
    rewrite IH; tauto.
Qed.

Lemma sort_desc_In : forall l y, In y (sort_desc l) <-> In y l.
Proof.
  intros l y; unfold sort_desc.
  assert (G : forall acc, In y (fold_left (fun acc x => insert_desc x acc) l acc)
                          <-> In y acc \/ In y l).
  { induction l as [|x l IH]; intros acc; simpl; [tauto|].
    rewrite IH, insert_desc_In; tauto. }
  rewrite G; simpl; tauto.
Qed.

(** C1: every [WebsiteScoreV3] produced by crawling a domain, by
    [_crawl_single_website] or in the ranked list of
    [crawl_and_rank_websites], has [total_score] equal to the sum of the
    per-identifier weights (1.0 TARGET, 0.75 NON_TARGET, 0 not found), lies
    in [0, 2], and equals 2 exactly when both matches were found on TARGET
    pages. *)
Theorem crawl_score_weighted_sum :
  forall fetch ext links path config timed_out d cd domains skip,
    score_invariant (fst (crawl_single_website fetch ext links path config d cd)) /\
    Forall score_invariant
      (crawl_and_rank_websites fetch ext links path config timed_out domains cd skip).
Proof.
  intros; split; [apply crawl_single_website_invariant|].
  apply Forall_forall; intros r Hr.
  unfold crawl_and_rank_websites in Hr.
  destruct domains as [|d0 ds]; [contradiction|].
  destruct (truthy (company_number cd)), (truthy (vat_number cd));
    try contradiction;
  (match type of Hr with
   | In r (match ?f with [] => _ | _ :: _ => _ end) => destruct f
   end; [contradiction|]);
  apply sort_desc_In, in_map_iff in Hr; destruct Hr as [d' [<- _]];
  (destruct (timed_out d'); [apply error_result_invariant|apply crawl_single_website_invariant]).
Qed.

(** C2: when phase 1 (TARGET pages) finds both the company number and the
    VAT number, phase 2 is not entered: no NON_TARGET page is requested,
    [non_target_pages_crawled] is 0, no phase-2 entry is recorded, and both
    reported matches are the phase-1 matches. *)
Theorem phase2_skipped_after_full_phase1 :
  forall fetch ext links path config d cd p1,
    phase1 fetch ext config (fst (categorize_pages path config (links d))) cd = Some p1 ->
    found (ph_company p1) = true -> found (ph_vat p1) = true ->
    let res := crawl_single_website fetch ext links path config d cd in
    snd (snd res) = [] /\
    non_target_pages_crawled (fst res) = 0%nat /\
    search_phases_completed (fst res) = ["Phase 1: Target pages"%string] /\
    company_number_match (fst res) = ph_company p1 /\
    vat_number_match (fst res) = ph_vat p1 /\
    fst (snd res) = ph_requests p1.
Proof.
  intros fetch ext links path config d cd p1 Hp1 Fc Fv res; subst res.
  unfold crawl_single_website.
  destruct (links d) as [|l ls]; [discriminate Hp1|].
  cbv zeta; rewrite Hp1; cbv iota beta.
  unfold keep_if_found, enter_phase2; rewrite Fc, Fv; simpl; rewrite ?Fc, ?Fv; simpl.
  repeat split; reflexivity.
Qed.

Lemma phase2_skipped_after_full_phase1_witness :
  let p1 := crawl_pages_phase CrawlerScenario.site_fetch (fun t => t)
              ["https://a.co/about"%string] TARGET CrawlerScenario.site_company 6 in
  phase1 CrawlerScenario.site_fetch (fun t => t) default_config
    (fst (categorize_pages CrawlerScenario.site_path default_config
            (CrawlerScenario.site_links "a.co"))) CrawlerScenario.site_company = Some p1 /\
  found (ph_company p1) = true /\ found (ph_vat p1) = true /\
  snd (snd (crawl_single_website CrawlerScenario.site_fetch (fun t => t)
              CrawlerScenario.site_links CrawlerScenario.site_path default_config
              "a.co" CrawlerScenario.site_company)) = [].
Proof.
  intros p1.
  assert (H1 : phase1 CrawlerScenario.site_fetch (fun t => t) default_config
                 (fst (categorize_pages CrawlerScenario.site_path default_config
                         (CrawlerScenario.site_links "a.co"))) CrawlerScenario.site_company
               = Some p1) by (vm_compute; reflexivity).
  assert (H2 : found (ph_company p1) = true) by (vm_compute; reflexivity).
  assert (H3 : found (ph_vat p1) = true) by (vm_compute; reflexivity).
  split; [exact H1|]; split; [exact H2|]; split; [exact H3|].
  exact (proj1 (phase2_skipped_after_full_phase1 CrawlerScenario.site_fetch (fun t => t)
           CrawlerScenario.site_links CrawlerScenario.site_path default_config
           "a.co" CrawlerScenario.site_company p1 H1 H2 H3)).
Defined.

End CrawlerFacts.

Module VatFacts.
Import Vat.
Local Open Scope string_scope.

(** C10: a [VATData] returned by [lookup_vat_by_company_name] whose
    status is not SUCCESS carries the sentinel ["NOT_FOUND"] as its VAT
    number. *)
Theorem lookup_not_success_not_found :
  forall responses parse_table name,
    search_status (lookup_vat_by_company_name responses parse_table name) <> SUCCESS ->
    vat_number (lookup_vat_by_company_name responses parse_table name) = "NOT_FOUND".
Proof.
  intros responses parse_table name H.
  unfold lookup_vat_by_company_name in *.
  destruct (String.eqb (PyStr.strip name) EmptyString); [reflexivity|].
  destruct (sanitize_company_name (PyStr.strip name)) as [|v vs]; [reflexivity|].
  destruct (try_variations responses parse_table (v :: vs) 0 0) as [[idx r]|];
    [simpl in H; congruence | reflexivity].
Qed.

Lemma lookup_not_success_not_found_witness :
  search_status (lookup_vat_by_company_name VatScenario.always_results
                   VatScenario.two_rows_table "  ") <> SUCCESS /\
  vat_number (lookup_vat_by_company_name VatScenario.always_results
                VatScenario.two_rows_table "  ") = "NOT_FOUND".
Proof.
  assert (H : search_status (lookup_vat_by_company_name VatScenario.always_results
                               VatScenario.two_rows_table "  ") <> SUCCESS)
    by (vm_compute; discriminate).
  split; [exact H|].
  exact (lookup_not_success_not_found _ _ _ H).
Defined.

Lemma find_some_In : forall (f : VatRow -> bool) l r, find f l = Some r -> In r l /\ f r = true.
Proof.
  intros f l r; induction l as [|x l IH]; simpl; [discriminate|].
  destruct (f x) eqn:E; [intros H; injection H as <-; auto|].
  intros H; destruct (IH H); auto.
Qed.

Lemma find_none_Forall :
  forall (f : VatRow -> bool) l, Forall (fun r => f r = false) l -> find f l = None.
Proof.
  intros f l H; induction H as [|x l Hx _ IH]; simpl; [reflexivity|].
  rewrite Hx; exact IH.
Qed.

Lemma parse_multi_is_find :
  forall trs term, (1 < length (valid_results (tl trs)))%nat ->
    parse_vat_results (Some trs) term = find (exact_name_match term) (valid_results (tl trs)).
Proof.
  intros trs term Hlen; unfold parse_vat_results.
  destruct (tl trs) as [|row rows]; [simpl in Hlen; lia|].
  destruct (valid_results (row :: rows)) as [|a [|b l]]; simpl in Hlen; [lia|lia|reflexivity].
Qed.

(** C6: with more than one validly formatted row, a row is accepted only
    if its company name, upper-cased and stripped, equals the search
    variant upper-cased and stripped (the first such row is taken); when
    no row is equal, the variant gives no match and the lookup goes on with
    the next variant at the next request. *)
Theorem multi_row_exact_match_only :
  forall responses parse_table term rest idx n html trs,
    responses n = Some html -> html <> EmptyString ->
    detect_response_type html = results_found ->
    parse_table html = Some trs ->
    (1 < length (valid_results (tl trs)))%nat ->
    parse_vat_results (Some trs) term = find (exact_name_match term) (valid_results (tl trs)) /\
    (forall r, parse_vat_results (Some trs) term = Some r ->
       In r (valid_results (tl trs)) /\
       String.eqb (PyStr.strip (PyStr.upper (row_company_name r)))
                  (PyStr.strip (PyStr.upper term)) = true) /\
    (Forall (fun r => exact_name_match term r = false) (valid_results (tl trs)) ->
       parse_vat_results (Some trs) term = None /\
       try_variations responses parse_table (term :: rest) idx n
       = try_variations responses parse_table rest (S idx) (S n)).
Proof.
  intros responses parse_table term rest idx n html trs Hr Hne Hd Hp Hlen.
  pose proof (parse_multi_is_find trs term Hlen) as Hf.
  split; [exact Hf|]. split.
  - intros r Hs; rewrite Hf in Hs; apply find_some_In in Hs; exact Hs.
  - intros Hall.
    assert (HN : parse_vat_results (Some trs) term = None)
      by (rewrite Hf; apply find_none_Forall; exact Hall).
    split; [exact HN|].
    simpl. rewrite Hr.
    destruct html as [|c h]; [contradiction|].
    rewrite Hd, Hp, HN. reflexivity.
Qed.

Lemma multi_row_exact_match_only_witness :
  VatScenario.always_results 0 = Some VatScenario.results_html /\
  detect_response_type VatScenario.results_html = results_found /\
  try_variations VatScenario.always_results VatScenario.two_rows_table
    ["ACME LTD"; "ACME LIMITED"] 0 0
  = try_variations VatScenario.always_results VatScenario.two_rows_table
    ["ACME LIMITED"] 1 1.
Proof.
  assert (Hd : detect_response_type VatScenario.results_html = results_found)
    by (vm_compute; reflexivity).
  assert (Hl : (1 < length (valid_results (tl [VatScenario.header_row;
                 VatScenario.data_row "ACME HOLDINGS LIMITED" "GB123456789";
                 VatScenario.data_row "ACME TRADING LIMITED" "GB987654321"])))%nat)
    by (vm_compute; lia).
  split; [reflexivity|]; split; [exact Hd|].
  refine (proj2 (proj2 (proj2 (multi_row_exact_match_only VatScenario.always_results
            VatScenario.two_rows_table "ACME LTD" ["ACME LIMITED"] 0 0
            VatScenario.results_html _ eq_refl ltac:(discriminate) Hd eq_refl Hl)) _)).
  repeat constructor.
Defined.

(** C3 (as stated it fails): a results page whose single row holds the
    VAT number ["gb123456789"] passes [_validate_vat_format], which checks
    the upper-cased form, and the lookup returns the lower-case text with
    status SUCCESS; that string does not match [^GB\d{9}$]. *)
Lemma lookup_success_lowercase_vat :
  let r := lookup_vat_by_company_name VatScenario.always_results
             VatScenario.lower_case_table "Acme Ltd" in
  search_status r = SUCCESS /\ vat_number r = "gb123456789" /\
  Re.match_at (vat_number r) vat_pattern 0 = None.
Proof. vm_compute. repeat split. Qed.

Lemma valid_results_validated :
  forall rows r, In r (valid_results rows) -> validate_vat_format (row_vat_number r) = true.
Proof.
  intros rows r; induction rows as [|row rows IH]; simpl; [contradiction|].
  intros H; apply in_app_or in H; destruct H as [H|H]; [|auto].
  unfold row_result in H.
  destruct row as [|c0 [|c1 [|c2 [|c3 cs]]]]; try contradiction.
  destruct (negb (String.eqb (link_text c2) EmptyString) && validate_vat_format (link_text c2))
    eqn:E; [|contradiction].
  destruct H as [<-|[]]; simpl.
  apply andb_prop in E; destruct E as [_ E]; exact E.
Qed.

Lemma parse_vat_results_validated :
  forall table term r, parse_vat_results table term = Some r ->
    validate_vat_format (row_vat_number r) = true.
Proof.
  intros table term r H; unfold parse_vat_results in H.
  destruct table as [trs|]; [|discriminate].
  destruct (tl trs) as [|row rows]; [discriminate|].
  destruct (valid_results (row :: rows)) as [|a [|b l]] eqn:E; [discriminate| |].
  - injection H as <-. apply (valid_results_validated (row :: rows)). rewrite E; left; reflexivity.
  - apply find_some_In in H; destruct H as [H _].
    apply (valid_results_validated (row :: rows)). rewrite E; exact H.
Qed.

Lemma try_attempts_validated :
  forall responses parse_table term atts n r n',
    try_attempts responses parse_table term atts n = (Some r, n') ->
    validate_vat_format (row_vat_number r) = true.
Proof.
  intros responses parse_table term atts; induction atts as [|a atts IH]; intros n r n' H;
    simpl in H; [discriminate|].
  destruct (responses n) as [[|c h]|].
  - destruct (Nat.ltb a 2); [eapply IH; exact H|discriminate].
  - destruct (detect_response_type (String c h)).
    + destruct (Nat.ltb a 2); [eapply IH; exact H|discriminate].
    + discriminate.
    + injection H as H _. eapply parse_vat_results_validated; exact H.
    + discriminate.
  - destruct (Nat.ltb a 2); [eapply IH; exact H|discriminate].
Qed.

Lemma try_variations_validated :
  forall responses parse_table vars idx n k r,
    try_variations responses parse_table vars idx n = Some (k, r) ->
    validate_vat_format (row_vat_number r) = true.
Proof.
  intros responses parse_table vars; induction vars as [|v vs IH]; intros idx n k r H;
    cbn [try_variations] in H; [discriminate|].
  destruct (try_attempts responses parse_table v (seq 0 max_retries) n) as [[r'|] n'] eqn:E.
  - injection H as _ <-. eapply try_attempts_validated; exact E.
  - eapply IH; exact H.
Qed.

(** C3 amended: when the lookup returns SUCCESS, its VAT number passes
    [_validate_vat_format]: once upper-cased and stripped of spaces it
    matches [^GB\d{9}$]. *)
Theorem lookup_success_vat_format :
  forall responses parse_table name,
    search_status (lookup_vat_by_company_name responses parse_table name) = SUCCESS ->
    Re.match_at (remove_spaces (PyStr.upper
      (vat_number (lookup_vat_by_company_name responses parse_table name)))) vat_pattern 0 <> None.
Proof.
  intros responses parse_table name H.
  unfold lookup_vat_by_company_name in *.
  destruct (String.eqb (PyStr.strip name) EmptyString); [discriminate H|].
  destruct (sanitize_company_name (PyStr.strip name)) as [|v vs]; [discriminate H|].
  destruct (try_variations responses parse_table (v :: vs) 0 0) as [[idx r]|] eqn:E;
    [|discriminate H].
  simpl. apply try_variations_validated in E.
  unfold validate_vat_format in E.
  destruct (String.eqb (row_vat_number r) EmptyString); [discriminate E|].
  destruct (Re.match_at _ vat_pattern 0); [discriminate|discriminate E].
Qed.

Lemma lookup_success_vat_format_witness :
  search_status (lookup_vat_by_company_name VatScenario.always_results
                   VatScenario.lower_case_table "Acme Ltd") = SUCCESS /\
  Re.match_at (remove_spaces (PyStr.upper (vat_number (lookup_vat_by_company_name
    VatScenario.always_results VatScenario.lower_case_table "Acme Ltd")))) vat_pattern 0 <> None.
Proof.
  assert (H : search_status (lookup_vat_by_company_name VatScenario.always_results
                   VatScenario.lower_case_table "Acme Ltd") = SUCCESS) by (vm_compute; reflexivity).
  split; [exact H|].
  exact (lookup_success_vat_format _ _ _ H).
Defined.

End VatFacts.

(** Deduplication in first-seen order keeps exactly the elements of its
    input, once each. *)
Module ListFacts.
Local Open Scope nat_scope.

Lemma dedup_first_aux_spec : forall l seen x,
  In x (dedup_first_aux seen l) <-> In x l /\ ~ In x seen.
Proof.
  induction l as [|a l IH]; intros seen x; simpl.
  - tauto.
  - case_eq (existsb (String.eqb a) seen); intro E.
    + apply existsb_exists in E as [y [Hy Ey]]. apply String.eqb_eq in Ey. subst y.
      rewrite IH. split; [tauto|]. intros [[<-|H] Hn]; [contradiction|tauto].
    + assert (Hna : ~ In a seen).
      { intro Hin. assert (existsb (String.eqb a) seen = true) as E'
          by (apply existsb_exists; exists a; split; [exact Hin|apply String.eqb_refl]).
        congruence. }
      simpl. rewrite IH. simpl.
      split.
      * intros [<-|[H1 H2]]; [tauto|]. split; [tauto|]. tauto.
      * intros [[<-|H1] H2]; [left; reflexivity|].
        destruct (String.eqb_spec a x) as [->|Hne]; [left; reflexivity|].
        right. split; [exact H1|]. intros [H3|H3]; [exact (Hne H3)|exact (H2 H3)].
Qed.

Lemma dedup_first_aux_NoDup : forall l seen, NoDup (dedup_first_aux seen l).
Proof.
  induction l as [|a l IH]; intros seen; simpl.
  - constructor.
  - destruct (existsb (String.eqb a) seen).
    + apply IH.
    + constructor; [|apply IH].
      intro H. apply dedup_first_aux_spec in H as [_ H]. apply H. left. reflexivity.
Qed.

Lemma dedup_first_aux_length : forall l seen, length (dedup_first_aux seen l) <= length l.
Proof.
  induction l as [|a l IH]; intros seen; simpl; [lia|].
  destruct (existsb (String.eqb a) seen); simpl; [specialize (IH seen)|specialize (IH (a :: seen))]; lia.
Qed.

Lemma dedup_first_In : forall l x, In x (dedup_first l) <-> In x l.
Proof. intros l x. unfold dedup_first. rewrite dedup_first_aux_spec. simpl. tauto. Qed.

Lemma dedup_first_NoDup : forall l, NoDup (dedup_first l).
Proof. intro l. apply dedup_first_aux_NoDup. Qed.

Lemma dedup_first_length : forall l, length (dedup_first l) <= length l.
Proof. intro l. apply dedup_first_aux_length. Qed.

Lemma firstn_In : forall {A} n (l : list A) x, In x (firstn n l) -> In x l.
Proof.
  intros A n l x H. rewrite <- (firstn_skipn n l). apply in_or_app. left. exact H.
Qed.

End ListFacts.

Module ContactFacts.
Import Contact.
Local Open Scope nat_scope.
Local Open Scope string_scope.

Lemma accept_phone_not_test : forall m p,
  accept_phone m = Some p -> existsb (PyStr.contains (digits_only p)) uk_test_numbers = false.
Proof.
  intros m p H. unfold accept_phone in H.
  destruct (_ || _)%nat; [discriminate|].
  destruct (existsb _ uk_test_numbers) eqn:E; [discriminate|].
  destruct (negb _); [discriminate|].
  destruct (_ && _)%nat; [discriminate|].
  destruct (String.eqb _ _); [discriminate|].
  injection H as <-. exact E.
Qed.

Lemma extract_phone_numbers_not_test : forall cfg t h p,
  In p (extract_phone_numbers cfg t h) ->
  existsb (PyStr.contains (digits_only p)) uk_test_numbers = false.
Proof.
  intros cfg t h p H. unfold extract_phone_numbers, py_set_list in H.
  apply ListFacts.firstn_In in H. rewrite ListFacts.dedup_first_In in H.
  apply in_flat_map in H as [c [_ H]].
  apply in_flat_map in H as [pat [_ H]].
  apply in_flat_map in H as [mt [_ H]].
  destruct (accept_phone mt) eqn:E; [|contradiction].
  destruct H as [<-|[]]. eapply accept_phone_not_test; eassumption.
Qed.

Lemma extract_email_addresses_not_excluded : forall cfg t h e,
  In e (extract_email_addresses cfg t h) ->
  existsb (PyStr.contains e) email_excludes = false.
Proof.
  intros cfg t h e H. unfold extract_email_addresses, py_set_list in H.
  apply ListFacts.firstn_In in H. rewrite ListFacts.dedup_first_In in H.
  apply in_flat_map in H as [c [_ H]].
  apply in_flat_map in H as [mt [_ H]].
  destruct (existsb _ email_excludes) eqn:E; [contradiction|].
  destruct H as [<-|[]]. exact E.
Qed.

Section Crawl.
Variable fetch : string -> option string.
Variable extract_text_content : string -> string.
Variable cfg : ContactCrawlConfig.

Definition phone_ok (p : string) : Prop :=
  existsb (PyStr.contains (digits_only p)) uk_test_numbers = false.
Definition email_ok (e : string) : Prop :=
  existsb (PyStr.contains e) email_excludes = false.

Lemma crawl_loop_filters : forall urls acc,
  Forall phone_ok (a_phones acc) -> Forall email_ok (a_emails acc) ->
  let acc' := crawl_loop fetch extract_text_content cfg urls acc in
  Forall phone_ok (a_phones acc') /\ Forall email_ok (a_emails acc').
Proof.
  induction urls as [|u urls IH]; intros acc Hp He; simpl; [tauto|].
  destruct (_ <=? _)%nat; [tauto|].
  destruct (fetch u) as [html|]; [|apply IH; assumption].
  apply IH; simpl; apply Forall_app; split; try assumption;
    apply Forall_forall; intros x Hx.
  - eapply extract_phone_numbers_not_test; exact Hx.
  - eapply extract_email_addresses_not_excluded; exact Hx.
Qed.

(** The lists accumulated over the crawl grow by at most one cap per
    crawled page. *)
Definition bounded (acc : Acc) : Prop :=
  length (a_phones acc) <= a_crawled acc * max_phone_numbers cfg /\
  length (a_emails acc) <= a_crawled acc * max_email_addresses cfg /\
  length (a_facebook acc) <= a_crawled acc * max_social_links_per_platform cfg /\
  length (a_instagram acc) <= a_crawled acc * max_social_links_per_platform cfg /\
  length (a_linkedin acc) <= a_crawled acc * max_social_links_per_platform cfg.

Lemma crawl_loop_bounded : forall urls acc,
  bounded acc -> bounded (crawl_loop fetch extract_text_content cfg urls acc).
Proof.
  induction urls as [|u urls IH]; intros acc H; simpl; [exact H|].
  destruct (_ <=? _)%nat; [exact H|].
  destruct (fetch u) as [html|]; [|apply IH; exact H].
  apply IH. unfold bounded in *; simpl. rewrite !length_app.
  unfold extract_phone_numbers, extract_email_addresses, extract_social.
  repeat match goal with |- context [length (firstn ?n ?l)] =>
    pose proof (firstn_le_length n l); generalize dependent (length (firstn n l)) end.
  intros. lia.
Qed.

End Crawl.

(** C4 (the failing input): the test numbers are looked for in the digits
    as written, before [_is_valid_uk_number] turns a leading 44 into 0, so
    the [+44] form of a test number is returned, while the spaced,
    bracketed and dashed forms are rejected. *)
Theorem test_number_plus44_kept :
  extract_phone_numbers default_config "+44 121 496 0000" "" = ["+44 121 496 0000"] /\
  extract_phone_numbers default_config "+44 7700 900000" "" = ["+44 7700 900000"] /\
  extract_phone_numbers default_config "+44 1234 567890" "" = ["+44 1234 567890"] /\
  extract_phone_numbers default_config "+44 20 7946 0000" "" = ["+44 20 7946 0000"] /\
  extract_phone_numbers default_config "0121 496 0000" "" = [] /\
  extract_phone_numbers default_config "(0121) 496 0000" "" = [] /\
  extract_phone_numbers default_config "0121-496-0000" "" = [].
Proof. repeat split; vm_compute; reflexivity. Qed.

(** C5 (counterexample): the homepage shows [jane@example.com], the
    [/contact] page [0121 496 0000]; three pages are crawled and the phone
    list comes back empty, since 01214960000 is one of the test numbers. *)
Lemma scenario_e_phone_dropped :
  let ci := ContactScenario.run default_config "Email jane@example.com" "Call 0121 496 0000" in
  pages_crawled ci = 3 /\ ~ In "jane@example.com" (email_addresses ci) /\ phone_numbers ci = [].
Proof. vm_compute. split; [reflexivity|split; [intros []|reflexivity]]. Qed.

(** C5 (amended): whatever the pages hold, the returned emails never
    contain [jane@example.com] and no returned phone has digits containing
    01214960000, so 0121 496 0000 is returned in no format. *)
Theorem contact_excludes_placeholder_and_test_number :
  forall is_ipv6_address fetch anchors urljoin extract_text_content cfg d,
  let ci := extract_contact_info is_ipv6_address fetch anchors urljoin extract_text_content cfg d in
  ~ In "jane@example.com" (email_addresses ci) /\
  (forall p, In p (phone_numbers ci) -> PyStr.contains (digits_only p) "01214960000" = false).
Proof.
  intros ip6 fetch anchors urljoin ext cfg d. cbv zeta. unfold extract_contact_info.
  cbn [email_addresses phone_numbers]. unfold py_set_list.
  destruct (crawl_loop_filters fetch ext cfg
              (dedup_first (find_contact_pages ip6 fetch anchors urljoin cfg d))
              (mkAcc [] [] [] [] [] 0 []) (Forall_nil _) (Forall_nil _)) as [Hp He].
  split.
  - intro H. rewrite ListFacts.dedup_first_In in H.
    rewrite Forall_forall in He. specialize (He _ H). unfold email_ok in He.
    vm_compute in He. discriminate He.
  - intros p H. rewrite ListFacts.dedup_first_In in H.
    rewrite Forall_forall in Hp. specialize (Hp _ H). unfold phone_ok in Hp.
    destruct (PyStr.contains (digits_only p) "01214960000") eqn:E; [|reflexivity].
    assert (existsb (PyStr.contains (digits_only p)) uk_test_numbers = true) as T.
    { apply existsb_exists. exists "01214960000". split; [simpl; tauto|exact E]. }
    congruence.
Qed.

(** C9 (counterexample): with [max_phone_numbers = 1], two pages showing
    two different numbers give a phone list of two entries. *)
Lemma phone_cap_exceeded :
  let cfg := mkCfg 15 1 10 5 in
  let ci := ContactScenario.run cfg "Call 0121 555 1234" "Call 0121 555 5678" in
  max_phone_numbers cfg = 1 /\ phone_numbers ci = ["0121 555 1234"; "0121 555 5678"].
Proof. vm_compute. split; reflexivity. Qed.

(** C9 (amended): the returned lists have no duplicates, and each holds at
    most [pages_crawled] times its per-page cap. *)
Theorem contact_lists_dedup_per_page_cap :
  forall is_ipv6_address fetch anchors urljoin extract_text_content cfg d,
  let ci := extract_contact_info is_ipv6_address fetch anchors urljoin extract_text_content cfg d in
  NoDup (phone_numbers ci) /\ NoDup (email_addresses ci) /\ NoDup (facebook_links ci) /\
  NoDup (instagram_links ci) /\ NoDup (linkedin_links ci) /\
  length (phone_numbers ci) <= pages_crawled ci * max_phone_numbers cfg /\
  length (email_addresses ci) <= pages_crawled ci * max_email_addresses cfg /\
  length (facebook_links ci) <= pages_crawled ci * max_social_links_per_platform cfg /\
  length (instagram_links ci) <= pages_crawled ci * max_social_links_per_platform cfg /\
  length (linkedin_links ci) <= pages_crawled ci * max_social_links_per_platform cfg.
Proof.
  intros ip6 fetch anchors urljoin ext cfg d. cbv zeta. unfold extract_contact_info.
  cbn [phone_numbers email_addresses facebook_links instagram_links linkedin_links pages_crawled].
  unfold py_set_list.
  destruct (crawl_loop_bounded fetch ext cfg
              (dedup_first (find_contact_pages ip6 fetch anchors urljoin cfg d))
              (mkAcc [] [] [] [] [] 0 [])) as (H1 & H2 & H3 & H4 & H5);
    [unfold bounded; simpl; lia|].
  repeat split; try apply ListFacts.dedup_first_NoDup;
    eapply Nat.le_trans; try apply ListFacts.dedup_first_length; assumption.
Qed.

End ContactFacts.

(** [lower] is idempotent and commutes with slicing. *)
Module StrFacts.
Import PyStr.

Lemma char_lower_idem : forall c, char_lower (char_lower c) = char_lower c.
Proof. intros [[] [] [] [] [] [] [] []]; reflexivity. Qed.

Lemma lower_idem : forall s, lower (lower s) = lower s.
Proof.
  unfold lower. induction s as [|c s IH]; simpl; [reflexivity|].
  rewrite char_lower_idem, IH. reflexivity.
Qed.

Lemma lower_length : forall s, String.length (lower s) = String.length s.
Proof. unfold lower. induction s as [|c s IH]; simpl; congruence. Qed.

Lemma lower_substring : forall s n m, lower (substring n m s) = substring n m (lower s).
Proof.
  unfold lower. induction s as [|c s IH]; intros [|n] [|m]; simpl; try reflexivity.
  - f_equal. apply IH.
  - apply IH.
  - apply IH.
Qed.

Lemma lower_drop : forall n s, lower (drop n s) = drop n (lower s).
Proof. intros n s. unfold drop. rewrite lower_substring, lower_length. reflexivity. Qed.

End StrFacts.

Module HunterFacts.
Import Hunter.
Local Open Scope nat_scope.
Local Open Scope string_scope.

Section Facts.
Variable is_ipv6_address : string -> bool.

Definition found_domains (organic : list OrganicResult) : list string :=
  flat_map (fun r => match url r with
                     | Some u => match extract_base_domain is_ipv6_address u with
                                 | Some d => [d] | None => [] end
                     | None => [] end) organic.

Lemma existsb_eqb_In : forall x l, existsb (String.eqb x) l = true <-> In x l.
Proof.
  intros x l. rewrite existsb_exists. split.
  - intros [y [Hy E]]. apply String.eqb_eq in E. subst. exact Hy.
  - intros H. exists x. split; [exact H|apply String.eqb_refl].
Qed.

Lemma dedup_first_aux_same_seen : forall l s1 s2,
  (forall x, In x s1 <-> In x s2) -> dedup_first_aux s1 l = dedup_first_aux s2 l.
Proof.
  induction l as [|a l IH]; intros s1 s2 H; simpl; [reflexivity|].
  assert (existsb (String.eqb a) s1 = existsb (String.eqb a) s2) as E.
  { destruct (existsb (String.eqb a) s1) eqn:E1; destruct (existsb (String.eqb a) s2) eqn:E2;
      try reflexivity.
    - apply existsb_eqb_In, H, existsb_eqb_In in E1. congruence.
    - apply existsb_eqb_In, H, existsb_eqb_In in E2. congruence. }
  rewrite E. destruct (existsb (String.eqb a) s2).
  - apply IH. exact H.
  - f_equal. apply IH. intro x. simpl. rewrite H. tauto.
Qed.

Lemma fold_extract : forall organic acc,
  fold_left
    (fun unique_domains result =>
       match url result with
       | Some u =>
           if String.eqb u "" then unique_domains
           else
             match extract_base_domain is_ipv6_address u with
             | Some d =>
                 if existsb (String.eqb d) unique_domains then unique_domains
                 else app unique_domains [d]
             | None => unique_domains
             end
       | None => unique_domains
       end) organic acc
  = app acc (dedup_first_aux acc (found_domains organic)).
Proof.
  induction organic as [|r organic IH]; intro acc; simpl.
  - rewrite app_nil_r. reflexivity.
  - unfold found_domains. simpl. fold (found_domains organic).
    destruct (url r) as [u|]; [|apply IH].
    destruct (String.eqb_spec u "") as [->|_].
    + rewrite IH. reflexivity.
    + destruct (extract_base_domain is_ipv6_address u) as [d|]; [|apply IH].
      simpl. destruct (existsb (String.eqb d) acc); [apply IH|].
      rewrite IH, <- app_assoc. simpl. f_equal. f_equal.
      apply dedup_first_aux_same_seen. intro x. rewrite in_app_iff. simpl. tauto.
Qed.

Lemma extract_base_domain_iff : forall u d,
  extract_base_domain is_ipv6_address u = Some d <->
  (PyStr.startswith u "http://" || PyStr.startswith u "https://") = true /\
  exists parsed, UrlParse.urlparse is_ipv6_address u = Some parsed /\
    d = (let n := PyStr.lower (UrlParse.netloc parsed) in
         if PyStr.startswith n "www." then PyStr.drop 4 n else n) /\
    PyStr.has_char "." d = true /\ 3 <= String.length d.
Proof.
  intros u d. unfold extract_base_domain.
  destruct (String.eqb_spec u "") as [->|Hne].
  - simpl. split; [discriminate|]. intros [H _]. discriminate H.
  - simpl. destruct (_ || _) eqn:Hh; simpl.
    + destruct (UrlParse.urlparse is_ipv6_address u) as [parsed|] eqn:Hp.
      * cbv zeta.
        destruct (PyStr.has_char "." _) eqn:Hd; destruct (Nat.ltb _ 3) eqn:Hl; simpl;
          rewrite ?Nat.ltb_lt, ?Nat.ltb_ge in Hl.
        -- split; [discriminate|]. intros [_ [p' [E [-> [_ H]]]]]. injection E as <-. lia.
        -- split.
           ++ intro E. injection E as <-. split; [reflexivity|]. exists parsed. repeat split; auto.
           ++ intros [_ [p' [E [-> _]]]]. injection E as <-. reflexivity.
        -- split; [discriminate|]. intros [_ [p' [E [-> [H _]]]]]. injection E as <-. congruence.
        -- split; [discriminate|]. intros [_ [p' [E [-> [H _]]]]]. injection E as <-. congruence.
      * split; [discriminate|]. intros [_ [p' [E _]]]. discriminate E.
    + split; [discriminate|]. intros [H _]. discriminate H.
Qed.

Lemma extract_base_domain_lower : forall u d,
  extract_base_domain is_ipv6_address u = Some d -> PyStr.lower d = d.
Proof.
  intros u d H. apply extract_base_domain_iff in H as [_ [p [_ [-> _]]]].
  cbv zeta. destruct (PyStr.startswith _ "www.").
  - rewrite StrFacts.lower_drop, StrFacts.lower_idem. reflexivity.
  - apply StrFacts.lower_idem.
Qed.

End Facts.

(** C7: [_extract_websites_from_results] returns, in first-seen order and
    once each, the base domains [_extract_base_domain] yields for the
    results' URLs; a base domain exists exactly for a URL starting with
    http:// or https:// that [urlparse] accepts, and is its lower-cased
    netloc (port or user info included, as [netloc] has them) with one
    leading www. removed, containing a dot and at least 3 characters long.
    The returned domains are lower case, so they are distinct also
    case-insensitively. *)
Theorem extract_websites_dedup_domains :
  forall (is_ipv6_address : string -> bool) (organic : list OrganicResult),
  let out := extract_websites_from_results is_ipv6_address organic in
  out = dedup_first (found_domains is_ipv6_address organic) /\
  NoDup (map PyStr.lower out) /\
  (forall u d, extract_base_domain is_ipv6_address u = Some d <->
     (PyStr.startswith u "http://" || PyStr.startswith u "https://") = true /\
     exists parsed, UrlParse.urlparse is_ipv6_address u = Some parsed /\
       d = (let n := PyStr.lower (UrlParse.netloc parsed) in
            if PyStr.startswith n "www." then PyStr.drop 4 n else n) /\
       PyStr.has_char "." d = true /\ 3 <= String.length d).
Proof.
  intros ip6 organic. cbv zeta.
  assert (E : extract_websites_from_results ip6 organic = dedup_first (found_domains ip6 organic)).
  { unfold extract_websites_from_results. rewrite fold_extract. reflexivity. }
  split; [exact E|split; [|apply extract_base_domain_iff]].
  rewrite E.
  rewrite (map_ext_in PyStr.lower (fun x => x)).
  - rewrite map_id. apply ListFacts.dedup_first_NoDup.
  - intros d Hd. rewrite ListFacts.dedup_first_In in Hd.
    unfold found_domains in Hd. apply in_flat_map in Hd as [r [_ Hd]].
    destruct (url r) as [u|]; [|contradiction].
    destruct (extract_base_domain ip6 u) eqn:Hu; [|contradiction].
    destruct Hd as [<-|[]]. eapply extract_base_domain_lower. exact Hu.
Qed.

End HunterFacts.

Module LinkedInFacts.
Import LinkedIn.
Local Open Scope nat_scope.
Local Open Scope string_scope.

Lemma insert_by_score_In : forall x l y, In y (insert_by_score x l) <-> x = y \/ In y l.
Proof.
  intros x l y. induction l as [|z l IH]; simpl; [tauto|].
  destruct (Nat.ltb (score z) (score x)); simpl; [tauto|]. rewrite IH. tauto.
Qed.

Lemma sort_by_score_fold_In : forall l acc y,
  In y (fold_left (fun acc x => insert_by_score x acc) l acc) <-> In y l \/ In y acc.
Proof.
  induction l as [|x l IH]; intros acc y; simpl; [tauto|].
  rewrite IH, insert_by_score_In. tauto.
Qed.

Lemma sort_by_score_Forall : forall (P : LinkedInResult -> Prop) l,
  Forall P l -> Forall P (sort_by_score l).
Proof.
  intros P l H. rewrite Forall_forall in *. intros y Hy.
  unfold sort_by_score in Hy. rewrite sort_by_score_fold_In in Hy.
  destruct Hy as [Hy|[]]. apply H. exact Hy.
Qed.

Section Facts.
Variable is_ipv6_address : string -> bool.
Variable company_name : string.
Variable website : option string.

(** The domain [_score_linkedin_result] looks for: the one
    [_extract_domain_from_website] gives for a non-empty website, when it is
    not empty. *)
Definition verified_domain : option string :=
  match website with
  | Some w =>
      if String.eqb w "" then None
      else match extract_domain_from_website is_ipv6_address w with
           | Some d => if String.eqb d "" then None else Some d
           | None => None
           end
  | None => None
  end.

(** The score as the spec states it, on a lower-cased description. *)
Definition spec_score (desc : string) : nat :=
  (if PyStr.contains desc (PyStr.lower company_name) then 1 else 0) +
  match verified_domain with
  | Some d => if PyStr.contains desc d then 2 else 0
  | None => 0
  end.

Lemma score_linkedin_result_spec : forall r,
  fst (score_linkedin_result is_ipv6_address r company_name website) =
  spec_score (PyStr.lower (r_description r)).
Proof.
  intro r. unfold score_linkedin_result, spec_score, verified_domain. cbn [fst].
  destruct (PyStr.contains _ (PyStr.lower company_name)); f_equal;
  destruct website as [w|]; try reflexivity;
  destruct (String.eqb w ""); try reflexivity;
  destruct (extract_domain_from_website is_ipv6_address w) as [d|]; try reflexivity;
  destruct (String.eqb d ""); reflexivity.
Qed.

Variable organic : list SerpResult.

Definition from_result (li : LinkedInResult) : Prop :=
  exists r, In r organic /\ url li = r_url r /\ description li = r_description r /\
    score li = spec_score (PyStr.lower (r_description r)) /\ 0 < score li.

Lemma process_fold_from_result : forall rs acc,
  (forall r, In r rs -> In r organic) ->
  Forall from_result (fst acc) -> Forall from_result (snd acc) ->
  let res := fold_left
      (fun '(cs, es) result =>
         if negb (PyStr.contains (PyStr.lower (r_url result)) "linkedin.com") then (cs, es)
         else
           let '(sc, md) := score_linkedin_result is_ipv6_address result company_name website in
           if Nat.eqb sc 0 then (cs, es)
           else
             let li := mkLinkedIn (r_url result) (r_title result) (r_description result)
                                  (r_position result) sc md in
             if is_company_url li then (app cs [li], es)
             else if is_employee_url li then (cs, app es [li])
             else (cs, es))
      rs acc in
  Forall from_result (fst res) /\ Forall from_result (snd res).
Proof.
  induction rs as [|r rs IH]; intros [cs es] Hin Hc He; [cbv zeta; simpl in *; tauto|].
  cbn [fst snd] in Hc, He.
  assert (Hin' : forall x, In x rs -> In x organic) by (intros x Hx; apply Hin; right; exact Hx).
  assert (Hr : In r organic) by (apply Hin; left; reflexivity).
  pose proof (score_linkedin_result_spec r) as Hs.
  cbv zeta. cbn [fold_left]. apply IH; [exact Hin'| |]; cbv beta iota;
  (destruct (negb _); [assumption|]);
  destruct (score_linkedin_result is_ipv6_address r company_name website) as [sc md];
  cbn [fst] in Hs; cbv iota;
  (destruct (Nat.eqb_spec sc 0) as [_|Hsc]; [assumption|]);
  (assert (Hl : from_result (mkLinkedIn (r_url r) (r_title r) (r_description r) (r_position r) sc md))
     by (exists r; cbn [url description score]; repeat split; auto; lia));
  (destruct (is_company_url _); [|destruct (is_employee_url _)]); cbn [fst snd];
  try assumption; apply Forall_app; split; auto.
Qed.

End Facts.

(** C8: every result in the company list and in the employee list comes
    from an organic result whose score is 1 if the lower-cased company name
    occurs in the lower-cased description, plus 2 if the website's domain
    does, and that score is positive; so a result whose description contains
    neither is in neither list. *)
Theorem linkedin_zero_score_excluded :
  forall (is_ipv6_address : string -> bool) organic company_name website,
  let res := process_zenserp_results is_ipv6_address organic company_name website in
  Forall (from_result is_ipv6_address company_name website organic) (app (fst res) (snd res)) /\
  (forall r, In r organic ->
     PyStr.contains (PyStr.lower (r_description r)) (PyStr.lower company_name) = false ->
     (forall d, verified_domain is_ipv6_address website = Some d ->
                PyStr.contains (PyStr.lower (r_description r)) d = false) ->
     Forall (fun li => description li <> r_description r) (app (fst res) (snd res))).
Proof.
  intros ip6 organic name website. cbv zeta.
  assert (H : Forall (from_result ip6 name website organic)
                     (app (fst (process_zenserp_results ip6 organic name website))
                          (snd (process_zenserp_results ip6 organic name website)))).
  { unfold process_zenserp_results.
    destruct (process_fold_from_result ip6 name website organic organic ([], [])
                (fun r H => H) (Forall_nil _) (Forall_nil _)) as [Hc He].
    destruct (fold_left _ organic ([], [])) as [cs es]. simpl in *.
    apply Forall_app; split; apply sort_by_score_Forall; assumption. }
  split; [exact H|].
  intros r _ Hn Hd. rewrite Forall_forall in *. intros li Hli Heq.
  destruct (H li Hli) as [r' [_ [_ [Hdesc [Hsc Hpos]]]]].
  rewrite <- Hdesc, Heq in Hsc. unfold spec_score in Hsc. rewrite Hn in Hsc.
  destruct (verified_domain ip6 website) as [d|] eqn:Ev.
  - rewrite (Hd d eq_refl) in Hsc. lia.
  - lia.
Qed.

End LinkedInFacts.

(** Properties of the string primitives used by the normalizations. *)
Module StrFacts2.
Import PyStr.

Lemma is_space_upper : forall c, is_space (char_upper c) = is_space c.
Proof. intros [[] [] [] [] [] [] [] []]; reflexivity. Qed.

Lemma upper_lower_char : forall c, char_upper (char_lower c) = char_upper c.
Proof. intros [[] [] [] [] [] [] [] []]; reflexivity. Qed.

Lemma upper_upper_char : forall c, char_upper (char_upper c) = char_upper c.
Proof. intros [[] [] [] [] [] [] [] []]; reflexivity. Qed.

Lemma is_space_lower : forall c, is_space (char_lower c) = is_space c.
Proof. intros [[] [] [] [] [] [] [] []]; reflexivity. Qed.

Lemma rev_str_rev_str : forall s acc acc2,
  rev_str (rev_str s acc) acc2 = rev_str acc (s ++ acc2).
Proof.
  induction s as [|c s IH]; intros acc acc2; simpl; [reflexivity|].
  rewrite IH. reflexivity.
Qed.

Lemma append_empty : forall s, (s ++ EmptyString)%string = s.
Proof. induction s as [|c s IH]; simpl; congruence. Qed.

(** The characters a normalization keeps: upper-cased, whitespace dropped. *)
Definition squash (s : string) : string :=
  filter_chars (fun c => negb (is_space c)) (upper s).

Lemma squash_cons : forall c s,
  squash (String c s) =
  if is_space c then squash s else String (char_upper c) (squash s).
Proof.
  intros c s. unfold squash, upper. simpl. rewrite is_space_upper.
  destruct (is_space c); reflexivity.
Qed.

Lemma squash_app : forall a b, squash (a ++ b) = (squash a ++ squash b)%string.
Proof.
  induction a as [|c a IH]; intros b; [reflexivity|].
  simpl (String c a ++ b)%string. rewrite !squash_cons, IH.
  destruct (is_space c); reflexivity.
Qed.

Lemma squash_rev_str : forall s acc, squash (rev_str s acc) = rev_str (squash s) (squash acc).
Proof.
  induction s as [|c s IH]; intros acc; simpl; [reflexivity|].
  rewrite IH, !squash_cons. destruct (is_space c); reflexivity.
Qed.

Lemma squash_lstrip : forall s, squash (lstrip s) = squash s.
Proof.
  induction s as [|c s IH]; simpl; [reflexivity|].
  rewrite squash_cons. destruct (is_space c) eqn:E; [exact IH|].
  rewrite squash_cons, E. reflexivity.
Qed.

Lemma squash_strip : forall s, squash (strip s) = squash s.
Proof.
  intro s. unfold strip, rstrip.
  rewrite squash_rev_str, squash_lstrip, squash_rev_str, squash_lstrip.
  cbn [squash upper map_chars filter_chars].
  rewrite rev_str_rev_str. simpl. apply append_empty.
Qed.

Lemma squash_lower : forall s, squash (lower s) = squash s.
Proof.
  induction s as [|c s IH]; [reflexivity|].
  change (lower (String c s)) with (String (char_lower c) (lower s)).
  rewrite !squash_cons, is_space_lower, upper_lower_char, IH. reflexivity.
Qed.

Lemma squash_upper : forall s, squash (upper s) = squash s.
Proof.
  induction s as [|c s IH]; [reflexivity|].
  change (upper (String c s)) with (String (char_upper c) (upper s)).
  rewrite !squash_cons, is_space_upper, upper_upper_char, IH. reflexivity.
Qed.

Lemma squash_spaces : forall w,
  UrlParse.forall_chars is_space w = true -> squash w = EmptyString.
Proof.
  induction w as [|c w IH]; simpl; [reflexivity|].
  intro H. apply andb_prop in H as [Hc Hw]. rewrite squash_cons, Hc. apply IH, Hw.
Qed.

End StrFacts2.

Module CrawlerMoreFacts.
Import Crawler CrawlerMore.
Local Open Scope Q_scope.

(** [_normalize_text] keeps the upper-cased non-whitespace characters. *)
Lemma normalize_text_squash : forall t, normalize_text t = StrFacts2.squash t.
Proof. intro t. unfold normalize_text. exact (StrFacts2.squash_strip t). Qed.

(** The order of [sorted(..., reverse=True)]: no element ranks below the
    next one. *)
Definition ranked_before (a b : WebsiteScoreV3) : Prop := key_lt a b = false.

Lemma key_lt_asym : forall a b, key_lt a b = true -> key_lt b a = false.
Proof.
  intros a b H. unfold key_lt in *.
  apply orb_true_iff in H. apply orb_false_iff.
  destruct H as [H|H].
  - apply negb_true_iff in H.
    assert (Hlt : total_score a < total_score b).
    { apply Qnot_le_lt. intro C. apply Qle_bool_iff in C. congruence. }
    split.
    + apply negb_false_iff, Qle_bool_iff, Qlt_le_weak. exact Hlt.
    + apply andb_false_iff; left.
      destruct (Qeq_bool (total_score b) (total_score a)) eqn:E; [|reflexivity].
      apply Qeq_bool_iff in E. rewrite E in Hlt. destruct (Qlt_irrefl _ Hlt).
  - apply andb_true_iff in H as [E L]. apply Qeq_bool_iff in E. apply Nat.ltb_lt in L.
    split.
    + apply negb_false_iff, Qle_bool_iff. rewrite E. apply Qle_refl.
    + apply andb_false_iff; right. apply Nat.ltb_ge. lia.
Qed.

Lemma insert_desc_sorted : forall x l,
  Sorted ranked_before l -> Sorted ranked_before (insert_desc x l).
Proof.
  intros x l H. induction H as [|y l Hs IH Hhd]; simpl.
  - repeat constructor.
  - destruct (key_lt y x) eqn:E.
    + constructor; [constructor; assumption|].
      constructor. unfold ranked_before. apply key_lt_asym. exact E.
    + constructor; [exact IH|].
      destruct l as [|z l]; simpl; [constructor; exact E|].
      destruct (key_lt z x); constructor; [exact E|].
      inversion Hhd; assumption.
Qed.

Lemma sort_desc_sorted : forall l, Sorted ranked_before (sort_desc l).
Proof.
  intro l. unfold sort_desc.
  assert (G : forall acc, Sorted ranked_before acc ->
              Sorted ranked_before (fold_left (fun acc x => insert_desc x acc) l acc)).
  { induction l as [|x l IH]; intros acc H; simpl; [exact H|].
    apply IH, insert_desc_sorted, H. }
  apply G. constructor.
Qed.

Lemma insert_desc_perm : forall x l, Permutation (insert_desc x l) (x :: l).
Proof.
  intros x l. induction l as [|y l IH]; simpl; [reflexivity|].
  destruct (key_lt y x); [reflexivity|].
  rewrite IH. apply perm_swap.
Qed.

Lemma sort_desc_perm : forall l, Permutation (sort_desc l) l.
Proof.
  intro l. unfold sort_desc.
  assert (G : forall acc, Permutation (fold_left (fun acc x => insert_desc x acc) l acc)
                                      (l ++ acc)).
  { induction l as [|x l IH]; intros acc; simpl; [reflexivity|].
    rewrite IH, insert_desc_perm. symmetry. apply Permutation_middle. }
  rewrite G, app_nil_r. reflexivity.
Qed.

Lemma crawl_single_website_domain : forall fetch ext links path config d cd,
  domain (fst (crawl_single_website fetch ext links path config d cd)) = d.
Proof.
  intros. unfold crawl_single_website. destruct (links d); reflexivity.
Qed.

(** Every ranked result is the crawl result of a non-skipped domain, or
    the error result of one that timed out. *)
Lemma rank_results : forall fetch ext links path config timed_out domains cd skip,
  crawl_and_rank_websites fetch ext links path config timed_out domains cd skip
  = match domains with
    | [] => []
    | _ => match truthy (company_number cd), truthy (vat_number cd) with
           | None, None => []
           | _, _ => sort_desc (map (fun d => if timed_out d then create_error_result d
                                             else fst (crawl_single_website fetch ext links path
                                                         config d cd))
                                    (filter (fun d => negb (existsb (String.eqb d) skip)) domains))
           end
    end.
Proof.
  intros. unfold crawl_and_rank_websites.
  destruct domains; [reflexivity|].
  destruct (truthy (company_number cd)), (truthy (vat_number cd)); try reflexivity;
  destruct (filter _ _); reflexivity.
Qed.

Lemma rank_from : forall fetch ext links path config timed_out domains cd skip r,
  In r (crawl_and_rank_websites fetch ext links path config timed_out domains cd skip) ->
  exists d, r = create_error_result d \/ r = fst (crawl_single_website fetch ext links path config d cd).
Proof.
  intros until r. rewrite rank_results. intro H.
  destruct domains; [contradiction|].
  destruct (truthy (company_number cd)), (truthy (vat_number cd)); try contradiction;
  apply CrawlerFacts.sort_desc_In, in_map_iff in H as [d [<- _]]; exists d;
  destruct (timed_out d); auto.
Qed.

(** One run of the page loop: the URLs it requests (appended to the log),
    the pages it counts, and where a match it sets was found. *)
Definition prov (pt : PageType) (reqs : list string) (m : PrecisionMatch) : Prop :=
  found m = true -> exists u, page_url m = Some u /\ page_type m = Some pt /\ In u reqs.

Lemma prov_incl : forall pt r1 r2 m, incl r1 r2 -> prov pt r1 m -> prov pt r2 m.
Proof.
  intros pt r1 r2 m Hi H Hf. destruct (H Hf) as [u [H1 [H2 H3]]].
  exists u. auto.
Qed.

Lemma prov_new : forall pt reqs i, prov pt reqs (new_match i).
Proof. intros pt reqs i H. discriminate H. Qed.

Lemma loop_facts : forall fetch ext pt cd maxp urls st,
  let res := crawl_pages_loop fetch ext pt cd maxp urls st in
  exists pre, ph_requests res = (ph_requests st ++ pre)%list /\ incl pre urls /\
    (length pre <= length urls)%nat /\ (ph_crawled res <= ph_crawled st + length pre)%nat /\
    (prov pt (ph_requests st) (ph_company st) -> prov pt (ph_requests res) (ph_company res)) /\
    (prov pt (ph_requests st) (ph_vat st) -> prov pt (ph_requests res) (ph_vat res)).
Proof.
  intros fetch ext pt cd maxp urls. induction urls as [|u urls IH]; intros st; cbv zeta.
  - exists []. simpl. rewrite app_nil_r. repeat split; auto; try lia. intros x [].
  - cbn [crawl_pages_loop].
    destruct (maxp <=? ph_crawled st)%nat.
    { exists []. rewrite app_nil_r. repeat split; auto; simpl; try lia. intros x []. }
    destruct (found (ph_company st) && found (ph_vat st)).
    { exists []. rewrite app_nil_r. repeat split; auto; simpl; try lia. intros x []. }
    assert (Hinc : incl (ph_requests st) (ph_requests st ++ [u])%list)
      by (intros x Hx; apply in_or_app; left; exact Hx).
    destruct (fetch u) as [body|].
    + destruct (check_exact_matches (ext body) cd) as [cn vf].
      match goal with |- context [crawl_pages_loop _ _ _ _ _ _ ?st'] =>
        destruct (IH st') as (pre & Hr & Hi & Hl & Hc & Hp1 & Hp2) end.
      cbn [ph_requests ph_crawled ph_company ph_vat] in *.
      exists (u :: pre). split; [rewrite Hr, <- app_assoc; reflexivity|]. repeat split.
      * intros x [<-|Hx]; [left; reflexivity|right; apply Hi, Hx].
      * simpl; lia.
      * simpl; lia.
      * intro H. apply Hp1.
        destruct (cn && negb (found (ph_company st))).
        -- intros _. exists u. repeat split. apply in_or_app; right; left; reflexivity.
        -- eapply prov_incl; eassumption.
      * intro H. apply Hp2.
        destruct (vf && negb (found (ph_vat st))).
        -- intros _. exists u. repeat split. apply in_or_app; right; left; reflexivity.
        -- eapply prov_incl; eassumption.
    + match goal with |- context [crawl_pages_loop _ _ _ _ _ _ ?st'] =>
        destruct (IH st') as (pre & Hr & Hi & Hl & Hc & Hp1 & Hp2) end.
      cbn [ph_requests ph_crawled ph_company ph_vat] in *.
      exists (u :: pre). split; [rewrite Hr, <- app_assoc; reflexivity|]. repeat split.
      * intros x [<-|Hx]; [left; reflexivity|right; apply Hi, Hx].
      * simpl; lia.
      * simpl; lia.
      * intro H. apply Hp1. eapply prov_incl; eassumption.
      * intro H. apply Hp2. eapply prov_incl; eassumption.
Qed.

Lemma phase_facts : forall fetch ext pages pt cd maxp,
  let p := crawl_pages_phase fetch ext pages pt cd maxp in
  incl (ph_requests p) pages /\ (length (ph_requests p) <= maxp)%nat /\
  (ph_crawled p <= length (ph_requests p))%nat /\
  prov pt (ph_requests p) (ph_company p) /\ prov pt (ph_requests p) (ph_vat p).
Proof.
  intros. subst p. unfold crawl_pages_phase.
  destruct (loop_facts fetch ext pt cd maxp (firstn maxp pages)
              (mkPhase (new_match "company_number") (new_match "vat_number") 0 []))
    as (pre & Hr & Hi & Hl & Hc & Hp1 & Hp2).
  cbn [ph_requests ph_crawled ph_company ph_vat app] in *. rewrite Hr.
  pose proof (firstn_le_length maxp pages).
  repeat split.
  - intros x Hx. apply ListFacts.firstn_In with maxp. apply Hi, Hx.
  - lia.
  - lia.
  - rewrite <- Hr. apply Hp1, prov_new.
  - rewrite <- Hr. apply Hp2, prov_new.
Qed.

(** Where a reported match was found: a TARGET page requested in phase 1
    or a NON_TARGET page requested in phase 2. *)
Definition found_in (treqs nreqs : list string) (m : PrecisionMatch) : Prop :=
  found m = true -> exists u, page_url m = Some u /\
    ((page_type m = Some TARGET /\ In u treqs) \/ (page_type m = Some NON_TARGET /\ In u nreqs)).

Lemma crawl_single_website_facts : forall fetch ext links path config d cd,
  let res := crawl_single_website fetch ext links path config d cd in
  let r := fst res in let treqs := fst (snd res) in let nreqs := snd (snd res) in
  pages_crawled r = (target_pages_crawled r + non_target_pages_crawled r)%nat /\
  (target_pages_crawled r <= length treqs <= max_target_pages config)%nat /\
  (non_target_pages_crawled r <= length nreqs <= max_additional_pages config)%nat /\
  (forall u, In u treqs -> In u (links d) /\ is_target_url path config u = true) /\
  (forall u, In u nreqs -> In u (links d) /\ is_target_url path config u = false) /\
  found_in treqs nreqs (company_number_match r) /\ found_in treqs nreqs (vat_number_match r).
Proof.
  intros fetch ext links path config d cd. cbv zeta. unfold crawl_single_website.
  destruct (links d) as [|l ls] eqn:Hl.
  { cbn. repeat split; try lia; try (intros u []); intro H; discriminate H. }
  cbv zeta; cbn [fst snd].
  unfold categorize_pages; cbn [fst snd].
  set (tp := filter (is_target_url path config) (l :: ls)).
  set (ntp := filter (fun u => negb (is_target_url path config u)) (l :: ls)).
  assert (Htp : forall u, In u tp -> In u (l :: ls) /\ is_target_url path config u = true)
    by (intros u Hu; apply filter_In in Hu; exact Hu).
  assert (Hntp : forall u, In u ntp -> In u (l :: ls) /\ is_target_url path config u = false)
    by (intros u Hu; apply filter_In in Hu as [H1 H2]; split; [exact H1|];
        apply negb_true_iff, H2).
  clearbody tp ntp.
  (* phase 1 *)
  assert (P1 : exists treqs tcr cm1 vm1,
      match phase1 fetch ext config tp cd with Some p => ph_requests p | None => [] end = treqs /\
      match phase1 fetch ext config tp cd with Some p => ph_crawled p | None => 0%nat end = tcr /\
      match phase1 fetch ext config tp cd with
      | Some p => keep_if_found (ph_company p) (new_match "company_number")
      | None => new_match "company_number" end = cm1 /\
      match phase1 fetch ext config tp cd with
      | Some p => keep_if_found (ph_vat p) (new_match "vat_number")
      | None => new_match "vat_number" end = vm1 /\
      incl treqs tp /\ (tcr <= length treqs <= max_target_pages config)%nat /\
      prov TARGET treqs cm1 /\ prov TARGET treqs vm1).
  { unfold phase1. destruct tp as [|t ts].
    - do 4 eexists. repeat split; try reflexivity; try (simpl; lia).
      all: first [intros x [] | apply prov_new].
    - destruct (phase_facts fetch ext (t :: ts) TARGET cd (max_target_pages config))
        as (Hi & Hl1 & Hc & Hp1 & Hp2).
      do 4 eexists. repeat split; try reflexivity; try lia; try assumption;
        unfold keep_if_found.
      + destruct (found _); [assumption|apply prov_new].
      + destruct (found _); [assumption|apply prov_new]. }
  destruct P1 as (treqs & tcr & cm1 & vm1 & E1 & E2 & E3 & E4 & Hi1 & Hb1 & Hc1 & Hv1).
  rewrite E1, E2, E3, E4.
  destruct (enter_phase2 cm1 vm1 ntp).
  - destruct (phase_facts fetch ext ntp NON_TARGET cd (max_additional_pages config))
      as (Hi & Hl2 & Hc & Hp1 & Hp2).
    set (p2 := crawl_pages_phase fetch ext ntp NON_TARGET cd (max_additional_pages config)) in *.
    cbn [pages_crawled target_pages_crawled non_target_pages_crawled
         company_number_match vat_number_match].
    repeat split; try lia;
      try (match goal with H : In ?u treqs |- _ =>
             first [exact (proj1 (Htp u (Hi1 u H))) | exact (proj2 (Htp u (Hi1 u H)))] end);
      try (match goal with H : In ?u (ph_requests p2) |- _ =>
             first [exact (proj1 (Hntp u (Hi u H))) | exact (proj2 (Hntp u (Hi u H)))] end).
    + destruct (found (ph_company p2) && negb (found cm1)); intro Hf.
      * destruct (Hp1 Hf) as [u [A [B C]]]. exists u. auto.
      * destruct (Hc1 Hf) as [u [A [B C]]]. exists u. auto.
    + destruct (found (ph_vat p2) && negb (found vm1)); intro Hf.
      * destruct (Hp2 Hf) as [u [A [B C]]]. exists u. auto.
      * destruct (Hv1 Hf) as [u [A [B C]]]. exists u. auto.
  - cbn [pages_crawled target_pages_crawled non_target_pages_crawled length
         company_number_match vat_number_match].
    repeat split; try (simpl; lia);
      try (match goal with H : In ?u treqs |- _ =>
             first [exact (proj1 (Htp u (Hi1 u H))) | exact (proj2 (Htp u (Hi1 u H)))] end);
      try (match goal with H : In _ [] |- _ => destruct H end).
    + intro Hf. destruct (Hc1 Hf) as [u [A [B C]]]. exists u. auto.
    + intro Hf. destruct (Hv1 Hf) as [u [A [B C]]]. exists u. auto.
Qed.

Lemma sorted_adjacent : forall (R : WebsiteScoreV3 -> WebsiteScoreV3 -> Prop) l,
  Sorted R l -> forall i a b, nth_error l i = Some a -> nth_error l (S i) = Some b -> R a b.
Proof.
  intros R l H. induction H as [|x l Hs IH Hhd]; intros i a b Ha Hb; [destruct i; discriminate|].
  destruct i as [|i].
  - cbn in Ha, Hb. injection Ha as <-. destruct l as [|y l]; [discriminate|].
    cbn in Hb. injection Hb as <-. inversion Hhd; assumption.
  - cbn in Ha, Hb. eapply IH; eassumption.
Qed.

Lemma ranked_before_score : forall a b, ranked_before a b -> total_score b <= total_score a.
Proof.
  intros a b H. unfold ranked_before, key_lt in H.
  apply orb_false_iff in H as [H _]. apply negb_false_iff, Qle_bool_iff in H. exact H.
Qed.

Lemma score_invariant_precision : forall r, CrawlerFacts.score_invariant r ->
  0 <= precision_score r <= 100 /\ (precision_score r == 100 <-> CrawlerFacts.perfect r).
Proof.
  intros r (_ & H0 & H2 & Hp). unfold precision_score, max_possible_score.
  destruct (Qlt_le_dec 0 2) as [_|C]; [|exfalso; lra].
  assert (E : total_score r / 2 * 100 == total_score r * 50)
    by (unfold Qdiv; rewrite <- Qmult_assoc; apply Qmult_comp; reflexivity).
  rewrite E. split; [split; lra|]. rewrite <- Hp. split; intro; lra.
Qed.


(** The ranking of [crawl_and_rank_websites] is descending in
    [(total_score, pages_crawled)]: no result ranks strictly below the one
    that follows it, so total scores never increase along the list. *)
Theorem crawl_and_rank_sorted :
  forall fetch ext links path config timed_out domains cd skip,
  let res := crawl_and_rank_websites fetch ext links path config timed_out domains cd skip in
  Sorted ranked_before res /\
  (forall i a b, nth_error res i = Some a -> nth_error res (S i) = Some b ->
                 total_score b <= total_score a).
Proof.
  intros. subst res.
  assert (S : Sorted ranked_before
                (crawl_and_rank_websites fetch ext links path config timed_out domains cd skip)).
  { rewrite rank_results. destruct domains; [constructor|].
    destruct (truthy (company_number cd)), (truthy (vat_number cd));
      solve [constructor | apply sort_desc_sorted]. }
  split; [exact S|].
  intros i a b Ha Hb. apply ranked_before_score. eapply sorted_adjacent; eassumption.
Qed.

(** [crawl_and_rank_websites_v3] returns every domain not in
    [skip_domains] exactly as often as it occurs in [domains] (in ranked
    order) when the company data has a non-empty company number or VAT
    number, and nothing otherwise. *)
Theorem crawl_and_rank_v3_domains :
  forall fetch ext links path config timed_out domains cd skip,
  Permutation (crawl_and_rank_websites_v3 fetch ext links path config timed_out domains cd skip)
    (match truthy (company_number cd), truthy (vat_number cd) with
     | None, None => []
     | _, _ => filter (fun d => negb (existsb (String.eqb d) skip)) domains
     end).
Proof.
  intros. unfold crawl_and_rank_websites_v3.
  destruct domains as [|d0 ds].
  { destruct (truthy (company_number cd)), (truthy (vat_number cd)); reflexivity. }
  rewrite rank_results.
  destruct (truthy (company_number cd)), (truthy (vat_number cd)); try reflexivity;
  (rewrite (Permutation_map domain (sort_desc_perm _)), map_map;
   erewrite map_ext; [apply Permutation_refl', map_id|];
   intro d; destruct (timed_out d); [reflexivity|apply crawl_single_website_domain]).
Qed.

(** [_crawl_single_website] counts its pages consistently:
    [pages_crawled] is the sum of the TARGET and NON_TARGET counts; phase 1
    requests at most [max_target_pages] pages, phase 2 at most
    [max_additional_pages], and each count is at most the number of pages
    its phase requested. *)
Theorem crawl_single_website_page_budget : forall fetch ext links path config d cd,
  let res := crawl_single_website fetch ext links path config d cd in
  let r := fst res in
  pages_crawled r = (target_pages_crawled r + non_target_pages_crawled r)%nat /\
  (target_pages_crawled r <= length (fst (snd res)) <= max_target_pages config)%nat /\
  (non_target_pages_crawled r <= length (snd (snd res)) <= max_additional_pages config)%nat.
Proof.
  intros. destruct (crawl_single_website_facts fetch ext links path config d cd)
    as (H1 & H2 & H3 & _). auto.
Qed.

(** The pages [_crawl_single_website] requests are links of the homepage:
    phase 1 only those [_categorize_pages] puts in TARGET, phase 2 only the
    others; a reported match carries the URL of a page requested in the
    phase matching its page type. *)
Theorem crawl_single_website_match_pages : forall fetch ext links path config d cd,
  let res := crawl_single_website fetch ext links path config d cd in
  (forall u, In u (fst (snd res)) -> In u (links d) /\ is_target_url path config u = true) /\
  (forall u, In u (snd (snd res)) -> In u (links d) /\ is_target_url path config u = false) /\
  found_in (fst (snd res)) (snd (snd res)) (company_number_match (fst res)) /\
  found_in (fst (snd res)) (snd (snd res)) (vat_number_match (fst res)).
Proof.
  intros. destruct (crawl_single_website_facts fetch ext links path config d cd)
    as (_ & _ & _ & H4 & H5 & H6 & H7). auto.
Qed.

(** [_check_exact_matches] ignores case and whitespace in the page text:
    lower- or upper-casing the text, or inserting whitespace anywhere,
    gives the same two verdicts. *)
Theorem check_exact_matches_ignores_case_and_space : forall t a w b cd,
  UrlParse.forall_chars PyStr.is_space w = true ->
  check_exact_matches (PyStr.lower t) cd = check_exact_matches t cd /\
  check_exact_matches (PyStr.upper t) cd = check_exact_matches t cd /\
  check_exact_matches (a ++ w ++ b)%string cd = check_exact_matches (a ++ b)%string cd.
Proof.
  intros t a w b cd Hw. unfold check_exact_matches.
  rewrite (normalize_text_squash (PyStr.lower t)), (normalize_text_squash (PyStr.upper t)),
    (normalize_text_squash t), (normalize_text_squash (a ++ w ++ b)),
    (normalize_text_squash (a ++ b)).
  rewrite StrFacts2.squash_lower, StrFacts2.squash_upper, !StrFacts2.squash_app,
    (StrFacts2.squash_spaces w Hw).
  repeat split.
Qed.

Lemma check_exact_matches_ignores_case_and_space_witness :
  UrlParse.forall_chars PyStr.is_space " " = true /\
  check_exact_matches ("Company No 0123" ++ " " ++ "4567")%string
    (mkCompany (Some "01234567"%string) None) =
  check_exact_matches ("Company No 0123" ++ "4567")%string
    (mkCompany (Some "01234567"%string) None).
Proof.
  assert (H : UrlParse.forall_chars PyStr.is_space " " = true) by reflexivity.
  split; [exact H|].
  exact (proj2 (proj2 (check_exact_matches_ignores_case_and_space "" "Company No 0123" " " "4567"
          (mkCompany (Some "01234567"%string) None) H))).
Defined.

(** [precision_score] of a crawl result lies in [0, 100] and is 100
    exactly when both identifiers were found on TARGET pages. *)
Theorem precision_score_range :
  forall fetch ext links path config timed_out domains cd skip d,
  let r := fst (crawl_single_website fetch ext links path config d cd) in
  (0 <= precision_score r <= 100 /\ (precision_score r == 100 <-> CrawlerFacts.perfect r)) /\
  Forall (fun r => 0 <= precision_score r <= 100 /\
                   (precision_score r == 100 <-> CrawlerFacts.perfect r))
    (crawl_and_rank_websites fetch ext links path config timed_out domains cd skip).
Proof.
  intros. split.
  - apply score_invariant_precision, CrawlerFacts.crawl_single_website_invariant.
  - apply Forall_forall. intros x Hx.
    apply rank_from in Hx as [d' [->| ->]]; apply score_invariant_precision;
      [apply CrawlerFacts.error_result_invariant|apply CrawlerFacts.crawl_single_website_invariant].
Qed.


Lemma collect_links_from : forall urljoin ip6 hp bd hrefs acc out,
  collect_links urljoin ip6 hp bd hrefs acc = Some out ->
  forall u, In u out -> In u acc \/
    exists parsed, UrlParse.urlparse ip6 u = Some parsed /\
      PyReplace.replace (PyStr.lower (UrlParse.netloc parsed)) "www." "" = bd.
Proof.
  intros urljoin ip6 hp bd hrefs.
  induction hrefs as [|h hs IH]; intros acc out H u Hu; cbn [collect_links] in H.
  - injection H as <-. left. exact Hu.
  - destruct (String.eqb h ""); [eapply IH; eassumption|].
    destruct (UrlParse.urlparse ip6 (urljoin hp h)) as [parsed|] eqn:Ep; [|discriminate].
    destruct (IH _ _ H u Hu) as [Hin|Hex]; [|right; exact Hex].
    destruct (String.eqb_spec (PyReplace.replace (PyStr.lower (UrlParse.netloc parsed)) "www." "") bd)
      as [Eq|_]; [|left; exact Hin].
    apply in_app_or in Hin as [Hin|[<-|[]]]; [left; exact Hin|].
    right. exists parsed. split; assumption.
Qed.

(** [_extract_all_links] returns each link once; each is the homepage it
    fetched or a URL whose netloc, lower-cased and without any "www.",
    is the lower-cased domain. *)
Theorem extract_all_links_same_domain : forall fetch anchors urljoin ip6 d links,
  extract_all_links fetch anchors urljoin ip6 d = Some links ->
  NoDup links /\
  forall u, In u links -> u = ("https://" ++ d)%string \/ u = ("http://" ++ d)%string \/
    exists parsed, UrlParse.urlparse ip6 u = Some parsed /\
      PyReplace.replace (PyStr.lower (UrlParse.netloc parsed)) "www." "" = PyStr.lower d.
Proof.
  intros fetch anchors urljoin ip6 d links H. unfold extract_all_links in H.
  cbn [try_homepages] in H.
  assert (G : forall hp, (hp = ("https://" ++ d)%string \/ hp = ("http://" ++ d)%string) ->
            forall body, option_map py_set_list
              (collect_links urljoin ip6 hp (PyStr.lower d) (anchors body) [hp]) = Some links ->
            NoDup links /\
            forall u, In u links -> u = ("https://" ++ d)%string \/ u = ("http://" ++ d)%string \/
              exists parsed, UrlParse.urlparse ip6 u = Some parsed /\
                PyReplace.replace (PyStr.lower (UrlParse.netloc parsed)) "www." "" = PyStr.lower d).
  { intros hp Hhp body Hc.
    destruct (collect_links urljoin ip6 hp (PyStr.lower d) (anchors body) [hp]) as [out|] eqn:Ec;
      [|discriminate].
    injection Hc as <-. split; [apply ListFacts.dedup_first_NoDup|].
    intros u Hu. unfold py_set_list in Hu. rewrite ListFacts.dedup_first_In in Hu.
    destruct (collect_links_from urljoin ip6 _ _ _ _ _ Ec u Hu) as [[<-|[]]|Hex].
    - destruct Hhp; auto.
    - auto. }
  destruct (fetch ("https://" ++ d)%string) as [body|].
  - eapply G; [left; reflexivity|exact H].
  - destruct (fetch ("http://" ++ d)%string) as [body|].
    + eapply G; [right; reflexivity|exact H].
    + injection H as <-. split; [constructor|intros u []].
Qed.

Lemma extract_all_links_same_domain_witness :
  let fetch := fun _ : string => Some "<a href=/about>"%string in
  let anchors := fun _ : string => ["/about"; "https://www.other.com/"]%string in
  let urljoin := fun b h : string => if PyStr.startswith h "/" then (b ++ h)%string else h in
  extract_all_links fetch anchors urljoin (fun _ => false) "a.co"
    = Some ["https://a.co"; "https://a.co/about"]%string /\
  NoDup ["https://a.co"; "https://a.co/about"]%string.
Proof.
  intros fetch anchors urljoin.
  assert (H : extract_all_links fetch anchors urljoin (fun _ => false) "a.co"
                = Some ["https://a.co"; "https://a.co/about"]%string) by (vm_compute; reflexivity).
  split; [exact H|].
  exact (proj1 (extract_all_links_same_domain fetch anchors urljoin (fun _ => false) "a.co" _ H)).
Defined.

End CrawlerMoreFacts.

(** [strip] gives the empty string exactly on all-whitespace input. *)
Module StripFacts.
Import PyStr.

Local Open Scope nat_scope.

Lemma lstrip_empty : forall s, lstrip s = EmptyString <-> UrlParse.forall_chars is_space s = true.
Proof.
  induction s as [|c s IH]; simpl; [tauto|].
  destruct (is_space c); simpl; [exact IH|split; discriminate].
Qed.

Lemma lstrip_all_spaces : forall s, UrlParse.forall_chars is_space (lstrip s) = true -> lstrip s = EmptyString.
Proof.
  induction s as [|c s IH]; simpl; [reflexivity|].
  destruct (is_space c) eqn:E; [exact IH|].
  simpl. rewrite E. discriminate.
Qed.

Lemma all_spaces_rev : forall s acc,
  UrlParse.forall_chars is_space (rev_str s acc) = UrlParse.forall_chars is_space s && UrlParse.forall_chars is_space acc.
Proof.
  induction s as [|c s IH]; intros acc; simpl; [reflexivity|].
  rewrite IH. simpl. destruct (is_space c), (UrlParse.forall_chars is_space s), (UrlParse.forall_chars is_space acc); reflexivity.
Qed.

Lemma rev_str_length : forall s acc,
  String.length (rev_str s acc) = String.length s + String.length acc.
Proof.
  induction s as [|c s IH]; intros acc; simpl; [reflexivity|].
  rewrite IH. simpl. lia.
Qed.

Lemma rev_str_empty : forall s, rev_str s EmptyString = EmptyString -> s = EmptyString.
Proof.
  intros s H. apply (f_equal String.length) in H. rewrite rev_str_length in H.
  destruct s; [reflexivity|simpl in H; lia].
Qed.

Lemma strip_empty : forall s, strip s = EmptyString <-> UrlParse.forall_chars is_space s = true.
Proof.
  intro s. unfold strip, rstrip. split.
  - intro H. apply rev_str_empty, lstrip_empty in H.
    rewrite all_spaces_rev, andb_true_r in H.
    apply lstrip_all_spaces in H. apply lstrip_empty, H.
  - intro H. apply lstrip_empty in H. rewrite H. reflexivity.
Qed.

Lemma strip_strip_empty : forall s, strip (strip s) = EmptyString -> strip s = EmptyString.
Proof.
  intros s H. apply strip_empty in H. unfold strip, rstrip in *.
  rewrite all_spaces_rev, andb_true_r in H.
  apply lstrip_all_spaces in H. rewrite H. reflexivity.
Qed.

Lemma lstrip_idem : forall s, lstrip (lstrip s) = lstrip s.
Proof.
  induction s as [|c s IH]; simpl; [reflexivity|].
  destruct (is_space c) eqn:E; [exact IH|]. simpl. rewrite E. reflexivity.
Qed.

Lemma lstrip_shape : forall s,
  lstrip s = EmptyString \/ exists c t, lstrip s = String c t /\ is_space c = false.
Proof.
  induction s as [|c s IH]; simpl; [left; reflexivity|].
  destruct (is_space c) eqn:E; [exact IH|]. right. exists c, s. auto.
Qed.

Lemma str_app_assoc : forall a b c, ((a ++ b) ++ c)%string = (a ++ (b ++ c))%string.
Proof. induction a as [|x a IH]; intros b c; simpl; [reflexivity|]. rewrite IH. reflexivity. Qed.

Lemma rev_str_acc : forall s acc, rev_str s acc = (rev_str s EmptyString ++ acc)%string.
Proof.
  induction s as [|c s IH]; intros acc; simpl; [reflexivity|].
  rewrite IH, (IH (String c EmptyString)), str_app_assoc. reflexivity.
Qed.

Lemma rev_str_snoc : forall w c acc,
  rev_str (w ++ String c EmptyString)%string acc = String c (rev_str w acc).
Proof.
  induction w as [|d w IH]; intros c acc; simpl; [reflexivity|]. apply IH.
Qed.

Lemma rev_str_involutive : forall s, rev_str (rev_str s EmptyString) EmptyString = s.
Proof. intro s. rewrite StrFacts2.rev_str_rev_str. apply StrFacts2.append_empty. Qed.

Lemma lstrip_snoc : forall u c, is_space c = false ->
  exists w, lstrip (u ++ String c EmptyString)%string = (w ++ String c EmptyString)%string.
Proof.
  induction u as [|d u IH]; intros c Hc; simpl.
  - rewrite Hc. exists EmptyString. reflexivity.
  - destruct (is_space d); [apply IH, Hc|]. exists (String d u). reflexivity.
Qed.

Lemma rstrip_idem : forall s, rstrip (rstrip s) = rstrip s.
Proof.
  intro s. unfold rstrip. rewrite rev_str_involutive, lstrip_idem. reflexivity.
Qed.

(** [s.strip()] is idempotent. *)
Lemma strip_idem : forall s, strip (strip s) = strip s.
Proof.
  intro s. unfold strip at 2 3.
  destruct (lstrip_shape s) as [E|(c & t & E & Hc)].
  - rewrite E. reflexivity.
  - rewrite E.
    destruct (lstrip_snoc (rev_str t EmptyString) c Hc) as [w Hw].
    assert (HY : rstrip (String c t) = String c (rev_str w EmptyString)).
    { unfold rstrip. cbn [rev_str]. rewrite (rev_str_acc t), Hw, rev_str_snoc. reflexivity. }
    unfold strip at 1. rewrite HY. cbn [lstrip]. rewrite Hc. rewrite <- HY. apply rstrip_idem.
Qed.

End StripFacts.

Module VatMoreFacts.
Import Vat VatMore.
Local Open Scope nat_scope.
Local Open Scope string_scope.

Lemma fold_grow : forall {A} (f : list string * string -> A -> list string * string),
  (forall acc x, exists t, fst (f acc x) = (fst acc ++ t)%list /\ length t <= 1) ->
  forall l acc, exists t, fst (fold_left f l acc) = (fst acc ++ t)%list /\ length t <= length l.
Proof.
  intros A f Hf l. induction l as [|x l IH]; intros acc; simpl.
  - exists []. rewrite app_nil_r. split; [reflexivity|simpl; lia].
  - destruct (Hf acc x) as [t1 [E1 L1]]. destruct (IH (f acc x)) as [t2 [E2 L2]].
    exists (t1 ++ t2)%list. rewrite E2, E1, app_assoc. split; [reflexivity|rewrite length_app; lia].
Qed.

Lemma sanitize_shape : forall name, PyStr.strip name <> "" ->
  exists rest, sanitize_company_name name = PyStr.strip name :: rest /\
    NoDup (sanitize_company_name name) /\ length (sanitize_company_name name) <= 21.
Proof.
  intros name H. unfold sanitize_company_name.
  destruct (String.eqb_spec (PyStr.strip name) "") as [E|_]; [contradiction|].
  match goal with |- context [fold_left ?f transformations ?a] =>
    assert (Hf : forall acc x, exists t, fst (f acc x) = (fst acc ++ t)%list /\ length t <= 1);
    [|destruct (fold_grow f Hf transformations a) as [t [Et Lt]];
      destruct (fold_left f transformations a) as [vars cur]] end.
  { intros [vars cur] [pat repl]. cbv beta iota zeta.
    destruct (Re.search cur pat); [|exists []; rewrite app_nil_r; split; [reflexivity|simpl; lia]].
    match goal with |- context [if negb ?a && negb ?b then _ else _] => destruct (negb a && negb b) end;
      cbn [fst]; [eexists; split; [reflexivity|simpl; lia]|].
    exists []. rewrite app_nil_r. split; [reflexivity|simpl; lia]. }
  cbn [fst] in Et. subst vars. cbv iota.
  change (length transformations) with 20 in Lt.
  exists (dedup_first_aux [PyStr.strip name] t). split; [reflexivity|]. split.
  - apply ListFacts.dedup_first_NoDup.
  - eapply Nat.le_trans; [apply ListFacts.dedup_first_length|]. simpl. lia.
Qed.

Lemma lookup_cases : forall responses parse_table name,
  PyStr.strip name <> "" ->
  let v := lookup_vat_by_company_name responses parse_table name in
  let vars := sanitize_company_name (PyStr.strip name) in
  (exists idx r, try_variations responses parse_table vars 0 0 = Some (idx, r) /\
     v = mkVATData (PyStr.strip name) (firstn (S idx) vars) (row_vat_number r) SUCCESS) \/
  (try_variations responses parse_table vars 0 0 = None /\
     v = mkVATData (PyStr.strip name) vars "NOT_FOUND" VAT_NOT_FOUND).
Proof.
  intros responses parse_table name H. cbv zeta. unfold lookup_vat_by_company_name.
  destruct (String.eqb_spec (PyStr.strip name) "") as [E|_]; [contradiction|].
  destruct (sanitize_shape (PyStr.strip name)) as [rest [Es _]];
    [rewrite StripFacts.strip_idem; exact H|].
  rewrite Es.
  destruct (try_variations responses parse_table _ 0 0) as [[idx r]|]; [left|right]; eauto.
Qed.

(** [lookup_vat_by_company_name] reports INVALID_COMPANY_NAME exactly for
    a blank name; otherwise it reports SUCCESS or VAT_NOT_FOUND under the
    stripped name (the other statuses of [VATSearchStatus] are never
    returned). *)
Theorem lookup_status_cases : forall responses parse_table name,
  let v := lookup_vat_by_company_name responses parse_table name in
  (search_status v = INVALID_COMPANY_NAME <-> PyStr.strip name = "") /\
  (search_status v = INVALID_COMPANY_NAME \/ search_status v = SUCCESS \/
   search_status v = VAT_NOT_FOUND) /\
  company_name v = PyStr.strip name.
Proof.
  intros responses parse_table name. cbv zeta.
  destruct (String.eqb_spec (PyStr.strip name) "") as [E|Hne].
  - unfold lookup_vat_by_company_name. rewrite E. simpl. split; [tauto|auto].
  - destruct (lookup_cases responses parse_table name Hne)
      as [(idx & r & _ & ->)|(_ & ->)]; simpl;
      (split; [split; [discriminate|intro; contradiction]|auto]).
Qed.

(** For a non-blank name, the search terms recorded by the lookup are the
    first variants of [_sanitize_company_name] of the stripped name, the
    stripped name first and none twice; after VAT_NOT_FOUND they are all
    the variants. *)
Theorem lookup_search_terms : forall responses parse_table name,
  PyStr.strip name <> "" ->
  let v := lookup_vat_by_company_name responses parse_table name in
  let vars := sanitize_company_name (PyStr.strip name) in
  (exists k, search_terms v = firstn (S k) vars) /\
  hd_error (search_terms v) = Some (PyStr.strip name) /\
  NoDup (search_terms v) /\
  (search_status v = VAT_NOT_FOUND -> search_terms v = vars).
Proof.
  intros responses parse_table name H. cbv zeta.
  destruct (sanitize_shape (PyStr.strip name)) as [rest [Es [Hnd _]]];
    [rewrite StripFacts.strip_idem; exact H|].
  rewrite StripFacts.strip_idem in Es.
  assert (Hfirst : forall k, NoDup (firstn k (sanitize_company_name (PyStr.strip name)))).
  { intro k. rewrite <- (firstn_skipn k (sanitize_company_name (PyStr.strip name))) in Hnd.
    apply NoDup_app_remove_r in Hnd. exact Hnd. }
  destruct (lookup_cases responses parse_table name H)
    as [(idx & r & _ & ->)|(_ & ->)]; cbn [search_terms search_status].
  - split; [exists idx; reflexivity|]. split; [rewrite Es; reflexivity|].
    split; [apply Hfirst|discriminate].
  - split; [exists (length rest); rewrite Es; simpl; rewrite firstn_all; reflexivity|].
    split; [rewrite Es; reflexivity|]. split; [exact Hnd|auto].
Qed.

Lemma lookup_search_terms_witness :
  PyStr.strip "  Acme Ltd " <> "" /\
  search_terms (lookup_vat_by_company_name VatScenario.always_results
                  VatScenario.two_rows_table "  Acme Ltd ") =
  sanitize_company_name "Acme Ltd".
Proof.
  assert (H : PyStr.strip "  Acme Ltd " <> "") by (vm_compute; discriminate).
  split; [exact H|].
  assert (S : search_status (lookup_vat_by_company_name VatScenario.always_results
                  VatScenario.two_rows_table "  Acme Ltd ") = VAT_NOT_FOUND)
    by (vm_compute; reflexivity).
  exact (proj2 (proj2 (proj2 (lookup_search_terms VatScenario.always_results
           VatScenario.two_rows_table "  Acme Ltd " H))) S).
Defined.

(** The [VATData] properties agree on every lookup result: [vat_found]
    is [is_success] (a successful lookup never carries "NOT_FOUND") and
    [has_error] is its negation. *)
Theorem lookup_vat_found_iff_success : forall responses parse_table name,
  let v := lookup_vat_by_company_name responses parse_table name in
  vat_found v = is_success v /\ has_error v = negb (vat_found v).
Proof.
  intros responses parse_table name. cbv zeta.
  assert (E : vat_found (lookup_vat_by_company_name responses parse_table name) =
              is_success (lookup_vat_by_company_name responses parse_table name)).
  { destruct (String.eqb_spec (PyStr.strip name) "") as [E|Hne].
    - unfold lookup_vat_by_company_name. rewrite E. reflexivity.
    - destruct (lookup_cases responses parse_table name Hne)
        as [(idx & r & Ht & ->)|(_ & ->)]; [|reflexivity].
      unfold vat_found, is_success. cbn [search_status vat_number].
      apply VatFacts.try_variations_validated in Ht.
      destruct (String.eqb_spec (row_vat_number r) "NOT_FOUND") as [Eq|_]; [|reflexivity].
      rewrite Eq in Ht. vm_compute in Ht. discriminate Ht. }
  split; [exact E|]. unfold has_error. rewrite E. reflexivity.
Qed.

(** [_sanitize_company_name] gives no variant for a blank name; otherwise
    its first variant is the stripped name, no variant repeats, and there
    are at most 21 (the name and one per transformation). *)
Theorem sanitize_company_name_shape : forall name,
  (PyStr.strip name = "" -> sanitize_company_name name = []) /\
  (PyStr.strip name <> "" ->
     hd_error (sanitize_company_name name) = Some (PyStr.strip name) /\
     NoDup (sanitize_company_name name) /\
     1 <= length (sanitize_company_name name) <= 21).
Proof.
  intro name. split.
  - intro E. unfold sanitize_company_name. rewrite E. reflexivity.
  - intro H. destruct (sanitize_shape name H) as [rest [Es [Hnd Hl]]].
    rewrite Es in *. simpl in *. repeat split; auto; lia.
Qed.

Lemma sanitize_company_name_shape_witness :
  PyStr.strip "Acme Tech Ltd" <> "" /\
  hd_error (sanitize_company_name "Acme Tech Ltd") = Some "Acme Tech Ltd".
Proof.
  assert (H : PyStr.strip "Acme Tech Ltd" <> "") by (vm_compute; discriminate).
  split; [exact H|].
  exact (proj1 (proj2 (sanitize_company_name_shape "Acme Tech Ltd") H)).
Defined.

Lemma try_attempts_requests : forall responses parse_table term atts n,
  atts <> [] ->
  S n <= snd (try_attempts responses parse_table term atts n) <= n + length atts.
Proof.
  intros responses parse_table term atts. induction atts as [|a atts IH]; intros n Hne;
    [contradiction|].
  cbn [try_attempts length].
  assert (Hrec : Nat.ltb a (max_retries - 1) = true ->
                 S n <= snd (try_attempts responses parse_table term atts (S n)) <= n + S (length atts)).
  { intro. destruct atts as [|b atts]; [simpl; lia|].
    specialize (IH (S n) ltac:(discriminate)). lia. }
  destruct (responses n) as [[|c h]|].
  - destruct (Nat.ltb a (max_retries - 1)) eqn:R; [apply Hrec; reflexivity|simpl; lia].
  - destruct (detect_response_type (String c h)); try (simpl; lia).
    destruct (Nat.ltb a (max_retries - 1)) eqn:R; [apply Hrec; reflexivity|simpl; lia].
  - destruct (Nat.ltb a (max_retries - 1)) eqn:R; [apply Hrec; reflexivity|simpl; lia].
Qed.

(** The retry loop for one search variant makes at least one and at most
    [max_retries] (3) requests. *)
Theorem try_attempts_request_count : forall responses parse_table term n,
  S n <= snd (try_attempts responses parse_table term (seq 0 max_retries) n) <= n + max_retries.
Proof.
  intros. exact (try_attempts_requests responses parse_table term (seq 0 max_retries) n
                   ltac:(discriminate)).
Qed.

End VatMoreFacts.

Module ContactMoreFacts.
Import Contact ContactMore.
Local Open Scope nat_scope.
Local Open Scope string_scope.

Lemma lower_lstrip : forall s, PyStr.lower (PyStr.lstrip s) = PyStr.lstrip (PyStr.lower s).
Proof.
  induction s as [|c s IH]; [reflexivity|].
  change (PyStr.lower (String c s)) with (String (PyStr.char_lower c) (PyStr.lower s)).
  cbn [PyStr.lstrip]. rewrite StrFacts2.is_space_lower.
  destruct (PyStr.is_space c); [exact IH|reflexivity].
Qed.

Lemma lower_rev_str : forall s acc,
  PyStr.lower (PyStr.rev_str s acc) = PyStr.rev_str (PyStr.lower s) (PyStr.lower acc).
Proof. induction s as [|c s IH]; intros acc; [reflexivity|]. cbn [PyStr.rev_str]. apply IH. Qed.

Lemma lower_strip : forall s, PyStr.lower (PyStr.strip s) = PyStr.strip (PyStr.lower s).
Proof.
  intro s. unfold PyStr.strip, PyStr.rstrip.
  rewrite lower_rev_str, lower_lstrip, lower_rev_str, lower_lstrip. reflexivity.
Qed.

Lemma forall_chars_filter : forall p s, UrlParse.forall_chars p (PyStr.filter_chars p s) = true.
Proof.
  induction s as [|c s IH]; simpl; [reflexivity|].
  destruct (p c) eqn:E; simpl; [rewrite E, IH; reflexivity|exact IH].
Qed.

Lemma extract_phone_numbers_from : forall cfg t h p,
  In p (extract_phone_numbers cfg t h) -> exists m, accept_phone m = Some p.
Proof.
  intros cfg t h p H. unfold extract_phone_numbers, py_set_list in H.
  apply ListFacts.firstn_In in H. rewrite ListFacts.dedup_first_In in H.
  apply in_flat_map in H as [c [_ H]]. apply in_flat_map in H as [pat [_ H]].
  apply in_flat_map in H as [mt [_ H]].
  destruct (accept_phone mt) eqn:E; [|contradiction].
  destruct H as [<-|[]]. exists mt. exact E.
Qed.

Lemma extract_email_addresses_from : forall cfg t h e,
  In e (extract_email_addresses cfg t h) ->
  (exists mt, e = PyStr.strip (PyStr.lower mt)) /\ existsb (PyStr.contains e) email_excludes = false.
Proof.
  intros cfg t h e H. unfold extract_email_addresses, py_set_list in H.
  apply ListFacts.firstn_In in H. rewrite ListFacts.dedup_first_In in H.
  apply in_flat_map in H as [c [_ H]]. apply in_flat_map in H as [mt [_ H]].
  destruct (existsb _ email_excludes) eqn:E; [contradiction|].
  destruct H as [<-|[]]. split; [exists mt; reflexivity|exact E].
Qed.

Lemma extract_social_from : forall cfg pat t h l,
  In l (extract_social cfg pat t h) ->
  PyStr.startswith l "http" = true /\
  existsb (PyStr.contains (PyStr.lower l)) social_excludes = false.
Proof.
  intros cfg pat t h l H. unfold extract_social, py_set_list in H.
  apply ListFacts.firstn_In in H. rewrite ListFacts.dedup_first_In in H.
  apply in_flat_map in H as [c [_ H]]. apply in_flat_map in H as [mt [_ H]].
  cbv zeta in H.
  destruct (PyStr.startswith (PyStr.strip mt) "http") eqn:S;
  (destruct (existsb _ social_excludes) eqn:E; [contradiction|]);
  destruct H as [<-|[]]; split; solve [exact S | exact E | reflexivity].
Qed.

Section Loop.
Variable fetch : string -> option string.
Variable ext : string -> string.
Variable cfg : ContactCrawlConfig.

(** Where the crawl loop's lists come from: the lists it started with, or
    the extraction of a fetched page. *)
Lemma crawl_loop_origin : forall urls acc x,
  let res := crawl_loop fetch ext cfg urls acc in
  (In x (a_phones res) -> In x (a_phones acc) \/
     exists h, In x (extract_phone_numbers cfg (ext h) h)) /\
  (In x (a_emails res) -> In x (a_emails acc) \/
     exists h, In x (extract_email_addresses cfg (ext h) h)) /\
  (In x (a_facebook res) -> In x (a_facebook acc) \/
     exists h, In x (extract_social cfg facebook_pattern (ext h) h)) /\
  (In x (a_instagram res) -> In x (a_instagram acc) \/
     exists h, In x (extract_social cfg instagram_pattern (ext h) h)) /\
  (In x (a_linkedin res) -> In x (a_linkedin acc) \/
     exists h, In x (extract_social cfg linkedin_pattern (ext h) h)).
Proof.
  induction urls as [|u urls IH]; intros acc x; cbv zeta; cbn [crawl_loop]; [tauto|].
  destruct (Nat.leb (max_pages_per_site cfg) (a_crawled acc)); [tauto|].
  destruct (fetch u) as [html|]; [|apply IH].
  match goal with |- context [crawl_loop _ _ _ urls ?acc'] =>
    destruct (IH acc' x) as (H1 & H2 & H3 & H4 & H5) end.
  cbn [a_phones a_emails a_facebook a_instagram a_linkedin] in *.
  repeat split; intro H;
  [destruct (H1 H) as [Hx|Hx] | destruct (H2 H) as [Hx|Hx] | destruct (H3 H) as [Hx|Hx]
  | destruct (H4 H) as [Hx|Hx] | destruct (H5 H) as [Hx|Hx]];
  try (right; exact Hx);
  (apply in_app_or in Hx as [Hx|Hx]; [left; exact Hx|right; exists html; exact Hx]).
Qed.

(** The crawl loop's page accounting. *)
Lemma crawl_loop_pages : forall urls acc,
  let res := crawl_loop fetch ext cfg urls acc in
  exists pre, a_with_info res = (a_with_info acc ++ pre)%list /\ incl pre urls /\
    (NoDup urls -> NoDup pre) /\
    a_crawled acc + length pre <= a_crawled res <= a_crawled acc + length urls.
Proof.
  induction urls as [|u urls IH]; intros acc; cbv zeta; cbn [crawl_loop].
  { exists []. rewrite app_nil_r. repeat split; simpl; try lia; [intros x []|constructor]. }
  destruct (Nat.leb (max_pages_per_site cfg) (a_crawled acc)).
  { exists []. rewrite app_nil_r. repeat split; simpl; try lia; [intros x []|constructor]. }
  destruct (fetch u) as [html|].
  - match goal with |- context [crawl_loop _ _ _ urls ?acc'] =>
      destruct (IH acc') as (pre & Hw & Hi & Hn & Hc) end.
    cbn [a_with_info a_crawled] in *.
    match type of Hw with _ = ((if ?b then _ else _) ++ _)%list => destruct b end.
    + exists (u :: pre). rewrite Hw, <- app_assoc. split; [reflexivity|]. split.
      * intros y [<-|Hy]; [left; reflexivity|right; apply Hi, Hy].
      * split; [|simpl; lia].
        intro Hnd. inversion Hnd as [|? ? Hu Hnd']. constructor; [|apply Hn, Hnd'].
        intro Hp. apply Hu, Hi, Hp.
    + exists pre. split; [exact Hw|]. split.
      * intros y Hy; right; apply Hi, Hy.
      * split; [|simpl; lia].
        intro Hnd. inversion Hnd. apply Hn. assumption.
  - destruct (IH acc) as (pre & Hw & Hi & Hn & Hc).
    exists pre. split; [exact Hw|]. split.
    + intros y Hy; right; apply Hi, Hy.
    + split; [|simpl; lia].
      intro Hnd. inversion Hnd. apply Hn. assumption.
Qed.

End Loop.

Lemma is_valid_uk_number_digits : forall d,
  is_valid_uk_number d = true ->
  10 <= String.length d <= 12 /\
  (PyStr.startswith d "0" || PyStr.startswith d "44") = true.
Proof.
  intros d H. unfold is_valid_uk_number in H.
  destruct (PyStr.startswith d "44") eqn:S.
  - destruct d as [|a [|b d']]; [discriminate|simpl in S; rewrite andb_false_r in S; discriminate|].
    assert (Ed : PyStr.drop 2 (String a (String b d')) = d').
    { unfold PyStr.drop. simpl. rewrite Nat.sub_0_r. clear.
      induction d' as [|c d' IH]; simpl; congruence. }
    rewrite Ed in H. cbv zeta in H.
    destruct (negb _) eqn:E1; [discriminate|].
    apply negb_false_iff, orb_true_iff in E1. cbn [String.length] in E1.
    rewrite !Nat.eqb_eq in E1. split; [cbn [String.length]; lia|]. apply orb_true_r.
  - cbv zeta in H.
    destruct (negb (Nat.eqb (String.length d) 10 || Nat.eqb (String.length d) 11)) eqn:E1;
      [discriminate|].
    destruct (negb (PyStr.startswith d "0")) eqn:E2; [discriminate|].
    apply negb_false_iff, orb_true_iff in E1. rewrite !Nat.eqb_eq in E1.
    apply negb_false_iff in E2. split; [lia|]. rewrite E2. reflexivity.
Qed.

(** Every phone number [extract_contact_info] returns consists of digits,
    whitespace and the characters + ( ) - only; its digits pass
    [_is_valid_uk_number], number 10 to 12 and start with 0 or 44. *)
Theorem contact_phone_shape :
  forall is_ipv6_address fetch anchors urljoin extract_text_content cfg d p,
  In p (phone_numbers (extract_contact_info is_ipv6_address fetch anchors urljoin
                         extract_text_content cfg d)) ->
  UrlParse.forall_chars (fun c => PyStr.is_digit c || PyStr.is_space c || Re.in_str "+()-" c) p
    = true /\
  is_valid_uk_number (digits_only p) = true /\
  10 <= String.length (digits_only p) <= 12 /\
  (PyStr.startswith (digits_only p) "0" || PyStr.startswith (digits_only p) "44") = true.
Proof.
  intros ip6 fetch anchors urljoin ext cfg d p H.
  unfold extract_contact_info in H. cbn [phone_numbers] in H.
  unfold py_set_list in H. rewrite ListFacts.dedup_first_In in H.
  destruct (crawl_loop_origin fetch ext cfg
              (dedup_first (find_contact_pages ip6 fetch anchors urljoin cfg d))
              (mkAcc [] [] [] [] [] 0 []) p) as (Hp & _).
  destruct (Hp H) as [[]|[h Hh]].
  apply extract_phone_numbers_from in Hh as [m Hm].
  unfold accept_phone in Hm.
  destruct (_ || _)%nat; [discriminate|].
  destruct (existsb _ uk_test_numbers); [discriminate|].
  destruct (negb (is_valid_uk_number _)) eqn:V; [discriminate|].
  destruct (_ && _)%nat; [discriminate|].
  destruct (String.eqb _ _); [discriminate|].
  injection Hm as <-. apply negb_false_iff in V.
  split; [apply forall_chars_filter|]. split; [exact V|].
  apply is_valid_uk_number_digits, V.
Qed.

Lemma contact_phone_shape_witness :
  let ci := ContactScenario.run default_config "" "Call 0121 555 1234" in
  In "0121 555 1234" (phone_numbers ci) /\
  is_valid_uk_number (digits_only "0121 555 1234") = true.
Proof.
  assert (H : In "0121 555 1234" (phone_numbers (ContactScenario.run default_config ""
                                                  "Call 0121 555 1234")))
    by (vm_compute; left; reflexivity).
  split; [exact H|].
  exact (proj1 (proj2 (contact_phone_shape _ _ _ _ _ _ _ _ H))).
Defined.

(** Every email address [extract_contact_info] returns is in lower case and
    contains none of the excluded placeholders (example.com, test.com,
    dummy.com, placeholder, yourname@, name@domain, @example, noreply@). *)
Theorem contact_email_shape :
  forall is_ipv6_address fetch anchors urljoin extract_text_content cfg d e,
  In e (email_addresses (extract_contact_info is_ipv6_address fetch anchors urljoin
                           extract_text_content cfg d)) ->
  PyStr.lower e = e /\ existsb (PyStr.contains e) email_excludes = false.
Proof.
  intros ip6 fetch anchors urljoin ext cfg d e H.
  unfold extract_contact_info in H. cbn [email_addresses] in H.
  unfold py_set_list in H. rewrite ListFacts.dedup_first_In in H.
  destruct (crawl_loop_origin fetch ext cfg
              (dedup_first (find_contact_pages ip6 fetch anchors urljoin cfg d))
              (mkAcc [] [] [] [] [] 0 []) e) as (_ & He & _).
  destruct (He H) as [[]|[h Hh]].
  apply extract_email_addresses_from in Hh as [[mt ->] Hx].
  split; [|exact Hx].
  rewrite lower_strip, StrFacts.lower_idem. reflexivity.
Qed.

Lemma contact_email_shape_witness :
  let ci := ContactScenario.run default_config "" "Mail Sales@Acme.co.uk" in
  In "sales@acme.co.uk" (email_addresses ci) /\
  PyStr.lower "sales@acme.co.uk" = "sales@acme.co.uk".
Proof.
  assert (H : In "sales@acme.co.uk" (email_addresses (ContactScenario.run default_config ""
                                                       "Mail Sales@Acme.co.uk")))
    by (vm_compute; left; reflexivity).
  split; [exact H|].
  exact (proj1 (contact_email_shape _ _ _ _ _ _ _ _ H)).
Defined.

(** Every Facebook, Instagram and LinkedIn link [extract_contact_info]
    returns starts with "http", and its lower-cased form contains none of
    the excluded share, login, signup, home and pages paths. *)
Theorem contact_social_shape :
  forall is_ipv6_address fetch anchors urljoin extract_text_content cfg d l,
  let ci := extract_contact_info is_ipv6_address fetch anchors urljoin extract_text_content cfg d in
  In l (facebook_links ci ++ instagram_links ci ++ linkedin_links ci)%list ->
  PyStr.startswith l "http" = true /\
  existsb (PyStr.contains (PyStr.lower l)) social_excludes = false.
Proof.
  intros ip6 fetch anchors urljoin ext cfg d l. cbv zeta. intro H.
  unfold extract_contact_info in H. cbn [facebook_links instagram_links linkedin_links] in H.
  unfold py_set_list in H. rewrite !in_app_iff, !ListFacts.dedup_first_In in H.
  destruct (crawl_loop_origin fetch ext cfg
              (dedup_first (find_contact_pages ip6 fetch anchors urljoin cfg d))
              (mkAcc [] [] [] [] [] 0 []) l)
    as (_ & _ & Hf & Hi & Hl).
  destruct H as [H|[H|H]];
    [destruct (Hf H) as [[]|[h Hh]] | destruct (Hi H) as [[]|[h Hh]]
    | destruct (Hl H) as [[]|[h Hh]]];
    eapply extract_social_from; exact Hh.
Qed.

Lemma contact_social_shape_witness :
  let ci := ContactScenario.run default_config "" "See facebook.com/acmeltd" in
  In "https://facebook.com/acmeltd"
     (facebook_links ci ++ instagram_links ci ++ linkedin_links ci)%list /\
  PyStr.startswith "https://facebook.com/acmeltd" "http" = true.
Proof.
  assert (H : In "https://facebook.com/acmeltd"
     (facebook_links (ContactScenario.run default_config "" "See facebook.com/acmeltd") ++
      instagram_links (ContactScenario.run default_config "" "See facebook.com/acmeltd") ++
      linkedin_links (ContactScenario.run default_config "" "See facebook.com/acmeltd"))%list)
    by (vm_compute; left; reflexivity).
  split; [exact H|].
  exact (proj1 (contact_social_shape _ _ _ _ _ _ _ _ H)).
Defined.

(** [extract_contact_info] crawls at most [max_pages_per_site] pages; the
    pages it reports as having contact information are distinct, are among
    the pages [_find_contact_pages] selected, and are no more than the pages
    crawled. Its status is SUCCESS exactly when some contact list is
    non-empty, and NO_CONTACT_INFO_FOUND otherwise, so [is_success] agrees
    with [has_contact_info]. *)
Theorem contact_pages_and_status :
  forall is_ipv6_address fetch anchors urljoin extract_text_content cfg d,
  let ci := extract_contact_info is_ipv6_address fetch anchors urljoin extract_text_content cfg d in
  pages_crawled ci <= max_pages_per_site cfg /\
  length (pages_with_contact_info ci) <= pages_crawled ci /\
  NoDup (pages_with_contact_info ci) /\
  incl (pages_with_contact_info ci) (find_contact_pages is_ipv6_address fetch anchors urljoin cfg d) /\
  (extraction_status ci = SUCCESS \/ extraction_status ci = NO_CONTACT_INFO_FOUND) /\
  (extraction_status ci = SUCCESS <-> has_contact_info ci = true) /\
  is_success ci = has_contact_info ci.
Proof.
  intros ip6 fetch anchors urljoin ext cfg d. cbv zeta.
  set (pages := find_contact_pages ip6 fetch anchors urljoin cfg d).
  assert (Hlen : length (dedup_first pages) <= max_pages_per_site cfg).
  { eapply Nat.le_trans; [apply ListFacts.dedup_first_length|].
    unfold pages, find_contact_pages. rewrite length_firstn. lia. }
  destruct (crawl_loop_pages fetch ext cfg (dedup_first pages) (mkAcc [] [] [] [] [] 0 []))
    as (pre & Hw & Hi & Hn & Hc).
  cbn [a_with_info a_crawled app] in Hw, Hc.
  unfold extract_contact_info; fold pages.
  cbn [pages_crawled pages_with_contact_info extraction_status].
  unfold has_contact_info, is_success.
  cbn [phone_numbers email_addresses facebook_links instagram_links linkedin_links
       extraction_status].
  rewrite Hw. split; [lia|]. split; [lia|]. split; [apply Hn, ListFacts.dedup_first_NoDup|].
  split.
  { intros x Hx. apply ListFacts.dedup_first_In, Hi, Hx. }
  destruct (py_set_list (a_phones _)), (py_set_list (a_emails _)),
           (py_set_list (a_facebook _)), (py_set_list (a_instagram _)),
           (py_set_list (a_linkedin _));
    cbn; (split; [tauto|]); (split; [split; congruence|reflexivity]).
Qed.

(** [_find_contact_pages] returns at most [max_pages_per_site] pages; each
    is the https or http homepage of the domain, or a homepage link on the
    same domain (ignoring case and a leading www.) whose path or URL contains
    a contact keyword. *)
Theorem find_contact_pages_shape :
  forall is_ipv6_address fetch anchors urljoin cfg d u,
  let pages := find_contact_pages is_ipv6_address fetch anchors urljoin cfg d in
  length pages <= max_pages_per_site cfg /\
  (In u pages ->
   u = ("https://" ++ d)%string \/ u = ("http://" ++ d)%string \/
   exists pr, UrlParse.urlparse is_ipv6_address u = Some pr /\
     (let nl := PyStr.lower (UrlParse.netloc pr) in
      if PyStr.startswith nl "www." then PyStr.drop 4 nl else nl) = PyStr.lower d /\
     existsb (fun kw => PyStr.contains (PyStr.lower (UrlParse.path pr)) kw
                        || PyStr.contains (PyStr.lower u) kw) contact_keywords = true).
Proof.
  intros ip6 fetch anchors urljoin cfg d u. cbv zeta. unfold find_contact_pages.
  split; [rewrite length_firstn; lia|].
  intro H. apply ListFacts.firstn_In in H.
  destruct H as [<-|[<-|H]]; [left; reflexivity|right; left; reflexivity|right; right].
  destruct (extract_links_from_homepage fetch anchors urljoin d) as [|l0 ls]; [destruct H|].
  unfold filter_contact_relevant_links in H.
  apply ListFacts.dedup_first_In, filter_In in H as [_ H].
  destruct (UrlParse.urlparse ip6 u) as [pr|]; [|discriminate].
  apply andb_true_iff in H as [H1 H2]. apply String.eqb_eq in H1.
  exists pr. split; [reflexivity|]. split; assumption.
Qed.

End ContactMoreFacts.

Module HunterMoreFacts.
Import Hunter HunterMore.
Local Open Scope nat_scope.
Local Open Scope string_scope.

Definition no_space (c : ascii) : bool := negb (Ascii.eqb c " ").

Lemma forall_chars_substring : forall p s n m,
  UrlParse.forall_chars p s = true -> UrlParse.forall_chars p (substring n m s) = true.
Proof.
  induction s as [|c s IH]; intros n m H; destruct n, m; cbn in *; try reflexivity;
    try (apply andb_true_iff in H as [H1 H2]); auto.
  rewrite H1. apply IH. exact H2.
Qed.

Lemma substring_all : forall s, substring 0 (String.length s) s = s.
Proof. induction s as [|c s IH]; [reflexivity|]. cbn. rewrite IH. reflexivity. Qed.

Lemma replace_go_keeps : forall p fuel old s,
  old <> EmptyString -> UrlParse.forall_chars p s = true ->
  UrlParse.forall_chars p (PyReplace.replace_go fuel old EmptyString s) = true.
Proof.
  intros p. induction fuel as [|fuel IH]; intros old s Hold H; [exact H|].
  destruct old as [|o old']; [congruence|]. destruct s as [|c s']; [reflexivity|].
  cbn [PyReplace.replace_go].
  destruct (PyStr.startswith (String c s') (String o old')).
  - apply IH; [exact Hold|]. apply forall_chars_substring. exact H.
  - cbn [UrlParse.forall_chars] in *. apply andb_true_iff in H as [H1 H2].
    rewrite H1. apply IH; assumption.
Qed.

Lemma replace_space : forall fuel s, String.length s < fuel ->
  UrlParse.forall_chars no_space (PyReplace.replace_go fuel " " EmptyString s) = true.
Proof.
  induction fuel as [|fuel IH]; intros s Hl; [inversion Hl|].
  destruct s as [|c s']; [reflexivity|]. cbn [PyReplace.replace_go PyStr.startswith].
  replace (PyStr.startswith s' "") with true by (destruct s'; reflexivity).
  rewrite andb_true_r. destruct (Ascii.eqb " " c) eqn:E.
  - assert (Hd : PyStr.drop 1 (String c s') = s')
      by (unfold PyStr.drop; cbn; rewrite Nat.sub_0_r; apply substring_all).
    change (String.length " ") with 1. rewrite Hd.
    apply IH. cbn [String.length] in Hl. lia.
  - cbn [UrlParse.forall_chars]. unfold no_space at 1. rewrite Ascii.eqb_sym, E.
    apply IH. cbn [String.length] in Hl. lia.
Qed.

Lemma inurl_keyword_shape : forall k t,
  inurl_keyword k = Some t ->
  exists u, t = "inurl:" ++ u /\ u <> EmptyString /\ UrlParse.forall_chars no_space u = true.
Proof.
  intros k t H. unfold inurl_keyword in H. cbv zeta in H.
  repeat match type of H with
  | (if ?b then _ else _) = _ => let E := fresh "E" in destruct b eqn:E
  end;
  try discriminate H; injection H as <-;
  try (eexists; split; [reflexivity|]; split; [discriminate|reflexivity]).
  match goal with E : String.eqb ?c EmptyString = false |- _ =>
    exists c; split; [reflexivity|]; split; [apply String.eqb_neq, E|] end.
  unfold PyReplace.replace.
  apply replace_go_keeps; [discriminate|]. apply replace_go_keeps; [discriminate|].
  apply replace_space. lia.
Qed.

(** Every [inurl:] term of the query [_build_search_query_v2] builds is
    [inurl:] followed by a non-empty word without spaces, comes from one
    of the search keywords, and appears once; a keyword whose cleaned form
    is empty contributes no term. *)
Theorem v2_inurl_terms : forall keywords,
  NoDup (unique_inurl_keywords keywords) /\
  forall t, In t (unique_inurl_keywords keywords) ->
  (exists k, In k keywords /\ inurl_keyword k = Some t) /\
  exists u, t = "inurl:" ++ u /\ u <> EmptyString /\ UrlParse.forall_chars no_space u = true.
Proof.
  intros keywords. unfold unique_inurl_keywords.
  split; [apply ListFacts.dedup_first_NoDup|].
  intros t Ht. apply ListFacts.dedup_first_In, in_flat_map in Ht as [k [Hk Ht]].
  destruct (inurl_keyword k) as [t'|] eqn:E; [|destruct Ht].
  destruct Ht as [<-|[]].
  split; [exists k; split; assumption|]. eapply inurl_keyword_shape. exact E.
Qed.

Lemma valid_identifiers_nil : forall ids,
  valid_identifiers ids = [] <-> Forall (fun i => PyStr.strip i = EmptyString) ids.
Proof.
  induction ids as [|i ids IH]; [split; [constructor|reflexivity]|].
  unfold valid_identifiers in *. cbn [filter].
  destruct (String.eqb_spec (PyStr.strip i) EmptyString) as [E|E]; cbn [negb].
  - rewrite IH. split; [intro H; constructor; assumption|intro H; inversion H; assumption].
  - split; [discriminate|]. intro H. inversion H. contradiction.
Qed.

(** [_build_search_query] and [_build_search_query_v2] raise [ValueError]
    exactly when every identifier is empty or whitespace only. *)
Theorem build_search_query_none : forall ids keywords excluded,
  (build_search_query ids keywords excluded = None <->
   Forall (fun i => PyStr.strip i = EmptyString) ids) /\
  (build_search_query_v2 ids keywords excluded = None <->
   Forall (fun i => PyStr.strip i = EmptyString) ids).
Proof.
  intros ids keywords excluded. rewrite <- valid_identifiers_nil.
  unfold build_search_query, build_search_query_v2.
  destruct (valid_identifiers ids); split; split; congruence.
Qed.

Lemma found_domains_length : forall ip6 organic,
  length (HunterFacts.found_domains ip6 organic) <= length organic.
Proof.
  intros ip6. induction organic as [|r organic IH]; [reflexivity|].
  unfold HunterFacts.found_domains in *. cbn [flat_map length].
  destruct (url r) as [u|]; [destruct (extract_base_domain ip6 u)|]; cbn; lia.
Qed.

Lemma extract_websites_facts : forall ip6 organic,
  let w := extract_websites_from_results ip6 organic in
  NoDup w /\ length w <= length organic.
Proof.
  intros ip6 organic. cbv zeta. unfold extract_websites_from_results.
  rewrite HunterFacts.fold_extract. cbn [app].
  split; [apply ListFacts.dedup_first_NoDup|].
  eapply Nat.le_trans; [apply ListFacts.dedup_first_length|apply found_domains_length].
Qed.

Lemma build_some : forall ids keywords excluded (b : bool),
  valid_identifiers ids <> [] ->
  exists q, (if b then build_search_query_v2 ids keywords excluded
             else build_search_query ids keywords excluded) = Some q.
Proof.
  intros ids keywords excluded b H. unfold build_search_query, build_search_query_v2.
  destruct (valid_identifiers ids); [contradiction|]. destruct b; eexists; reflexivity.
Qed.

(** Unless an unexpected exception occurs (not modelled),
    [find_company_website] never reports PARSING_ERROR: the query builders'
    [ValueError] cannot occur, as the company number is not blank. It reports
    INVALID_IDENTIFIER exactly when the stripped company number is empty,
    QUOTA_EXCEEDED exactly when the number is not empty and the quota check
    gives a remaining count of at most 0, and SUCCESS exactly when it found
    some website. The websites it returns are distinct and no more than the
    organic results of the search. *)
Theorem find_company_website_outcomes :
  forall is_ipv6_address query_version check_api_quota make_search_request cd keywords excluded,
  let r := find_company_website is_ipv6_address query_version check_api_quota
             make_search_request cd keywords excluded in
  let num := PyStr.strip (match cd_company_number cd with Some v => v | None => EmptyString end) in
  search_status r <> PARSING_ERROR /\
  (search_status r = INVALID_IDENTIFIER <-> num = EmptyString) /\
  (search_status r = QUOTA_EXCEEDED <->
   num <> EmptyString /\ exists q, check_api_quota = Some (Some q) /\ (q <= 0)%Z) /\
  (search_status r = SUCCESS <-> websites_found r <> []) /\
  NoDup (websites_found r) /\
  length (websites_found r) <= total_results_found r.
Proof.
  intros ip6 qv quota msr cd keywords excluded. cbv zeta.
  unfold find_company_website. cbv zeta.
  set (num := PyStr.strip (match cd_company_number cd with Some v => v | None => EmptyString end)).
  assert (Hs : PyStr.strip num = num) by apply StripFacts.strip_idem.
  destruct (String.eqb_spec num EmptyString) as [Hn|Hn].
  { cbn. split; [discriminate|]. split; [tauto|].
    split; [split; [discriminate|intros [H _]; contradiction]|].
    split; [split; [discriminate|intro H; contradiction H; reflexivity]|].
    split; [constructor|lia]. }
  destruct quota as [[q|]|] eqn:EQ;
    [destruct (Z.leb_spec q 0) as [Hle|Hgt]|..]; cbn iota beta.
  { cbn. split; [discriminate|]. split; [split; [discriminate|contradiction]|].
    split; [split; [intros _; split; [exact Hn|exists q; split; [reflexivity|exact Hle]]|reflexivity]|].
    split; [split; [discriminate|intro H; contradiction H; reflexivity]|].
    split; [constructor|lia]. }
  all: match goal with |- context [if Nat.eqb ?qv 2 then build_search_query_v2 ?ids ?k ?e
                                   else build_search_query ?ids ?k ?e] =>
         assert (Hb : valid_identifiers ids <> []) end;
    [unfold valid_identifiers; cbn [app filter]; rewrite Hs;
     rewrite (proj2 (String.eqb_neq _ _) Hn); discriminate|..].
  all: match goal with |- context [if Nat.eqb ?v 2 then build_search_query_v2 ?ids ?k ?e
                                   else build_search_query ?ids ?k ?e] =>
         destruct (build_some ids k e (Nat.eqb v 2) Hb) as [sq Hsq]; rewrite Hsq end.
  all: destruct (msr sq) as [organic|];
    [pose proof (extract_websites_facts ip6 organic) as Hf; cbv zeta in Hf; revert Hf;
     destruct (extract_websites_from_results ip6 organic) as [|w ws]; intros [Hnd Hlen]|];
    cbn [search_status websites_found total_results_found create_error_result].
  all: split; [discriminate|].
  all: split; [split; [discriminate|contradiction]|].
  all: split; [split; [discriminate|intros [_ [q' [E Hle']]];
                       (discriminate E || (injection E as <-; lia))]|].
  all: split; [split; [first [intros _; discriminate|discriminate]
                      |first [reflexivity|intro H; contradiction H; reflexivity]]|].
  all: first [split; [constructor|simpl; lia] | split; assumption].
Qed.
End HunterMoreFacts.

Module LinkedInMoreFacts.
Import LinkedIn LinkedInMore.
Local Open Scope nat_scope.
Local Open Scope string_scope.

(** The order [sort(key=score, reverse=True)] establishes. *)
Definition score_ge (a b : LinkedInResult) : Prop := score b <= score a.

Definition company_shape (li : LinkedInResult) : Prop :=
  PyStr.contains (PyStr.lower (url li)) "linkedin.com" = true /\
  is_company_url li = true /\ 1 <= score li <= 3.

Definition employee_shape (li : LinkedInResult) : Prop :=
  PyStr.contains (PyStr.lower (url li)) "linkedin.com" = true /\
  is_company_url li = false /\ is_employee_url li = true /\ 1 <= score li <= 3.

Lemma insert_by_score_sorted : forall x l,
  Sorted score_ge l -> Sorted score_ge (insert_by_score x l).
Proof.
  intros x l. induction l as [|y l IH]; intro H; cbn [insert_by_score].
  - constructor; constructor.
  - destruct (Nat.ltb_spec (score y) (score x)).
    + constructor; [exact H|]. constructor. unfold score_ge; lia.
    + inversion H as [|? ? Hs Hh]; subst. constructor; [apply IH; assumption|].
      destruct l as [|z l']; cbn [insert_by_score].
      * constructor. unfold score_ge; lia.
      * destruct (Nat.ltb (score z) (score x)); constructor; unfold score_ge; [lia|].
        inversion Hh; assumption.
Qed.

Lemma sort_by_score_sorted : forall l, Sorted score_ge (sort_by_score l).
Proof.
  intro l. unfold sort_by_score.
  assert (G : forall acc, Sorted score_ge acc ->
            Sorted score_ge (fold_left (fun acc x => insert_by_score x acc) l acc)).
  { induction l as [|x l IH]; intros acc H; [exact H|]. apply IH, insert_by_score_sorted, H. }
  apply G. constructor.
Qed.

Lemma score_le_3 : forall ip6 name w r,
  fst (score_linkedin_result ip6 r name w) <= 3.
Proof.
  intros ip6 name w r. rewrite LinkedInFacts.score_linkedin_result_spec.
  unfold LinkedInFacts.spec_score.
  destruct (PyStr.contains _ _); destruct (LinkedInFacts.verified_domain _ _);
    try destruct (PyStr.contains _ _); lia.
Qed.

Lemma process_fold_shape : forall ip6 name w rs acc,
  Forall company_shape (fst acc) -> Forall employee_shape (snd acc) ->
  let res := fold_left
      (fun '(cs, es) result =>
         if negb (PyStr.contains (PyStr.lower (r_url result)) "linkedin.com") then (cs, es)
         else
           let '(sc, md) := score_linkedin_result ip6 result name w in
           if Nat.eqb sc 0 then (cs, es)
           else
             let li := mkLinkedIn (r_url result) (r_title result) (r_description result)
                                  (r_position result) sc md in
             if is_company_url li then (app cs [li], es)
             else if is_employee_url li then (cs, app es [li])
             else (cs, es))
      rs acc in
  Forall company_shape (fst res) /\ Forall employee_shape (snd res).
Proof.
  intros ip6 name w. induction rs as [|r rs IH]; intros [cs es] Hc He;
    [cbv zeta; simpl in *; tauto|].
  cbn [fst snd] in Hc, He.
  pose proof (score_le_3 ip6 name w r) as Hs.
  cbv zeta. cbn [fold_left]. apply IH; cbv beta iota;
  (destruct (PyStr.contains (PyStr.lower (r_url r)) "linkedin.com") eqn:El; cbn [negb];
     [|assumption]);
  destruct (score_linkedin_result ip6 r name w) as [sc md]; cbn [fst] in Hs; cbv iota;
  (destruct (Nat.eqb_spec sc 0) as [_|Hsc]; [assumption|]);
  (destruct (is_company_url _) eqn:Ec; [|destruct (is_employee_url _) eqn:Ee]);
  cbn [fst snd]; try assumption.
  all: apply Forall_app; (split; [assumption|]).
  all: apply Forall_cons; [|apply Forall_nil].
  all: unfold company_shape, employee_shape; cbn [url score].
  all: repeat split; first [assumption | lia].
Qed.

(** In the two lists [_process_zenserp_results] returns, every company
    result's lower-cased URL contains linkedin.com and /company/, every
    employee result's contains linkedin.com and /in/ but not /company/,
    every score is 1, 2 or 3, and each list is ordered by non-increasing
    score. *)
Theorem process_zenserp_results_shape :
  forall is_ipv6_address organic company_name website,
  let res := process_zenserp_results is_ipv6_address organic company_name website in
  Forall (fun li => PyStr.contains (PyStr.lower (url li)) "linkedin.com" = true /\
                    is_company_url li = true /\ 1 <= score li <= 3) (fst res) /\
  Forall (fun li => PyStr.contains (PyStr.lower (url li)) "linkedin.com" = true /\
                    is_company_url li = false /\ is_employee_url li = true /\
                    1 <= score li <= 3) (snd res) /\
  Sorted (fun a b => score b <= score a) (fst res) /\
  Sorted (fun a b => score b <= score a) (snd res).
Proof.
  intros ip6 organic name w. cbv zeta. unfold process_zenserp_results.
  destruct (process_fold_shape ip6 name w organic ([], []) (Forall_nil _) (Forall_nil _))
    as [Hc He].
  destruct (fold_left _ organic ([], [])) as [cs es]. cbn [fst snd] in *.
  split; [apply LinkedInFacts.sort_by_score_Forall, Hc|].
  split; [apply LinkedInFacts.sort_by_score_Forall, He|].
  split; apply sort_by_score_sorted.
Qed.





(** The module-level [find_linkedin_profiles] reports INVALID_COMPANY_NAME
    exactly when [validate_company_name] rejects the name. *)
Theorem find_linkedin_profiles_checked_invalid :
  forall is_ipv6_address make_zenserp_request name website,
  search_status (find_linkedin_profiles_checked is_ipv6_address make_zenserp_request name website)
    = INVALID_COMPANY_NAME <->
  validate_company_name name = false.
Proof.
  intros ip6 mzr name w. unfold find_linkedin_profiles_checked.
  destruct (validate_company_name name) eqn:V; cbn [negb].
  - split; [|discriminate]. intro H. unfold validate_company_name in V.
    unfold find_linkedin_profiles in H.
    destruct (String.eqb (PyStr.strip name) EmptyString); [discriminate V|].
    destruct (mzr _) as [zd|]; [|discriminate H].
    destruct (process_zenserp_results _ _ _ _) as [cs es].
    destruct (Nat.eqb _ 0); discriminate H.
  - split; reflexivity.
Qed.

End LinkedInMoreFacts.
